(** * Server actions of the import workflow (app/actions/import.ts)

    A shallow embedding of the shipment actions: the relational store is a
    record of tables (lists of rows, in insertion order), every action takes
    the world it runs in (session, clock, random draw, generated keys) and the
    store, and returns what the caller observes together with the new store.

    A JSON text column is represented by the value its text denotes: the
    code only ever writes such a column with [JSON.stringify] and reads it
    with [JSON.parse].

    Logging, the invalidation of rendered pages and the simulated upload
    delay ([console.error], [revalidatePath], [setTimeout]) change neither
    the store nor what an action returns, and are left out. *)

From Stdlib Require Import ZArith NArith Ascii String SpecFloat.
From stdpp Require Import base decidable option list strings gmap sorting.

Local Open Scope string_scope.
Local Open Scope stdpp_scope.
Local Open Scope Z_scope.

(** ** Outcomes of an [async] function: a value, or a thrown [Error]. *)

Inductive result (A : Type) : Type :=
| Ok (a : A)
| Throw (message : string).
Arguments Ok {A} a.
Arguments Throw {A} message.

#[global] Instance result_ret : MRet result := λ A a, Ok a.

#[global] Instance result_bind : MBind result := λ A B k r,
  match r with
  | Ok a => k a
  | Throw m => Throw m
  end.

(** [try { body } catch (error) { handler }] *)
Definition try_catch {A} (body : result A) (handler : string -> A) : A :=
  match body with
  | Ok a => a
  | Throw m => handler m
  end.

(** ** Free-form JSON payloads (notes, cargo, timeline entries, ...) *)

#[local] Set Warnings "-register-all".

Inductive json : Type :=
| JNull
| JBool (b : bool)
| JNum (n : Z)
| JStr (s : string)
| JArr (items : list json)
| JObj (fields : list (string * json)).

(** A text column written as [JSON.stringify(x || {})]: the empty object, or
    the object [x]. *)
Inductive snapshot (A : Type) : Type :=
| EmptyObject
| Snapshot (a : A).
Arguments EmptyObject {A}.
Arguments Snapshot {A} a.

(** ** Strings and numbers as JavaScript prints them *)

(** [a || b] on strings: the empty string is falsy. *)
Definition str_or (a b : string) : string :=
  if decide (a = "") then b else a.

(** [a || b] where [a] may be undefined. *)
Definition opt_or (a : option string) (b : string) : string :=
  match a with
  | Some s => str_or s b
  | None => b
  end.

(** Truthiness of an optional string such as [consignee.id]. *)
Definition truthy (a : option string) : bool :=
  match a with
  | Some s => bool_decide (s ≠ "")
  | None => false
  end.

Definition digit (n : Z) : ascii := ascii_of_N (Z.to_N (48 + n)).

Definition is_digit (c : ascii) : Prop :=
  (48 <= N_of_ascii c <= 57)%N.

Fixpoint all_digits (s : string) : Prop :=
  match s with
  | EmptyString => True
  | String c s' => is_digit c ∧ all_digits s'
  end.

(** Decimal digits of a number that is not negative, most significant
    first. *)
Fixpoint digits (fuel : nat) (n : Z) : string :=
  match fuel with
  | O => ""
  | S fuel' =>
      if n <? 10 then String (digit n) ""
      else digits fuel' (n / 10) +:+ String (digit (n mod 10)) ""
  end.

Definition nat_toString (n : Z) : string := digits (S (Z.to_nat (Z.log2 n))) n.

(** [Number.prototype.toString()] on an integer. *)
Definition toString (z : Z) : string :=
  if z <? 0 then "-" +:+ nat_toString (- z) else nat_toString z.

Fixpoint repeat_char (k : nat) (c : ascii) : string :=
  match k with
  | O => ""
  | S k' => String c (repeat_char k' c)
  end.

(** [s.padStart(n, c)] for a one-character pad. *)
Definition padStart (n : nat) (c : ascii) (s : string) : string :=
  repeat_char (n - String.length s) c +:+ s.

(** [s.slice(-k)]: the last [k] characters, the whole string when shorter. *)
Definition slice_last (k : nat) (s : string) : string :=
  String.substring (String.length s - k) k s.

(** The last two decimal digits of [n], and the last four. *)
Definition two_digits (n : Z) : string :=
  String (digit (n / 10 mod 10)) (String (digit (n mod 10)) "").

Definition four_digits (n : Z) : string :=
  String (digit (n / 1000 mod 10)) (String (digit (n / 100 mod 10)) (two_digits n)).

(** ** Doubles

    A JavaScript number is an IEEE 754 binary64 value: a [spec_float] with
    53 bits of precision, the finite ones [m * 2 ^ e] with [m] below
    [2 ^ 53]. Arithmetic rounds to the nearest double, ties to the even
    mantissa. *)

Definition prec : Z := 53.
Definition emax : Z := 1024.

(** The doubles 1 = 2^52 * 2^-52 and 10000 = (10000 * 2^39) * 2^-39. *)
Definition one : spec_float := S754_finite false 4503599627370496 (-52).
Definition ten_thousand : spec_float := S754_finite false 5497558138880000 (-39).

(** What [Math.random()] may return: a double [r] with [0 <= r < 1]. *)
Definition is_draw (r : spec_float) : bool :=
  valid_binary prec emax r && SFleb (S754_zero false) r && SFltb r one.

(** What [Math.floor] returns: an integer (the zero of either sign prints
    as 0), or its argument when that is NaN or infinite. *)
Inductive floored := NaN | Infinity (negative : bool) | Integer (z : Z).

Definition Math_floor (x : spec_float) : floored :=
  match x with
  | S754_nan => NaN
  | S754_infinity s => Infinity s
  | S754_zero _ => Integer 0
  | S754_finite s m e => Integer (Z.shiftl (cond_Zopp s (Zpos m)) e)
  end.

(** The double nearest to an integer. *)
Definition to_double (z : Z) : spec_float := binary_normalize prec emax z 0 false.

Definition same_double (v z : Z) : bool := SFeqb (to_double v) (to_double z).

(** The decimal of fewest significant digits that reads back as the double
    [z], an integer of [n] digits: with [k] significant digits the
    candidates are the multiples of [10 ^ (n - k)] next to [z]; of two that
    read back as [z] the nearer one is taken, and the one with the even
    last digit when they are equally near. *)
Fixpoint shortest (fuel : nat) (k n z : Z) : Z :=
  match fuel with
  | O => z
  | S fuel' =>
      let step := 10 ^ (n - k) in
      let lo := z / step * step in
      let hi := if z mod step =? 0 then lo else lo + step in
      match same_double lo z, same_double hi z with
      | true, true =>
          if z - lo <? hi - z then lo
          else if hi - z <? z - lo then hi
          else if Z.even (z / step) then lo else hi
      | true, false => lo
      | false, true => hi
      | false, false => shortest fuel' (k + 1) n z
      end
  end.

(** A string of digits without the zeros it ends in. *)
Fixpoint strip_zeros (s : string) : string :=
  match s with
  | EmptyString => ""
  | String c s' =>
      match strip_zeros s' with
      | EmptyString => if Ascii.eqb c "0" then "" else String c ""
      | t => String c t
      end
  end.

(** [Number.prototype.toString()] on a double that is an integer and not
    negative. Up to [2 ^ 53] every integer is a double and prints all its
    digits. Above, the decimal of fewest digits is printed: in full when it
    has at most 21 digits, with an exponent otherwise. *)
Definition double_toString (z : Z) : string :=
  if z <=? 9007199254740992 then nat_toString z
  else
    let n := Z.of_nat (String.length (nat_toString z)) in
    let v := nat_toString (shortest (Z.to_nat n) 1 n z) in
    let m := Z.of_nat (String.length v) in
    if m <=? 21 then v
    else
      match strip_zeros v with
      | EmptyString => ""
      | String c EmptyString => String c ("e+" +:+ nat_toString (m - 1))
      | String c s => String c ("." +:+ s +:+ "e+" +:+ nat_toString (m - 1))
      end.

(** [Math.floor(x).toString()] *)
Definition floored_toString (x : floored) : string :=
  match x with
  | NaN => "NaN"
  | Infinity false => "Infinity"
  | Infinity true => "-Infinity"
  | Integer z => if z <? 0 then "-" +:+ double_toString (- z) else double_toString z
  end.

(** ** The world an action runs in *)

(** A [Date] object, by the three observations the code makes of it. *)
Record Date := {
  getTime : Z;
  getFullYear : Z;
  toISOString : string;
}.

Record User := { user_id : string }.

Record Session := { user : option User }.

Record File := { file_name : string }.

Inductive Table := ConsigneeTable | ExporterTable | ShipmentTable.

Record Env := {
  validateSession : option Session;   (* what [validateSession()] resolves to *)
  now : Date;                         (* [new Date()] *)
  random : spec_float;                (* [Math.random()], a double *)
  cuid : Table -> string;             (* the key the store gives a new row *)
}.


(** ** Request payloads ([ShipmentData] and its parts)

    The type declarations of [@/types/import/workflow] are outside these
    sources; the records below carry the fields the actions read, with the
    types their uses require. *)

Module ConsigneeData.
Record t := {
  id : option string;
  name : string;
  address : string;
  tin : string;
  brn : string;
  contactPerson : option string;
  contactNumber : option string;
  email : option string;
}.
End ConsigneeData.

Module ExporterData.
Record t := {
  id : option string;
  name : string;
  address : string;
  contactPerson : option string;
  contactNumber : option string;
  email : option string;
}.
End ExporterData.

(** An entry of a shipment's document checklist; [rest] holds the properties
    the actions carry along without reading them. *)
Module ChecklistItem.
Record t := {
  name : string;
  status : string;
  files : option (list string);
  rest : list (string * json);
}.
End ChecklistItem.

(** [Partial<ShipmentData>]: every field may be missing. *)
Module ShipmentData.
Record t := {
  consignee : option ConsigneeData.t;
  exporter : option ExporterData.t;
  shipmentDetails : option (gmap string string);
  documents : option (list ChecklistItem.t);
  timeline : option (list json);
  notes : option (list json);
  cargo : option (list json);
  statementOfFacts : option (list json);
}.
End ShipmentData.

(** ** Rows of the relational store *)

Module Consignee.
Record t := {
  id : string;
  name : string;
  registeredName : string;
  businessAddress : string;
  tin : string;
  brn : string;
  contactPerson : string;
  contactNumber : string;
  email : string;
  userId : string;
  createdAt : Date;
}.
End Consignee.

Module Exporter.
Record t := {
  id : string;
  name : string;
  businessAddress : string;
  contactPerson : string;
  contactNumber : string;
  email : string;
  userId : string;
  createdAt : Date;
}.
End Exporter.

(** A verified file of a consignee (not the per-shipment checklist). *)
Module Document.
Record t := {
  id : string;
  name : string;
  fileUrl : string;
  uploadedAt : Date;
  isVerified : bool;
  consigneeId : string;
}.
End Document.

Module Shipment.
Record t := {
  id : string;
  referenceNumber : string;
  freightType : string;
  status : string;
  consigneeId : option string;
  exporterId : option string;
  userId : string;
  consigneeData : snapshot ConsigneeData.t;
  exporterData : snapshot ExporterData.t;
  shipmentDetails : gmap string string;
  documentsData : list ChecklistItem.t;
  timelineData : list json;
  notesData : list json;
  computations : option json;
  cargoData : option (list json);
  statementOfFactsData : option (list json);
  isLocked : bool;
  completionDate : option Date;
  createdAt : Date;
  updatedAt : Date;
}.
End Shipment.

(** The [data] object of [prisma.shipment.update]: a column is written
    exactly when its key is present. *)
Module ShipmentUpdate.
Record t := {
  status : option string;
  consigneeId : option (option string);
  exporterId : option (option string);
  consigneeData : option (snapshot ConsigneeData.t);
  exporterData : option (snapshot ExporterData.t);
  shipmentDetails : option (gmap string string);
  documentsData : option (list ChecklistItem.t);
  timelineData : option (list json);
  notesData : option (list json);
  cargoData : option (list json);
  statementOfFactsData : option (list json);
  updatedAt : option Date;
}.

Definition apply (d : t) (r : Shipment.t) : Shipment.t := {|
  Shipment.id := Shipment.id r;
  Shipment.referenceNumber := Shipment.referenceNumber r;
  Shipment.freightType := Shipment.freightType r;
  Shipment.status := default (Shipment.status r) (status d);
  Shipment.consigneeId := default (Shipment.consigneeId r) (consigneeId d);
  Shipment.exporterId := default (Shipment.exporterId r) (exporterId d);
  Shipment.userId := Shipment.userId r;
  Shipment.consigneeData := default (Shipment.consigneeData r) (consigneeData d);
  Shipment.exporterData := default (Shipment.exporterData r) (exporterData d);
  Shipment.shipmentDetails := default (Shipment.shipmentDetails r) (shipmentDetails d);
  Shipment.documentsData := default (Shipment.documentsData r) (documentsData d);
  Shipment.timelineData := default (Shipment.timelineData r) (timelineData d);
  Shipment.notesData := default (Shipment.notesData r) (notesData d);
  Shipment.computations := Shipment.computations r;
  Shipment.cargoData :=
    match cargoData d with Some v => Some v | None => Shipment.cargoData r end;
  Shipment.statementOfFactsData :=
    match statementOfFactsData d with
    | Some v => Some v
    | None => Shipment.statementOfFactsData r
    end;
  Shipment.isLocked := Shipment.isLocked r;
  Shipment.completionDate := Shipment.completionDate r;
  Shipment.createdAt := Shipment.createdAt r;
  Shipment.updatedAt := default (Shipment.updatedAt r) (updatedAt d);
|}.
End ShipmentUpdate.

Record Store := {
  consignees : list Consignee.t;
  exporters : list Exporter.t;
  documents : list Document.t;
  shipments : list Shipment.t;
}.

Definition set_consignees (rows : list Consignee.t) (s : Store) : Store :=
  {| consignees := rows; exporters := exporters s;
     documents := documents s; shipments := shipments s |}.

Definition set_exporters (rows : list Exporter.t) (s : Store) : Store :=
  {| consignees := consignees s; exporters := rows;
     documents := documents s; shipments := shipments s |}.

Definition set_shipments (rows : list Shipment.t) (s : Store) : Store :=
  {| consignees := consignees s; exporters := exporters s;
     documents := documents s; shipments := rows |}.

(** ** The query engine, as far as the actions use it *)

Section Queries.
Context {A : Type} (P : A → Prop) `{!∀ x, Decision (P x)}.

(** [findMany({ where })] *)
Definition findMany (rows : list A) : list A := filter P rows.

(** [findFirst({ where })] and [findUnique({ where })]: the first row, in
    the table's order, that satisfies the condition. *)
Definition findFirst (rows : list A) : option A := head (filter P rows).
End Queries.

(** [create({ data })]: the new row goes after the existing ones. *)
Definition create {A} (row : A) (rows : list A) : list A := rows ++ [row].

(** [shipment.update({ where: { id }, data })]: the row of that key is
    rewritten; the call throws when there is none. Keys are unique in a
    table, so one row at most has the key. *)
Definition update_rows (id : string) (d : ShipmentUpdate.t)
    (rows : list Shipment.t) : list Shipment.t :=
  (λ r, if decide (Shipment.id r = id) then ShipmentUpdate.apply d r else r) <$> rows.

Definition shipment_update (id : string) (d : ShipmentUpdate.t) (s : Store)
    : result (Shipment.t * Store) :=
  match findFirst (λ r, Shipment.id r = id) (shipments s) with
  | Some r =>
      Ok (ShipmentUpdate.apply d r, set_shipments (update_rows id d (shipments s)) s)
  | None => Throw "Record to update not found."
  end.

(** [orderBy: { createdAt: 'desc' }] *)
Definition not_older {A} (createdAt : A → Date) (a b : A) : Prop :=
  getTime (createdAt b) ≤ getTime (createdAt a).

#[global] Instance not_older_dec {A} (createdAt : A → Date) :
  RelDecision (not_older createdAt).
Proof. intros a b. unfold not_older. apply _. Defined.

Definition newest_first {A} (createdAt : A → Date) (rows : list A) : list A :=
  merge_sort (not_older createdAt) rows.

(** [include: { consignee: { include: { documents: true } } }] *)
Definition include_consignee (s : Store) (r : Shipment.t)
    : option (Consignee.t * list Document.t) :=
  c ← Shipment.consigneeId r ≫= λ cid, findFirst (λ c, Consignee.id c = cid) (consignees s);
  Some (c, findMany (λ d, Document.consigneeId d = Consignee.id c) (documents s)).

(** [include: { exporter: true }] *)
Definition include_exporter (s : Store) (r : Shipment.t) : option Exporter.t :=
  Shipment.exporterId r ≫= λ eid, findFirst (λ e, Exporter.id e = eid) (exporters s).

(** [prisma.$transaction(callback)]: the callback's writes are kept when it
    returns and dropped when it throws. *)
Definition transaction {A} (callback : Store → result (A * Store)) (s : Store)
    : result (A * Store) :=
  callback s.

(** What a caller observes of an action that may throw, with the store the
    action leaves behind: [s'] when the body returned, [s] when it threw
    (no action of this file writes before it throws). *)
Definition run {A B} (body : result (A * Store)) (s : Store)
    (on_return : A → B) (on_throw : string → B) : B * Store :=
  match body with
  | Ok (a, s') => (on_return a, s')
  | Throw error => (on_throw error, s)
  end.

(** ** The actions *)

(** Helper function to get the current user or throw if unauthorized *)
Definition getCurrentUser (env : Env) : result User :=
  match validateSession env with
  | Some {| user := Some u |} => Ok u
  | _ => Throw "Unauthorized"
  end.

(** [where: { id, userId: user.id }] on shipments *)
Definition owned_shipment (id : string) (u : User) (s : Store) : option Shipment.t :=
  findFirst (λ r, Shipment.id r = id ∧ Shipment.userId r = user_id u) (shipments s).

(** *** createShipmentAction *)

Record CreateShipmentInput := {
  shipmentType : string;
  formData : ShipmentData.t;
}.

Record CreateShipmentOutput := {
  success : bool;
  referenceNumber : string;
  shipment : Shipment.t;
}.

(** The [data] of [tx.consignee.create] (lines 53-63). *)
Definition new_consignee (env : Env) (u : User) (fd : ShipmentData.t)
    (c : ConsigneeData.t) : Consignee.t := {|
  Consignee.id := cuid env ConsigneeTable;
  Consignee.name := ConsigneeData.name c;
  Consignee.registeredName := ConsigneeData.name c;
  Consignee.businessAddress := ConsigneeData.address c;
  Consignee.tin := str_or (ConsigneeData.tin c) "";
  Consignee.brn := str_or (ConsigneeData.brn c) "";
  Consignee.contactPerson :=
    opt_or (ShipmentData.shipmentDetails fd ≫= λ d, d !! "contact_person") "";
  Consignee.contactNumber :=
    opt_or (ShipmentData.shipmentDetails fd ≫= λ d, d !! "contact_number") "";
  Consignee.email := "";
  Consignee.userId := user_id u;
  Consignee.createdAt := now env;
|}.

(** Handle Consignee (lines 37-67) *)
Definition handleConsignee (env : Env) (u : User) (fd : ShipmentData.t) (tx : Store)
    : option string * Store :=
  match ShipmentData.consignee fd with
  | Some c =>
      if truthy (ConsigneeData.id c) then
        match findFirst (λ r, (Consignee.tin r = ConsigneeData.tin c
                               ∨ Consignee.name r = ConsigneeData.name c)
                              ∧ Consignee.userId r = user_id u) (consignees tx) with
        | Some existingConsignee => (Some (Consignee.id existingConsignee), tx)
        | None =>
            let newConsignee := new_consignee env u fd c in
            (Some (Consignee.id newConsignee),
             set_consignees (create newConsignee (consignees tx)) tx)
        end
      else (None, tx)
  | None => (None, tx)
  end.

(** The [data] of [tx.exporter.create] (lines 85-92). *)
Definition new_exporter (env : Env) (u : User) (e : ExporterData.t) : Exporter.t := {|
  Exporter.id := cuid env ExporterTable;
  Exporter.name := ExporterData.name e;
  Exporter.businessAddress := ExporterData.address e;
  Exporter.contactPerson := "";
  Exporter.contactNumber := "";
  Exporter.email := "";
  Exporter.userId := user_id u;
  Exporter.createdAt := now env;
|}.

(** Handle Exporter (lines 70-96) *)
Definition handleExporter (env : Env) (u : User) (fd : ShipmentData.t) (tx : Store)
    : option string * Store :=
  match ShipmentData.exporter fd with
  | Some e =>
      match findFirst (λ r, (Exporter.name r = ExporterData.name e
                             ∧ Exporter.businessAddress r = ExporterData.address e)
                            ∧ Exporter.userId r = user_id u) (exporters tx) with
      | Some existingExporter => (Some (Exporter.id existingExporter), tx)
      | None =>
          let newExporter := new_exporter env u e in
          (Some (Exporter.id newExporter),
           set_exporters (create newExporter (exporters tx)) tx)
      end
  | None => (None, tx)
  end.

(** The template literal of line 100; the product is the double product of
    the draw and 10000. *)
Definition reference_number (shipmentType : string) (env : Env) : string :=
  "CLEX-" +:+ shipmentType
    +:+ slice_last 2 (toString (getFullYear (now env)))
    +:+ "-"
    +:+ padStart 4 "0"
          (floored_toString (Math_floor (SFmul prec emax (random env) ten_thousand))).

(** The one timeline entry of a new shipment; a [Date] is stringified to its
    ISO text. *)
Definition created_event (env : Env) : json :=
  JObj [("status", JStr "CLIENT_DETAILS");
        ("timestamp", JStr (toISOString (now env)));
        ("description", JStr "Shipment created")].

(** The row of lines 98-118. The columns the call does not name take the
    defaults of the schema, which is outside these sources: nullable columns
    are null, the lock flag is off, both timestamps are the current time. *)
Definition new_shipment (env : Env) (u : User) (data : CreateShipmentInput)
    (consigneeId exporterId : option string) : Shipment.t := {|
  Shipment.id := cuid env ShipmentTable;
  Shipment.referenceNumber := reference_number (shipmentType data) env;
  Shipment.freightType := shipmentType data;
  Shipment.status := "CLIENT_DETAILS";
  Shipment.consigneeId := consigneeId;
  Shipment.exporterId := exporterId;
  Shipment.userId := user_id u;
  Shipment.consigneeData :=
    from_option Snapshot EmptyObject (ShipmentData.consignee (formData data));
  Shipment.exporterData :=
    from_option Snapshot EmptyObject (ShipmentData.exporter (formData data));
  Shipment.shipmentDetails := default ∅ (ShipmentData.shipmentDetails (formData data));
  Shipment.documentsData := default [] (ShipmentData.documents (formData data));
  Shipment.timelineData := [created_event env];
  Shipment.notesData := [];
  Shipment.computations := Some (JObj []);
  Shipment.cargoData := None;
  Shipment.statementOfFactsData := None;
  Shipment.isLocked := false;
  Shipment.completionDate := None;
  Shipment.createdAt := now env;
  Shipment.updatedAt := now env;
|}.

Definition createShipmentAction (env : Env) (data : CreateShipmentInput) (s : Store)
    : result CreateShipmentOutput * Store :=
  run (user ← getCurrentUser env;
       transaction (λ tx,
         let '(consigneeId, tx) := handleConsignee env user (formData data) tx in
         let '(exporterId, tx) := handleExporter env user (formData data) tx in
         let shipment := new_shipment env user data consigneeId exporterId in
         Ok ({| success := true;
                referenceNumber := Shipment.referenceNumber shipment;
                shipment := shipment |},
             set_shipments (create shipment (shipments tx)) tx)) s)
      s
      Ok
      (λ error, Throw "Failed to create shipment").

(** *** getSavedEntitiesAction *)

Inductive ClientType := ConsigneeClient | ExporterClient.

(** A client summary; [tin] and [brn] are present for consignees only. *)
Record SavedEntity := {
  saved_id : string;
  saved_name : string;
  saved_address : string;
  saved_tin : option string;
  saved_brn : option string;
  saved_contactPerson : string;
  saved_contactNumber : string;
  saved_email : string;
}.

Definition getSavedEntitiesAction (env : Env) (type : ClientType) (s : Store)
    : list SavedEntity * Store :=
  run (user ← getCurrentUser env;
       match type with
       | ConsigneeClient =>
           let consignees :=
             newest_first Consignee.createdAt
               (findMany (λ c, Consignee.userId c = user_id user) (consignees s)) in
           Ok ((λ c, {| saved_id := Consignee.id c;
                        saved_name := Consignee.name c;
                        saved_address := Consignee.businessAddress c;
                        saved_tin := Some (Consignee.tin c);
                        saved_brn := Some (Consignee.brn c);
                        saved_contactPerson := Consignee.contactPerson c;
                        saved_contactNumber := Consignee.contactNumber c;
                        saved_email := Consignee.email c |}) <$> consignees, s)
       | ExporterClient =>
           let exporters :=
             newest_first Exporter.createdAt
               (findMany (λ e, Exporter.userId e = user_id user) (exporters s)) in
           Ok ((λ e, {| saved_id := Exporter.id e;
                        saved_name := Exporter.name e;
                        saved_address := Exporter.businessAddress e;
                        saved_tin := None;
                        saved_brn := None;
                        saved_contactPerson := Exporter.contactPerson e;
                        saved_contactNumber := Exporter.contactNumber e;
                        saved_email := Exporter.email e |}) <$> exporters, s)
       end)
      s
      (λ entities, entities)
      (λ error, []).

(** *** processDocumentUploadAction *)

Record UploadOutput := {
  upload_success : bool;
  fileUrl : string;
  upload_status : string;
}.

Definition simulatedUrl (env : Env) (shipmentId documentType : string) (file : File)
    : string :=
  "/simulated-uploads/" +:+ shipmentId +:+ "/" +:+ documentType +:+ "-"
    +:+ toString (getTime (now env)) +:+ "-" +:+ file_name file.

(** The callback of [documents.map] (lines 226-235). *)
Definition record_upload (documentType url : string) (doc : ChecklistItem.t)
    : ChecklistItem.t :=
  if decide (ChecklistItem.name doc = documentType) then
    {| ChecklistItem.name := ChecklistItem.name doc;
       ChecklistItem.status := "draft";
       ChecklistItem.files := Some (default [] (ChecklistItem.files doc) ++ [url])%list;
       ChecklistItem.rest := ChecklistItem.rest doc |}
  else doc.

Definition no_update : ShipmentUpdate.t := {|
  ShipmentUpdate.status := None;
  ShipmentUpdate.consigneeId := None;
  ShipmentUpdate.exporterId := None;
  ShipmentUpdate.consigneeData := None;
  ShipmentUpdate.exporterData := None;
  ShipmentUpdate.shipmentDetails := None;
  ShipmentUpdate.documentsData := None;
  ShipmentUpdate.timelineData := None;
  ShipmentUpdate.notesData := None;
  ShipmentUpdate.cargoData := None;
  ShipmentUpdate.statementOfFactsData := None;
  ShipmentUpdate.updatedAt := None;
|}.

Definition documents_update (docs : list ChecklistItem.t) : ShipmentUpdate.t := {|
  ShipmentUpdate.status := None;
  ShipmentUpdate.consigneeId := None;
  ShipmentUpdate.exporterId := None;
  ShipmentUpdate.consigneeData := None;
  ShipmentUpdate.exporterData := None;
  ShipmentUpdate.shipmentDetails := None;
  ShipmentUpdate.documentsData := Some docs;
  ShipmentUpdate.timelineData := None;
  ShipmentUpdate.notesData := None;
  ShipmentUpdate.cargoData := None;
  ShipmentUpdate.statementOfFactsData := None;
  ShipmentUpdate.updatedAt := None;
|}.

Definition processDocumentUploadAction (env : Env) (shipmentId documentType : string)
    (file : File) (s : Store) : result UploadOutput * Store :=
  run (user ← getCurrentUser env;
       match owned_shipment shipmentId user s with
       | None => Throw "Shipment not found or unauthorized"
       | Some shipment =>
           let url := simulatedUrl env shipmentId documentType file in
           let documents := Shipment.documentsData shipment in
           let updatedDocuments := record_upload documentType url <$> documents in
           '(_, s') ← shipment_update shipmentId (documents_update updatedDocuments) s;
           Ok ({| upload_success := true; fileUrl := url; upload_status := "draft" |}, s')
       end)
      s
      Ok
      (λ error, Throw "Failed to process document upload").

(** *** getShipmentsAction *)

Inductive FreightMode := sea | air.

Record ShipmentListItem := {
  item_id : string;
  item_referenceNumber : string;
  item_consignee : string;
  item_type : FreightMode;
  blNumber : option string;
  awbNumber : option string;
  item_status : string;
  eta : option string;
  item_completionDate : option string;
  lastUpdate : string;
  item_isLocked : bool;
}.

(** [x || undefined] and [x || null] on a string that may be missing. *)
Definition non_empty (a : option string) : option string :=
  a ≫= λ x, if decide (x = "") then None else Some x.

Definition snapshot_consignee_name (c : snapshot ConsigneeData.t) : option string :=
  match c with
  | Snapshot c => Some (ConsigneeData.name c)
  | EmptyObject => None
  end.

Definition list_item (s : Store) (shipment : Shipment.t) : ShipmentListItem :=
  let shipmentDetails := Shipment.shipmentDetails shipment in
  let shipmentType :=
    if decide (Shipment.freightType shipment = "IMS") then sea else air in
  {| item_id := Shipment.id shipment;
     item_referenceNumber := Shipment.referenceNumber shipment;
     item_consignee :=
       opt_or (Consignee.name ∘ fst <$> include_consignee s shipment)
         (opt_or (snapshot_consignee_name (Shipment.consigneeData shipment)) "N/A");
     item_type := shipmentType;
     blNumber :=
       match shipmentType with
       | sea => non_empty (shipmentDetails !! "bl_number")
       | air => None
       end;
     awbNumber :=
       match shipmentType with
       | air => non_empty (shipmentDetails !! "awb_number")
       | sea => None
       end;
     item_status := Shipment.status shipment;
     eta := non_empty (shipmentDetails !! "eta");
     item_completionDate :=
       non_empty (toISOString <$> Shipment.completionDate shipment);
     lastUpdate := toISOString (Shipment.updatedAt shipment);
     item_isLocked := Shipment.isLocked shipment |}.

Record ShipmentsOutput := {
  list_success : bool;
  data : list ShipmentListItem;
}.

Definition getShipmentsAction (env : Env) (s : Store) : ShipmentsOutput * Store :=
  run (user ← getCurrentUser env;
       let shipments :=
         newest_first Shipment.createdAt
           (findMany (λ r, Shipment.userId r = user_id user) (shipments s)) in
       Ok ({| list_success := true; data := list_item s <$> shipments |}, s))
      s
      (λ out, out)
      (λ error, {| list_success := false; data := [] |}).

(** *** getShipmentByIdAction *)

(** The full view of a shipment. The consignee and the exporter come from
    the linked row when there is one, from the JSON snapshot otherwise; [D]
    is the shape in which the consignee's verified files are listed. *)
Module ConsigneeView.
Record t (D : Type) := {
  id : string;
  name : string;
  address : string;
  tin : string;
  brn : string;
  contactPerson : string;
  contactNumber : string;
  email : string;
  documents : list D;
}.
Arguments id {D}. Arguments name {D}. Arguments address {D}.
Arguments tin {D}. Arguments brn {D}. Arguments contactPerson {D}.
Arguments contactNumber {D}. Arguments email {D}. Arguments documents {D}.
End ConsigneeView.

Module ExporterView.
Record t := {
  id : string;
  name : string;
  address : string;
  contactPerson : string;
  contactNumber : string;
  email : string;
}.
End ExporterView.

Inductive related (V A : Type) : Type :=
| Linked (v : V)
| Parsed (a : snapshot A).
Arguments Linked {V A} v.
Arguments Parsed {V A} a.

Module ShipmentView.
Record t (D : Type) := {
  id : string;
  referenceNumber : string;
  status : string;
  consignee : related (ConsigneeView.t D) ConsigneeData.t;
  exporter : related ExporterView.t ExporterData.t;
  shipmentDetails : gmap string string;
  documents : list ChecklistItem.t;
  timeline : list json;
  notes : list json;
  computations : option json;
  cargo : list json;
  statementOfFacts : list json;
}.
Arguments id {D}. Arguments referenceNumber {D}. Arguments status {D}.
Arguments consignee {D}. Arguments exporter {D}. Arguments shipmentDetails {D}.
Arguments documents {D}. Arguments timeline {D}. Arguments notes {D}.
Arguments computations {D}. Arguments cargo {D}. Arguments statementOfFacts {D}.
End ShipmentView.

Definition consignee_view {D} (f : Document.t → D) (c : Consignee.t)
    (docs : list Document.t) : ConsigneeView.t D := {|
  ConsigneeView.id := Consignee.id c;
  ConsigneeView.name := Consignee.name c;
  ConsigneeView.address := Consignee.businessAddress c;
  ConsigneeView.tin := Consignee.tin c;
  ConsigneeView.brn := Consignee.brn c;
  ConsigneeView.contactPerson := Consignee.contactPerson c;
  ConsigneeView.contactNumber := Consignee.contactNumber c;
  ConsigneeView.email := Consignee.email c;
  ConsigneeView.documents := f <$> docs;
|}.

Definition exporter_view (e : Exporter.t) : ExporterView.t := {|
  ExporterView.id := Exporter.id e;
  ExporterView.name := Exporter.name e;
  ExporterView.address := Exporter.businessAddress e;
  ExporterView.contactPerson := Exporter.contactPerson e;
  ExporterView.contactNumber := Exporter.contactNumber e;
  ExporterView.email := Exporter.email e;
|}.

(** The object literal both detail actions return (lines 326-366 and
    499-541), over a row fetched with its relations. *)
Definition shipment_view {D} (f : Document.t → D) (s : Store) (shipment : Shipment.t)
    : ShipmentView.t D := {|
  ShipmentView.id := Shipment.id shipment;
  ShipmentView.referenceNumber := Shipment.referenceNumber shipment;
  ShipmentView.status := Shipment.status shipment;
  ShipmentView.consignee :=
    match include_consignee s shipment with
    | Some (c, docs) => Linked (consignee_view f c docs)
    | None => Parsed (Shipment.consigneeData shipment)
    end;
  ShipmentView.exporter :=
    match include_exporter s shipment with
    | Some e => Linked (exporter_view e)
    | None => Parsed (Shipment.exporterData shipment)
    end;
  ShipmentView.shipmentDetails := Shipment.shipmentDetails shipment;
  ShipmentView.documents := Shipment.documentsData shipment;
  ShipmentView.timeline := Shipment.timelineData shipment;
  ShipmentView.notes := Shipment.notesData shipment;
  ShipmentView.computations := Shipment.computations shipment;
  ShipmentView.cargo := default [] (Shipment.cargoData shipment);
  ShipmentView.statementOfFacts := default [] (Shipment.statementOfFactsData shipment);
|}.

Definition getShipmentByIdAction (env : Env) (id : string) (s : Store)
    : option (ShipmentView.t Document.t) * Store :=
  run (user ← getCurrentUser env;
       match owned_shipment id user s with
       | None => Ok (None, s)
       | Some shipment => Ok (Some (shipment_view (λ d, d) s shipment), s)
       end)
      s
      (λ view, view)
      (λ error, None).

(** *** updateShipmentStatusAction *)

Record TimelineUpdate := {
  stage : string;
  tu_status : string;
  timestamp : string;
}.

Definition timeline_entry (t : TimelineUpdate) : json :=
  JObj [("stage", JStr (stage t));
        ("status", JStr (tu_status t));
        ("timestamp", JStr (timestamp t))].

Definition status_update (env : Env) (status : string) (timeline : list json)
    : ShipmentUpdate.t := {|
  ShipmentUpdate.status := Some status;
  ShipmentUpdate.consigneeId := None;
  ShipmentUpdate.exporterId := None;
  ShipmentUpdate.consigneeData := None;
  ShipmentUpdate.exporterData := None;
  ShipmentUpdate.shipmentDetails := None;
  ShipmentUpdate.documentsData := None;
  ShipmentUpdate.timelineData := Some timeline;
  ShipmentUpdate.notesData := None;
  ShipmentUpdate.cargoData := None;
  ShipmentUpdate.statementOfFactsData := None;
  ShipmentUpdate.updatedAt := Some (now env);
|}.

Definition updateShipmentStatusAction (env : Env) (id status : string)
    (timelineUpdate : option TimelineUpdate) (s : Store) : bool * Store :=
  run (user ← getCurrentUser env;
       match owned_shipment id user s with
       | None => Throw "Shipment not found"
       | Some shipment =>
           let timeline := Shipment.timelineData shipment in
           let updatedTimeline :=
             match timelineUpdate with
             | Some t => (timeline ++ [timeline_entry t])%list
             | None => timeline
             end in
           '(_, s') ← shipment_update id (status_update env status updatedTimeline) s;
           Ok (true, s')
       end)
      s
      (λ ok, ok)
      (λ error, false).

(** *** updateShipmentDetailsAction *)

(** A discriminated result: [{ success: true, ... }] or
    [{ success: false, error }]. *)
Inductive outcome (A : Type) : Type :=
| Success (a : A)
| Failure (error : string).
Arguments Success {A} a.
Arguments Failure {A} error.

Record DocumentView := {
  dv_id : string;
  dv_name : string;
  url : string;
  dv_uploadedAt : Date;
  dv_isVerified : bool;
}.

Definition document_view (doc : Document.t) : DocumentView := {|
  dv_id := Document.id doc;
  dv_name := Document.name doc;
  url := Document.fileUrl doc;
  dv_uploadedAt := Document.uploadedAt doc;
  dv_isVerified := Document.isVerified doc;
|}.

(** Lines 432-442: the link keeps its value unless the update names a
    consignee that exists. *)
Definition relink_consignee (current : option string) (c : ConsigneeData.t) (s : Store)
    : option string :=
  if truthy (ConsigneeData.id c) then
    match ConsigneeData.id c ≫= λ cid,
            findFirst (λ r, Consignee.id r = cid) (consignees s) with
    | Some consignee => Some (Consignee.id consignee)
    | None => current
    end
  else current.

(** Lines 447-457, the same for the exporter. *)
Definition relink_exporter (current : option string) (e : ExporterData.t) (s : Store)
    : option string :=
  if truthy (ExporterData.id e) then
    match ExporterData.id e ≫= λ eid,
            findFirst (λ r, Exporter.id r = eid) (exporters s) with
    | Some exporter => Some (Exporter.id exporter)
    | None => current
    end
  else current.

(** [updateData] as lines 429-479 fill it, with the [updatedAt] that line
    486 adds. *)
Definition details_update (env : Env) (currentShipment : Shipment.t)
    (updates : ShipmentData.t) (s : Store) : ShipmentUpdate.t := {|
  ShipmentUpdate.status := None;
  ShipmentUpdate.consigneeId :=
    (λ c, relink_consignee (Shipment.consigneeId currentShipment) c s)
      <$> ShipmentData.consignee updates;
  ShipmentUpdate.exporterId :=
    (λ e, relink_exporter (Shipment.exporterId currentShipment) e s)
      <$> ShipmentData.exporter updates;
  ShipmentUpdate.consigneeData := Snapshot <$> ShipmentData.consignee updates;
  ShipmentUpdate.exporterData := Snapshot <$> ShipmentData.exporter updates;
  ShipmentUpdate.shipmentDetails := ShipmentData.shipmentDetails updates;
  ShipmentUpdate.documentsData := ShipmentData.documents updates;
  ShipmentUpdate.timelineData := ShipmentData.timeline updates;
  ShipmentUpdate.notesData := ShipmentData.notes updates;
  ShipmentUpdate.cargoData := ShipmentData.cargo updates;
  ShipmentUpdate.statementOfFactsData := ShipmentData.statementOfFacts updates;
  ShipmentUpdate.updatedAt := Some (now env);
|}.

Definition updateShipmentDetailsAction (env : Env) (id : string)
    (updates : ShipmentData.t) (s : Store)
    : outcome (ShipmentView.t DocumentView) * Store :=
  run (user ← getCurrentUser env;
       match owned_shipment id user s with
       | None => Throw "Shipment not found"
       | Some currentShipment =>
           let updateData := details_update env currentShipment updates s in
           '(updated, s') ← shipment_update id updateData s;
           Ok (shipment_view document_view s' updated, s')
       end)
      s
      Success
      Failure.

(** *** linkClientToShipmentAction *)

Definition link_update (clientId : string) (type : ClientType) : ShipmentUpdate.t := {|
  ShipmentUpdate.status := None;
  ShipmentUpdate.consigneeId :=
    match type with ConsigneeClient => Some (Some clientId) | ExporterClient => None end;
  ShipmentUpdate.exporterId :=
    match type with ConsigneeClient => None | ExporterClient => Some (Some clientId) end;
  ShipmentUpdate.consigneeData := None;
  ShipmentUpdate.exporterData := None;
  ShipmentUpdate.shipmentDetails := None;
  ShipmentUpdate.documentsData := None;
  ShipmentUpdate.timelineData := None;
  ShipmentUpdate.notesData := None;
  ShipmentUpdate.cargoData := None;
  ShipmentUpdate.statementOfFactsData := None;
  ShipmentUpdate.updatedAt := None;
|}.

Definition client_type_name (type : ClientType) : string :=
  match type with ConsigneeClient => "consignee" | ExporterClient => "exporter" end.

(** Check if client exists and belongs to user *)
Definition clientExists (clientId : string) (type : ClientType) (u : User) (s : Store)
    : bool :=
  match type with
  | ConsigneeClient =>
      bool_decide (is_Some (findFirst (λ c, Consignee.id c = clientId
                                            ∧ Consignee.userId c = user_id u)
                              (consignees s)))
  | ExporterClient =>
      bool_decide (is_Some (findFirst (λ e, Exporter.id e = clientId
                                            ∧ Exporter.userId e = user_id u)
                              (exporters s)))
  end.

Definition linkClientToShipmentAction (env : Env) (shipmentId clientId : string)
    (type : ClientType) (s : Store)
    : outcome (Shipment.t * option (Consignee.t * list Document.t) * option Exporter.t)
      * Store :=
  run (user ← getCurrentUser env;
       match owned_shipment shipmentId user s with
       | None => Throw "Shipment not found"
       | Some shipment =>
           if clientExists clientId type user s then
             '(updated, s') ← shipment_update shipmentId (link_update clientId type) s;
             Ok ((updated, include_consignee s' updated, include_exporter s' updated), s')
           else Throw (client_type_name type +:+ " not found or unauthorized")
       end)
      s
      Success
      Failure.

(** *** createClientDuringShipmentAction *)

Record ClientInput := {
  client_type : ClientType;
  client_name : string;
  client_address : string;
  client_registeredName : option string;
  client_tin : option string;
  client_brn : option string;
  client_contactPerson : option string;
  client_contactNumber : option string;
  client_email : option string;
}.

Definition createClientDuringShipmentAction (env : Env) (data : ClientInput) (s : Store)
    : outcome (Consignee.t + Exporter.t) * Store :=
  run (user ← getCurrentUser env;
       match client_type data with
       | ConsigneeClient =>
           let consignee := {|
             Consignee.id := cuid env ConsigneeTable;
             Consignee.name := client_name data;
             Consignee.registeredName :=
               opt_or (client_registeredName data) (client_name data);
             Consignee.businessAddress := client_address data;
             Consignee.tin := opt_or (client_tin data) "";
             Consignee.brn := opt_or (client_brn data) "";
             Consignee.contactPerson := opt_or (client_contactPerson data) "";
             Consignee.contactNumber := opt_or (client_contactNumber data) "";
             Consignee.email := opt_or (client_email data) "";
             Consignee.userId := user_id user;
             Consignee.createdAt := now env;
           |} in
           Ok (inl consignee, set_consignees (create consignee (consignees s)) s)
       | ExporterClient =>
           let exporter := {|
             Exporter.id := cuid env ExporterTable;
             Exporter.name := client_name data;
             Exporter.businessAddress := client_address data;
             Exporter.contactPerson := opt_or (client_contactPerson data) "";
             Exporter.contactNumber := opt_or (client_contactNumber data) "";
             Exporter.email := opt_or (client_email data) "";
             Exporter.userId := user_id user;
             Exporter.createdAt := now env;
           |} in
           Ok (inr exporter, set_exporters (create exporter (exporters s)) s)
       end)
      s
      Success
      Failure.

(** ** A small world to run the actions in *)

Module Sample.

Definition clock : Date := {|
  getTime := 1793577600000;
  getFullYear := 2026;
  toISOString := "2026-11-02T00:00:00.000Z";
|}.

Definition alice : User := {| user_id := "u-alice" |}.
Definition bob : User := {| user_id := "u-bob" |}.

Definition keys (t : Table) : string :=
  match t with
  | ConsigneeTable => "c-new"
  | ExporterTable => "e-new"
  | ShipmentTable => "s-new"
  end.

Definition later_keys (t : Table) : string :=
  match t with
  | ConsigneeTable => "c-later"
  | ExporterTable => "e-later"
  | ShipmentTable => "s-later"
  end.

(** Two draws whose products with 10000 lie between 42 and 43:
    35 / 8192 = 0.0042724609375 and 279 / 65536 = 0.0042572021484375. *)
Definition draw : spec_float := S754_finite false 4925812092436480 (-60).
Definition later_draw : spec_float := S754_finite false 4908219906392064 (-60).

Definition alice_env : Env := {|
  validateSession := Some {| user := Some alice |};
  now := clock;
  random := draw;
  cuid := keys;
|}.

Definition alice_later : Env := {|
  validateSession := Some {| user := Some alice |};
  now := clock;
  random := later_draw;
  cuid := later_keys;
|}.

Definition anonymous_env : Env := {|
  validateSession := None;
  now := clock;
  random := draw;
  cuid := keys;
|}.

(** A clock that stands in the year 5. *)
Definition early_clock : Date := {|
  getTime := -62009366400000;
  getFullYear := 5;
  toISOString := "0005-01-01T00:00:00.000Z";
|}.

Definition early_env : Env := {|
  validateSession := Some {| user := Some alice |};
  now := early_clock;
  random := draw;
  cuid := keys;
|}.

Definition acme : Consignee.t := {|
  Consignee.id := "c-acme";
  Consignee.name := "Acme";
  Consignee.registeredName := "Acme";
  Consignee.businessAddress := "1 Harbour Road";
  Consignee.tin := "111";
  Consignee.brn := "";
  Consignee.contactPerson := "";
  Consignee.contactNumber := "";
  Consignee.email := "";
  Consignee.userId := "u-alice";
  Consignee.createdAt := clock;
|}.

Definition globex : Consignee.t := {|
  Consignee.id := "c-globex";
  Consignee.name := "Globex";
  Consignee.registeredName := "Globex";
  Consignee.businessAddress := "9 Quay Street";
  Consignee.tin := "222";
  Consignee.brn := "";
  Consignee.contactPerson := "";
  Consignee.contactNumber := "";
  Consignee.email := "";
  Consignee.userId := "u-bob";
  Consignee.createdAt := clock;
|}.

Definition initech : Exporter.t := {|
  Exporter.id := "e-initech";
  Exporter.name := "Initech";
  Exporter.businessAddress := "5 Dock Lane";
  Exporter.contactPerson := "";
  Exporter.contactNumber := "";
  Exporter.email := "";
  Exporter.userId := "u-alice";
  Exporter.createdAt := clock;
|}.

Definition hooli : Exporter.t := {|
  Exporter.id := "e-hooli";
  Exporter.name := "Hooli";
  Exporter.businessAddress := "7 Pier Avenue";
  Exporter.contactPerson := "";
  Exporter.contactNumber := "";
  Exporter.email := "";
  Exporter.userId := "u-bob";
  Exporter.createdAt := clock;
|}.

Definition invoice : ChecklistItem.t := {|
  ChecklistItem.name := "Commercial Invoice";
  ChecklistItem.status := "pending";
  ChecklistItem.files := None;
  ChecklistItem.rest := [("required", JBool true)];
|}.

Definition packing_list : ChecklistItem.t := {|
  ChecklistItem.name := "Packing List";
  ChecklistItem.status := "pending";
  ChecklistItem.files := Some ["/simulated-uploads/s-1/old.pdf"];
  ChecklistItem.rest := [];
|}.

Definition shipment_of (id owner : string) : Shipment.t := {|
  Shipment.id := id;
  Shipment.referenceNumber := "CLEX-IMS26-0001";
  Shipment.freightType := "IMS";
  Shipment.status := "CLIENT_DETAILS";
  Shipment.consigneeId := None;
  Shipment.exporterId := None;
  Shipment.userId := owner;
  Shipment.consigneeData := EmptyObject;
  Shipment.exporterData := EmptyObject;
  Shipment.shipmentDetails := ∅;
  Shipment.documentsData := [invoice; packing_list];
  Shipment.timelineData := [created_event alice_env];
  Shipment.notesData := [];
  Shipment.computations := Some (JObj []);
  Shipment.cargoData := None;
  Shipment.statementOfFactsData := None;
  Shipment.isLocked := false;
  Shipment.completionDate := None;
  Shipment.createdAt := clock;
  Shipment.updatedAt := clock;
|}.

Definition store : Store := {|
  consignees := [acme; globex];
  exporters := [initech; hooli];
  documents := [];
  shipments := [shipment_of "s-1" "u-alice"; shipment_of "s-2" "u-bob"];
|}.

Definition empty_store : Store := {|
  consignees := []; exporters := []; documents := []; shipments := [];
|}.

Definition consignee_input (id : option string) (name tin : string)
    : ConsigneeData.t := {|
  ConsigneeData.id := id;
  ConsigneeData.name := name;
  ConsigneeData.address := "1 Harbour Road";
  ConsigneeData.tin := tin;
  ConsigneeData.brn := "";
  ConsigneeData.contactPerson := None;
  ConsigneeData.contactNumber := None;
  ConsigneeData.email := None;
|}.

Definition exporter_input (id : option string) (name address : string)
    : ExporterData.t := {|
  ExporterData.id := id;
  ExporterData.name := name;
  ExporterData.address := address;
  ExporterData.contactPerson := None;
  ExporterData.contactNumber := None;
  ExporterData.email := None;
|}.

Definition form (c : option ConsigneeData.t) (e : option ExporterData.t)
    (docs : option (list ChecklistItem.t)) : ShipmentData.t := {|
  ShipmentData.consignee := c;
  ShipmentData.exporter := e;
  ShipmentData.shipmentDetails := None;
  ShipmentData.documents := docs;
  ShipmentData.timeline := None;
  ShipmentData.notes := None;
  ShipmentData.cargo := None;
  ShipmentData.statementOfFacts := None;
|}.

Definition request (fd : ShipmentData.t) : CreateShipmentInput :=
  {| shipmentType := "IMS"; formData := fd |}.

Definition arrival : TimelineUpdate :=
  {| stage := "arrival"; tu_status := "ARRIVED"; timestamp := "2026-11-03T08:00:00.000Z" |}.

Definition scan : File := {| file_name := "invoice.pdf" |}.

Definition acme_again : ClientInput := {|
  client_type := ConsigneeClient;
  client_name := "Acme";
  client_address := "1 Harbour Road";
  client_registeredName := Some "";
  client_tin := None;
  client_brn := None;
  client_contactPerson := None;
  client_contactNumber := None;
  client_email := None;
|}.

End Sample.

(** * Printing numbers *)

Section Printing.

Lemma append_cons (x : ascii) (a b : string) :
  String x a +:+ b = String x (a +:+ b).
Proof. reflexivity. Qed.

Lemma length_append (a b : string) :
  String.length (a +:+ b) = (String.length a + String.length b)%nat.
Proof. induction a as [|c a IH]; simpl; [done | by rewrite IH]. Qed.

Lemma all_digits_append (a b : string) :
  all_digits a → all_digits b → all_digits (a +:+ b).
Proof.
  induction a as [|c a IH]; simpl; [done|].
  intros [Hc Ha] Hb. split; [done | by apply IH].
Qed.

Lemma append_assoc (a b c : string) : (a +:+ b) +:+ c = a +:+ (b +:+ c).
Proof.
  induction a as [|x a IH]; [done|]. by rewrite !append_cons, IH.
Qed.

Lemma substring_whole (b : string) : String.substring 0 (String.length b) b = b.
Proof. induction b as [|c b IH]; simpl; [done | by rewrite IH]. Qed.

Lemma substring_append_skip (a b : string) (k : nat) :
  String.substring (String.length a) k (a +:+ b) = String.substring 0 k b.
Proof. induction a as [|c a IH]; simpl; by auto. Qed.

Lemma slice_last_append (a b : string) (k : nat) :
  String.length b = k → slice_last k (a +:+ b) = b.
Proof.
  intros <-. unfold slice_last. rewrite length_append.
  replace (String.length a + String.length b - String.length b)%nat
    with (String.length a) by lia.
  rewrite substring_append_skip. apply substring_whole.
Qed.

Lemma digit_is_digit (n : Z) : 0 ≤ n < 10 → is_digit (digit n).
Proof.
  intros Hn. unfold is_digit, digit.
  rewrite N_ascii_embedding by lia. lia.
Qed.

Lemma all_digits_digits (fuel : nat) (n : Z) : 0 ≤ n → all_digits (digits fuel n).
Proof.
  revert n. induction fuel as [|fuel IH]; intros n Hn; simpl; [done|].
  destruct (Z.ltb_spec n 10).
  - simpl. split; [by apply digit_is_digit | done].
  - apply all_digits_append; [apply IH|].
    + Z.div_mod_to_equations; lia.
    + simpl. split; [|done]. apply digit_is_digit. Z.div_mod_to_equations; lia.
Qed.

Lemma log2_div10 (n : Z) : 10 ≤ n → Z.log2 (n / 10) < Z.log2 n.
Proof.
  intros Hn. apply Z.log2_lt_pow2; [Z.div_mod_to_equations; lia|].
  destruct (Z.log2_spec n) as [_ Hlt]; [lia|].
  assert (0 < Z.log2 n) by (apply Z.log2_pos; lia).
  replace (Z.log2 n) with (Z.succ (Z.log2 n - 1)) at 1 by lia.
  replace (Z.succ (Z.log2 n)) with (Z.succ (Z.succ (Z.log2 n - 1))) in Hlt by lia.
  rewrite !Z.pow_succ_r in * by lia.
  Z.div_mod_to_equations; lia.
Qed.

Lemma digits_fuel (f1 f2 : nat) (n : Z) :
  (Z.to_nat (Z.log2 n) < f1)%nat → (Z.to_nat (Z.log2 n) < f2)%nat →
  digits f1 n = digits f2 n.
Proof.
  revert f2 n. induction f1 as [|f1 IH]; intros f2 n H1 H2; [lia|].
  destruct f2 as [|f2]; [lia|]. simpl.
  destruct (Z.ltb_spec n 10) as [|Hn]; [done|].
  apply log2_div10 in Hn. pose proof (Z.log2_nonneg (n / 10)).
  f_equal. apply IH; lia.
Qed.

Lemma nat_toString_unfold (n : Z) :
  nat_toString n =
    if n <? 10 then String (digit n) ""
    else nat_toString (n / 10) +:+ String (digit (n mod 10)) "".
Proof.
  unfold nat_toString at 1. simpl.
  destruct (Z.ltb_spec n 10) as [|Hn]; [done|].
  apply log2_div10 in Hn. pose proof (Z.log2_nonneg (n / 10)).
  f_equal. apply digits_fuel; lia.
Qed.

Lemma slice_year (n : Z) : 10 ≤ n → slice_last 2 (toString n) = two_digits n.
Proof.
  intros Hn. unfold toString. destruct (Z.ltb_spec n 0); [lia|].
  rewrite nat_toString_unfold. destruct (Z.ltb_spec n 10); [lia|].
  rewrite (nat_toString_unfold (n / 10)).
  destruct (Z.ltb_spec (n / 10) 10) as [Hs|Hs].
  - replace (n / 10) with (n / 10 mod 10) by (Z.div_mod_to_equations; lia).
    change (slice_last 2 ("" +:+ two_digits n) = two_digits n).
    by apply slice_last_append.
  - rewrite append_assoc. by apply slice_last_append.
Qed.

Lemma pad_draw (n : Z) : 0 ≤ n < 10000 → padStart 4 "0" (toString n) = four_digits n.
Proof.
  intros Hn. unfold toString. destruct (Z.ltb_spec n 0); [lia|].
  unfold four_digits, two_digits.
  rewrite nat_toString_unfold. destruct (Z.ltb_spec n 10).
  { replace (n / 1000 mod 10) with 0 by (Z.div_mod_to_equations; lia).
    replace (n / 100 mod 10) with 0 by (Z.div_mod_to_equations; lia).
    replace (n / 10 mod 10) with 0 by (Z.div_mod_to_equations; lia).
    replace (n mod 10) with n by (Z.div_mod_to_equations; lia). done. }
  rewrite (nat_toString_unfold (n / 10)). destruct (Z.ltb_spec (n / 10) 10).
  { replace (n / 1000 mod 10) with 0 by (Z.div_mod_to_equations; lia).
    replace (n / 100 mod 10) with 0 by (Z.div_mod_to_equations; lia).
    replace (n / 10 mod 10) with (n / 10) by (Z.div_mod_to_equations; lia).
    done. }
  rewrite (nat_toString_unfold (n / 10 / 10)).
  replace (n / 10 / 10) with (n / 100) by (Z.div_mod_to_equations; lia).
  destruct (Z.ltb_spec (n / 100) 10).
  { replace (n / 1000 mod 10) with 0 by (Z.div_mod_to_equations; lia).
    replace (n / 100 mod 10) with (n / 100) by (Z.div_mod_to_equations; lia).
    done. }
  rewrite (nat_toString_unfold (n / 100 / 10)).
  replace (n / 100 / 10) with (n / 1000) by (Z.div_mod_to_equations; lia).
  destruct (Z.ltb_spec (n / 1000) 10); [|Z.div_mod_to_equations; lia].
  replace (n / 1000 mod 10) with (n / 1000) by (Z.div_mod_to_equations; lia).
  done.
Qed.


Example toString_2026 : toString 2026 = "2026".
Proof. reflexivity. Qed.

Example padStart_42 : padStart 4 "0" (toString 42) = "0042".
Proof. reflexivity. Qed.

Example slice_2026 : slice_last 2 (toString 2026) = "26".
Proof. reflexivity. Qed.

(** A year of one digit has no two digits to keep. *)
Example slice_one_digit : slice_last 2 (toString 5) = "5".
Proof. reflexivity. Qed.

Lemma two_digits_shape (n : Z) :
  String.length (two_digits n) = 2%nat ∧ all_digits (two_digits n).
Proof.
  split; [done|]. unfold two_digits. simpl.
  repeat split; apply digit_is_digit; Z.div_mod_to_equations; lia.
Qed.

Lemma four_digits_shape (n : Z) :
  String.length (four_digits n) = 4%nat ∧ all_digits (four_digits n).
Proof.
  split; [done|]. unfold four_digits. simpl.
  repeat split; try apply two_digits_shape;
    apply digit_is_digit; Z.div_mod_to_equations; lia.
Qed.

End Printing.

(** * Doubles *)

Section Doubles.

Lemma one_is_SFone : one = SFone prec emax.
Proof. vm_compute. reflexivity. Qed.

(** ** Shifting a mantissa to the exponent of the format *)

Lemma iter_succ_r {A} (f : A -> A) (n : nat) (x : A) :
  Nat.iter (S n) f x = Nat.iter n f (f x).
Proof. induction n as [|n IH]; [reflexivity|]. simpl in *. now rewrite IH. Qed.

Lemma iter_pos_nat {A} (f : A -> A) (p : positive) (x : A) :
  SpecFloat.iter_pos f p x = Nat.iter (Pos.to_nat p) f x.
Proof.
  revert x. induction p as [p IH|p IH|]; intros x; cbn [SpecFloat.iter_pos].
  - rewrite !IH, Pos2Nat.inj_xI, <- iter_succ_r.
    replace (S (2 * Pos.to_nat p))%nat with (Pos.to_nat p + S (Pos.to_nat p))%nat by lia.
    now rewrite Nat.iter_add.
  - rewrite !IH, Pos2Nat.inj_xO.
    replace (2 * Pos.to_nat p)%nat with (Pos.to_nat p + Pos.to_nat p)%nat by lia.
    now rewrite Nat.iter_add.
  - reflexivity.
Qed.

Lemma shr_1_spec (r : shr_record) :
  0 <= shr_m r ->
  shr_m (shr_1 r) = shr_m r / 2 /\ shr_r (shr_1 r) = Z.odd (shr_m r).
Proof.
  destruct r as [m r s]. simpl. intros Hm.
  destruct m as [|[p|p|]|p]; simpl; try lia; split; try reflexivity.
  - rewrite Pos2Z.inj_xI. apply (Z.div_unique _ 2 _ 1); lia.
  - rewrite Pos2Z.inj_xO. apply (Z.div_unique _ 2 _ 0); lia.
Qed.

Lemma iter_shr_spec (n : nat) (r : shr_record) :
  0 <= shr_m r ->
  shr_m (Nat.iter (S n) shr_1 r) = shr_m r / 2 ^ Z.of_nat (S n)
  /\ 2 * shr_m (Nat.iter (S n) shr_1 r) + Z.b2z (shr_r (Nat.iter (S n) shr_1 r))
     = shr_m r / 2 ^ Z.of_nat n.
Proof.
  intros Hm. induction n as [|n [IHm IHr]].
  - simpl Nat.iter. destruct (shr_1_spec r Hm) as [-> ->].
    change (2 ^ Z.of_nat 1) with 2. change (2 ^ Z.of_nat 0) with 1.
    rewrite Z.div_1_r. split; [reflexivity|].
    rewrite (Z.div_mod (shr_m r) 2) at 3 by lia. rewrite Zmod_odd.
    destruct (Z.odd (shr_m r)); simpl; lia.
  - assert (Hpos : 0 <= shr_m (Nat.iter (S n) shr_1 r)).
    { rewrite IHm. apply Z.div_pos; [lia|]. apply Z.pow_pos_nonneg; lia. }
    change (Nat.iter (S (S n)) shr_1 r) with (shr_1 (Nat.iter (S n) shr_1 r)).
    destruct (shr_1_spec _ Hpos) as [-> ->]. rewrite IHm.
    split.
    + rewrite Z.div_div by (try apply Z.pow_pos_nonneg; lia).
      f_equal. rewrite (Nat2Z.inj_succ (S n)), Z.pow_succ_r by lia. lia.
    + rewrite <- IHm.
      rewrite (Z.div_mod (shr_m (Nat.iter (S n) shr_1 r)) 2) at 3 by lia.
      rewrite Zmod_odd.
      destruct (Z.odd (shr_m (Nat.iter (S n) shr_1 r))); simpl; lia.
Qed.

Lemma round_nearest_even_bounds (r : shr_record) :
  shr_m r <= round_nearest_even (shr_m r) (loc_of_shr_record r)
          <= shr_m r + Z.b2z (shr_r r).
Proof.
  destruct r as [m [|] [|]]; simpl; try lia.
  destruct (Z.even m); lia.
Qed.

Lemma digits2_le (p : positive) (k : Z) :
  0 <= k -> Zpos p < 2 ^ k -> Zpos (digits2_pos p) <= k.
Proof.
  revert k. induction p as [p IH|p IH|]; intros k Hk Hp; simpl.
  - destruct (Z.eq_dec k 0) as [->|Hk0]; [simpl in Hp; lia|].
    replace k with (Z.succ (k - 1)) in Hp by lia. rewrite Z.pow_succ_r in Hp by lia.
    specialize (IH (k - 1)). lia.
  - destruct (Z.eq_dec k 0) as [->|Hk0]; [simpl in Hp; lia|].
    replace k with (Z.succ (k - 1)) in Hp by lia. rewrite Z.pow_succ_r in Hp by lia.
    specialize (IH (k - 1)). lia.
  - destruct (Z.eq_dec k 0) as [->|Hk0]; [simpl in Hp; lia|]. lia.
Qed.

Lemma digits2_le_Z (m k : Z) : 0 <= m -> 0 <= k -> m < 2 ^ k -> Zdigits2 m <= k.
Proof.
  intros Hm Hk Hlt. destruct m as [|p|p]; simpl; [lia | now apply digits2_le | lia].
Qed.

Lemma digits2_gt (p : positive) : Zpos p < 2 ^ Zpos (digits2_pos p).
Proof.
  induction p as [p IH|p IH|]; cbn [digits2_pos]; [| |reflexivity].
  - rewrite Pos2Z.inj_succ, Z.pow_succ_r by lia. lia.
  - rewrite Pos2Z.inj_succ, Z.pow_succ_r by lia. lia.
Qed.

(** What shifting to the exponent of the format does to a mantissa that is
    not negative. *)
Lemma shr_fexp_exact (m e : Z) :
  0 <= m ->
  let n := fexp prec emax (Zdigits2 m + e) - e in
  let '(r, e') := shr_fexp prec emax m e loc_Exact in
  0 <= shr_m r
  /\ (n <= 0 -> shr_m r = m /\ e' = e
               /\ round_nearest_even (shr_m r) (loc_of_shr_record r) = m)
  /\ (0 < n -> e' = e + n /\ shr_m r = m / 2 ^ n
              /\ 2 * round_nearest_even (shr_m r) (loc_of_shr_record r)
                 <= m / 2 ^ (n - 1) + 1
              /\ shr_m r <= round_nearest_even (shr_m r) (loc_of_shr_record r)).
Proof.
  intros Hm n. unfold shr_fexp. fold n. simpl shr_record_of_loc.
  destruct n as [|p|p] eqn:Hn; unfold shr; cbv beta iota zeta; cbn [shr_m loc_of_shr_record round_nearest_even].
  - split; [lia|]. split; [auto | lia].
  - rewrite iter_pos_nat.
    destruct (Pos2Nat.is_succ p) as [k Hk]. rewrite Hk.
    destruct (iter_shr_spec k {| shr_m := m; shr_r := false; shr_s := false |} Hm)
      as [Hshift Hround]. cbn [shr_m] in Hshift, Hround.
    assert (Hp : Z.pos p = Z.of_nat (S k)) by lia.
    set (r := Nat.iter (S k) shr_1 _) in *.
    pose proof (round_nearest_even_bounds r) as Hb.
    assert (H0 : 0 <= shr_m r).
    { rewrite Hshift. apply Z.div_pos; [lia|]. apply Z.pow_pos_nonneg; lia. }
    split; [exact H0|]. split; [lia|]. intros _.
    split; [reflexivity|]. split; [now rewrite Hp|]. split; [|lia].
    replace (Z.pos p - 1) with (Z.of_nat k) by lia.
    destruct (shr_r r); cbn [Z.b2z] in *; lia.
  - split; [lia|]. split; [auto | lia].
Qed.

Lemma digits2_ge (p : positive) : 2 ^ (Zpos (digits2_pos p) - 1) <= Zpos p.
Proof.
  induction p as [p IH|p IH|]; cbn [digits2_pos]; [| |reflexivity].
  - rewrite Pos2Z.inj_succ. replace (Z.succ (Z.pos (digits2_pos p)) - 1)
      with (Z.succ (Z.pos (digits2_pos p) - 1)) by lia.
    rewrite Z.pow_succ_r by lia. lia.
  - rewrite Pos2Z.inj_succ. replace (Z.succ (Z.pos (digits2_pos p)) - 1)
      with (Z.succ (Z.pos (digits2_pos p) - 1)) by lia.
    rewrite Z.pow_succ_r by lia. lia.
Qed.

(** ** Draws *)

Lemma fexp_unfold (x : Z) : fexp prec emax x = Z.max (x - 53) (-1074).
Proof. reflexivity. Qed.

Lemma SFltb_finite (m m' : positive) (e e' : Z) :
  SFltb (S754_finite false m e) (S754_finite false m' e')
  = match e ?= e' with
    | Lt => true
    | Gt => false
    | Eq => match (m ?= m')%positive with Lt => true | _ => false end
    end.
Proof.
  unfold SFltb, SFcompare, Pos.compare. destruct (e ?= e'); try reflexivity.
Qed.

(** A draw is a zero, or [m * 2 ^ e] with [m] below [2 ^ 53] and [e] at
    most -53. *)
Lemma is_draw_cases (r : spec_float) :
  is_draw r = true ->
  (exists s, r = S754_zero s)
  \/ exists m e, r = S754_finite false m e /\ Zpos m < 2 ^ 53 /\ -1074 <= e <= -53.
Proof.
  unfold is_draw. destruct r as [s|s| |s m e]; [left; now exists s | | |].
  - destruct s; simpl; rewrite ?Bool.andb_false_r; discriminate.
  - simpl. discriminate.
  - intros H. apply Bool.andb_true_iff in H as [H Hlt].
    apply Bool.andb_true_iff in H as [Hvalid Hle].
    destruct s; [discriminate|]. right. exists m, e. split; [reflexivity|].
    unfold valid_binary, bounded, canonical_mantissa in Hvalid.
    apply Bool.andb_true_iff in Hvalid as [Hcanon _].
    apply Z.eqb_eq in Hcanon. rewrite fexp_unfold in Hcanon.
    pose proof (digits2_gt m) as Hgt. pose proof (digits2_ge m) as Hge.
    assert (Hd : Zpos (digits2_pos m) <= 53) by lia.
    assert (Hm : Zpos m < 2 ^ 53).
    { eapply Z.lt_le_trans; [exact Hgt|]. apply Z.pow_le_mono_r; lia. }
    split; [exact Hm|]. split; [lia|].
    unfold one in Hlt. rewrite SFltb_finite in Hlt.
    destruct (Z.compare_spec e (-52)) as [He|He|He]; [|lia|discriminate].
    exfalso. subst e.
    assert (Hd53 : Zpos (digits2_pos m) = 53) by lia.
    rewrite Hd53 in Hge.
    assert (E52 : 2 ^ (53 - 1) = 4503599627370496) by (vm_compute; reflexivity).
    rewrite E52 in Hge.
    destruct (Pos.compare_spec m 4503599627370496) as [Hc|Hc|Hc]; try discriminate.
    apply Pos2Z.pos_lt_pos in Hc.
    exact (Z.lt_irrefl _ (Z.le_lt_trans _ _ _ Hge Hc)).
Qed.

Lemma pow2_pos (k : Z) : 0 <= k -> 0 < 2 ^ k.
Proof. intros Hk. apply Z.pow_pos_nonneg; lia. Qed.

Lemma below_pow14 (M a : Z) : 0 <= a -> M < 10000 * 2 ^ a -> M < 2 ^ (14 + a).
Proof.
  intros Ha HM. rewrite Z.pow_add_r by lia.
  pose proof (pow2_pos a Ha) as Hp.
  change (2 ^ 14) with 16384. lia.
Qed.

(** Rounding keeps a product below ten thousand: a mantissa [P] at exponent
    [ex] that lies at least [10000 * 2 ^ 39] units under [10000 * 2 ^ - ex]
    is rounded to a double whose floor is below 10000. One unit of the
    rounded mantissa is at most [2 ^ 53] units of [P], and half of it is
    less than the distance kept. *)
Lemma round_below (P ex : Z) :
  0 <= P -> -1113 <= ex <= -92 -> P < 2 ^ 106 ->
  P + 5497558138880000 <= 10000 * 2 ^ (- ex) ->
  exists n, Math_floor (binary_round_aux prec emax false P ex loc_Exact) = Integer n
            /\ 0 <= n < 10000.
Proof.
  intros HP Hex H106 HK.
  assert (HK52 : 2 ^ 52 < 5497558138880000) by (vm_compute; reflexivity).
  set (K := 5497558138880000) in *. clearbody K.
  assert (Hd14 : Zdigits2 P <= 14 - ex).
  { apply digits2_le_Z; [lia|lia|]. replace (14 - ex) with (14 + - ex) by lia.
    apply below_pow14; [lia|]. pose proof (pow2_pos 52 ltac:(lia)). lia. }
  assert (Hd106 : Zdigits2 P <= 106) by (apply digits2_le_Z; lia).
  unfold binary_round_aux.
  pose proof (shr_fexp_exact P ex HP) as H1.
  destruct (shr_fexp prec emax P ex loc_Exact) as [r1 e1].
  cbv beta iota zeta in H1. rewrite fexp_unfold in H1.
  set (M2 := round_nearest_even (shr_m r1) (loc_of_shr_record r1)) in *.
  assert (HM2 : 0 <= M2 /\ M2 < 10000 * 2 ^ (- e1) /\ -1113 <= e1 <= -39).
  { destruct H1 as (H0 & Hle & Hgt).
    destruct (Z_le_gt_dec (Z.max (Zdigits2 P + ex - 53) (-1074) - ex) 0) as [Hn|Hn].
    - destruct (Hle Hn) as (_ & -> & ->).
      pose proof (pow2_pos 52 ltac:(lia)). lia.
    - destruct (Hgt ltac:(lia)) as (-> & _ & Hround & Hlow).
      set (n1 := Z.max (Zdigits2 P + ex - 53) (-1074) - ex) in *.
      assert (Hn53 : n1 <= 53) by lia.
      assert (He1 : -1113 <= ex + n1 <= -39) by lia.
      split; [lia|]. split; [|lia].
      set (T := 2 ^ (n1 - 1)) in *. set (A := 2 ^ (- (ex + n1))).
      assert (HT : 0 < T) by (apply pow2_pos; lia).
      assert (HA : 0 < A) by (apply pow2_pos; lia).
      assert (HT52 : T <= 2 ^ 52) by (apply Z.pow_le_mono_r; lia).
      assert (HX : 2 ^ (- ex) = 2 * (T * A)).
      { unfold T, A. rewrite <- Z.pow_add_r by lia.
        rewrite <- (Z.pow_succ_r 2) by lia. f_equal. lia. }
      assert (Hdiv : P / T < 20000 * A - 1).
      { apply Z.div_lt_upper_bound; [exact HT|].
        replace (T * (20000 * A - 1)) with (20000 * (T * A) - T) by ring.
        lia. }
      lia. }
  destruct HM2 as (HM0 & HMlt & He1).
  assert (Hd2 : Zdigits2 M2 <= 14 - e1).
  { apply digits2_le_Z; [lia|lia|]. replace (14 - e1) with (14 + - e1) by lia.
    apply below_pow14; [lia|exact HMlt]. }
  pose proof (shr_fexp_exact M2 e1 HM0) as H2.
  destruct (shr_fexp prec emax M2 e1 loc_Exact) as [r2 e2].
  cbv beta iota zeta in H2. rewrite fexp_unfold in H2.
  destruct H2 as (H0 & Hle & Hgt).
  assert (H3 : shr_m r2 < 10000 * 2 ^ (- e2) /\ e2 <= -39).
  { destruct (Z_le_gt_dec (Z.max (Zdigits2 M2 + e1 - 53) (-1074) - e1) 0) as [Hn|Hn].
    - destruct (Hle Hn) as (-> & -> & _). lia.
    - destruct (Hgt ltac:(lia)) as (-> & -> & _).
      set (n2 := Z.max (Zdigits2 M2 + e1 - 53) (-1074) - e1) in *.
      split; [|lia].
      apply Z.div_lt_upper_bound; [apply pow2_pos; lia|].
      replace (2 ^ n2 * (10000 * 2 ^ (- (e1 + n2))))
        with (10000 * (2 ^ n2 * 2 ^ (- (e1 + n2)))) by ring.
      rewrite <- Z.pow_add_r by lia.
      replace (n2 + - (e1 + n2)) with (- e1) by lia. exact HMlt. }
  destruct H3 as (H3 & He2).
  destruct (shr_m r2) as [|p|p] eqn:Hm3.
  - exists 0. split; [reflexivity|lia].
  - assert (Hleb : (e2 <=? emax - prec) = true).
    { apply Z.leb_le. unfold emax, prec. lia. }
    rewrite Hleb. cbn [Math_floor cond_Zopp].
    exists (Z.shiftl (Z.pos p) e2). split; [reflexivity|].
    rewrite Z.shiftl_div_pow2 by lia.
    split.
    + apply Z.div_pos; [lia|]. apply pow2_pos; lia.
    + apply Z.div_lt_upper_bound; [apply pow2_pos; lia|]. lia.
  - lia.
Qed.

(** The floor of the double product of a draw and ten thousand is an
    integer from 0 to 9999. *)
Lemma floor_draw (r : spec_float) :
  is_draw r = true ->
  exists n, Math_floor (SFmul prec emax r ten_thousand) = Integer n /\ 0 <= n < 10000.
Proof.
  intros Hr. destruct (is_draw_cases r Hr) as [[s ->]|(m & e & -> & Hm & He)].
  - exists 0. split; [reflexivity|lia].
  - unfold SFmul, ten_thousand. cbn [xorb].
    apply round_below.
    + lia.
    + lia.
    + rewrite Pos2Z.inj_mul. change (2 ^ 106) with (2 ^ 53 * 2 ^ 53).
      apply Z.mul_lt_mono_nonneg; [lia|exact Hm|lia|].
      vm_compute. reflexivity.
    + rewrite Pos2Z.inj_mul.
      replace (- (e + -39)) with (39 + - e) by lia.
      rewrite Z.pow_add_r by lia.
      assert (Hle : 2 ^ 53 <= 2 ^ (- e)) by (apply Z.pow_le_mono_r; lia).
      assert (E : 10000 * 2 ^ 39 = 5497558138880000) by (vm_compute; reflexivity).
      rewrite Z.mul_assoc, E.
      set (K := 5497558138880000) in *.
      assert (HK : 0 < K) by (vm_compute; reflexivity).
      clearbody K.
      replace (Z.pos m * K + K) with (K * (Z.pos m + 1)) by ring.
      apply Z.mul_le_mono_nonneg_l; lia.
Qed.

(** An integer up to [2 ^ 53] prints its digits. *)
Lemma floored_toString_small (n : Z) :
  0 ≤ n < 10000 → floored_toString (Integer n) = toString n.
Proof.
  intros Hn. unfold floored_toString, double_toString, toString.
  destruct (Z.ltb_spec n 0); [lia|].
  destruct (Z.leb_spec n 9007199254740992); [done|lia].
Qed.

(** Rounding shows in the digits: ten thousand times the draw
    108987110982366 / 2^53 lies just below 121, and the double product is
    121. *)
Example product_rounds_up :
  floored_toString
    (Math_floor (SFmul prec emax (S754_finite false 6975175102871424 (-59)) ten_thousand))
  = "121".
Proof. vm_compute. reflexivity. Qed.

(** Integers above [2 ^ 53] print the fewest digits that read back. *)
Example toString_2_pow_60 :
  floored_toString (Math_floor (to_double (2 ^ 60))) = "1152921504606847000".
Proof. vm_compute. reflexivity. Qed.

Example toString_2_pow_70 :
  floored_toString (Math_floor (to_double (2 ^ 70))) = "1.1805916207174113e+21".
Proof. vm_compute. reflexivity. Qed.

Example toString_10_pow_21 :
  floored_toString (Math_floor (to_double (10 ^ 21))) = "1e+21".
Proof. vm_compute. reflexivity. Qed.

(** [Math.floor(-0.5)] is -1. *)
Example floor_of_minus_half :
  floored_toString (Math_floor (S754_finite true 4503599627370496 (-53))) = "-1".
Proof. vm_compute. reflexivity. Qed.

End Doubles.

(** * The store *)

Section Store.
Context {A : Type} (P : A → Prop) `{!∀ x, Decision (P x)}.

Lemma findFirst_Some (rows : list A) (x : A) :
  findFirst P rows = Some x → x ∈ rows ∧ P x.
Proof.
  unfold findFirst. intros Hx. apply head_Some_elem_of in Hx.
  apply list_elem_of_filter in Hx. tauto.
Qed.

Lemma findFirst_None (rows : list A) :
  findFirst P rows = None ↔ ∀ x, x ∈ rows → ¬ P x.
Proof.
  unfold findFirst. rewrite head_None. split.
  - intros Hnil x Hx HP. by eapply filter_nil_not_elem_of.
  - intros Hno. induction rows as [|y rows IH]; [done|].
    rewrite filter_cons_False by (apply Hno; left).
    apply IH. intros x Hx. apply Hno. by right.
Qed.

Lemma findFirst_is_Some (rows : list A) (x : A) :
  x ∈ rows → P x → is_Some (findFirst P rows).
Proof.
  intros Hx HP. destruct (findFirst P rows) eqn:Hf; [done|].
  rewrite findFirst_None in Hf. by destruct (Hf x).
Qed.

Lemma findFirst_create_miss (rows : list A) (x : A) :
  findFirst P rows = None →
  findFirst P (create x rows) = if decide (P x) then Some x else None.
Proof.
  unfold findFirst, create. rewrite head_None. intros Hnil.
  rewrite filter_app, Hnil. simpl. rewrite filter_cons, filter_nil.
  by destruct (decide (P x)).
Qed.

Lemma findFirst_create_hit (rows : list A) (x y : A) :
  findFirst P rows = Some y → findFirst P (create x rows) = Some y.
Proof.
  unfold findFirst, create. intros Hy. rewrite filter_app.
  apply head_Some in Hy as [l' ->]. done.
Qed.

End Store.

(** * Updating a shipment *)

Lemma apply_id (d : ShipmentUpdate.t) (r : Shipment.t) :
  Shipment.id (ShipmentUpdate.apply d r) = Shipment.id r.
Proof. reflexivity. Qed.

Lemma apply_userId (d : ShipmentUpdate.t) (r : Shipment.t) :
  Shipment.userId (ShipmentUpdate.apply d r) = Shipment.userId r.
Proof. reflexivity. Qed.

Lemma owned_shipment_Some (id : string) (u : User) (s : Store) (r : Shipment.t) :
  owned_shipment id u s = Some r →
  r ∈ shipments s ∧ Shipment.id r = id ∧ Shipment.userId r = user_id u.
Proof. intros H. by apply findFirst_Some in H. Qed.

Lemma owned_shipment_updated (id : string) (u : User) (d : ShipmentUpdate.t) (s : Store) :
  owned_shipment id u (set_shipments (update_rows id d (shipments s)) s)
  = ShipmentUpdate.apply d <$> owned_shipment id u s.
Proof.
  unfold owned_shipment, findFirst, update_rows. simpl.
  induction (shipments s) as [|r rows IH]; [done|].
  rewrite fmap_cons, !filter_cons.
  destruct (decide (Shipment.id r = id)) as [Hid|Hid].
  - rewrite apply_id, apply_userId.
    destruct (decide (Shipment.id r = id ∧ Shipment.userId r = user_id u)); [done|].
    apply IH.
  - destruct (decide (Shipment.id r = id ∧ Shipment.userId r = user_id u)) as [[??]|];
      [done | apply IH].
Qed.

Lemma shipment_update_owned (id : string) (u : User) (d : ShipmentUpdate.t)
    (s : Store) (r : Shipment.t) :
  owned_shipment id u s = Some r →
  ∃ r0, shipment_update id d s
        = Ok (ShipmentUpdate.apply d r0,
              set_shipments (update_rows id d (shipments s)) s).
Proof.
  intros Hr. apply owned_shipment_Some in Hr as (Hin & Hid & _).
  unfold shipment_update.
  destruct (findFirst_is_Some (λ x, Shipment.id x = id) (shipments s) r Hin Hid)
    as [r0 ->].
  by exists r0.
Qed.



(** * Recording an upload *)

Lemma record_upload_unmatched (documentType url : string) (docs : list ChecklistItem.t) :
  (∀ doc, doc ∈ docs → ChecklistItem.name doc ≠ documentType) →
  record_upload documentType url <$> docs = docs.
Proof.
  induction docs as [|doc docs IH]; intros Hno; [done|].
  rewrite fmap_cons, IH by (intros d Hd; apply Hno; by right).
  unfold record_upload. destruct (decide _) as [Heq|]; [|done].
  destruct (Hno doc); [by left | done].
Qed.

Lemma apply_documents_update (docs : list ChecklistItem.t) (r : Shipment.t) :
  Shipment.documentsData (ShipmentUpdate.apply (documents_update docs) r) = docs.
Proof. reflexivity. Qed.

(** C9. An upload on an owned shipment rewrites the checklist entry by
    entry: an entry whose name is the document type gets status "draft" and
    the new file reference after its files, every other entry is kept, and
    no entry is added; when no name matches, the stored list is the one
    that was there. *)
Theorem C9_upload_rewrites_matching_entries (env : Env) (u : User)
    (shipmentId documentType : string) (file : File) (s : Store)
    (shipment : Shipment.t) :
  getCurrentUser env = Ok u →
  owned_shipment shipmentId u s = Some shipment →
  let url := simulatedUrl env shipmentId documentType file in
  ∃ s' shipment',
    processDocumentUploadAction env shipmentId documentType file s
    = (Ok {| upload_success := true; fileUrl := url; upload_status := "draft" |}, s')
    ∧ owned_shipment shipmentId u s' = Some shipment'
    ∧ length (Shipment.documentsData shipment')
      = length (Shipment.documentsData shipment)
    ∧ ((∀ doc, doc ∈ Shipment.documentsData shipment →
          ChecklistItem.name doc ≠ documentType) →
       Shipment.documentsData shipment' = Shipment.documentsData shipment)
    ∧ ∀ (i : nat) (doc : ChecklistItem.t),
        Shipment.documentsData shipment !! i = Some doc →
        Shipment.documentsData shipment' !! i
        = Some (if decide (ChecklistItem.name doc = documentType)
                then {| ChecklistItem.name := ChecklistItem.name doc;
                        ChecklistItem.status := "draft";
                        ChecklistItem.files :=
                          Some (default [] (ChecklistItem.files doc) ++ [url])%list;
                        ChecklistItem.rest := ChecklistItem.rest doc |}
                else doc).
Proof.
  intros Hu Hs url. unfold processDocumentUploadAction. rewrite Hu. simpl. rewrite Hs.
  fold url. set (d := documents_update _).
  destruct (shipment_update_owned shipmentId u d s shipment Hs) as [r0 ->]. simpl.
  eexists _, _. split; [done|].
  rewrite owned_shipment_updated, Hs. split; [reflexivity|].
  subst d. rewrite apply_documents_update.
  split; [by rewrite length_fmap|].
  split; [apply record_upload_unmatched|].
  intros i doc Hi. by rewrite list_lookup_fmap, Hi.
Qed.

Lemma C9_upload_witness :
  ∃ s' shipment',
    processDocumentUploadAction Sample.alice_env "s-1" "Packing List" Sample.scan
      Sample.store
    = (Ok {| upload_success := true;
             fileUrl := "/simulated-uploads/s-1/Packing List-1793577600000-invoice.pdf";
             upload_status := "draft" |}, s')
    ∧ owned_shipment "s-1" Sample.alice s' = Some shipment'
    ∧ length (Shipment.documentsData shipment') = 2%nat
    ∧ Shipment.documentsData shipment' !! 0%nat = Some Sample.invoice
    ∧ (ChecklistItem.files <$> Shipment.documentsData shipment' !! 1%nat)
      = Some (Some ["/simulated-uploads/s-1/old.pdf";
                    "/simulated-uploads/s-1/Packing List-1793577600000-invoice.pdf"]).
Proof.
  destruct (C9_upload_rewrites_matching_entries Sample.alice_env Sample.alice "s-1"
              "Packing List" Sample.scan Sample.store
              (Sample.shipment_of "s-1" "u-alice") eq_refl eq_refl)
    as (s' & shipment' & Hrun & Hown & Hlen & _ & Hat).
  exists s', shipment'. split; [exact Hrun|]. split; [exact Hown|].
  split; [exact Hlen|]. split.
  - exact (Hat 0%nat Sample.invoice eq_refl).
  - rewrite (Hat 1%nat Sample.packing_list eq_refl). reflexivity.
Defined.

(** * Updating the details *)

Lemma details_run (env : Env) (u : User) (id : string) (updates : ShipmentData.t)
    (s : Store) (shipment : Shipment.t) :
  getCurrentUser env = Ok u →
  owned_shipment id u s = Some shipment →
  ∃ view s',
    updateShipmentDetailsAction env id updates s = (Success view, s')
    ∧ owned_shipment id u s'
      = Some (ShipmentUpdate.apply (details_update env shipment updates s) shipment)
    ∧ consignees s' = consignees s ∧ exporters s' = exporters s.
Proof.
  intros Hu Hs. unfold updateShipmentDetailsAction. rewrite Hu. simpl. rewrite Hs.
  set (d := details_update _ _ _ _).
  destruct (shipment_update_owned id u d s shipment Hs) as [r0 ->]. simpl.
  eexists _, _. split; [done|].
  by rewrite owned_shipment_updated, Hs.
Qed.

(** C6. After a details update of an owned shipment, each JSON column named
    in the update holds the supplied value, nothing of the old one, and
    each column not named holds what it held before. *)
Theorem C6_details_update_replaces_or_keeps (env : Env) (u : User) (id : string)
    (updates : ShipmentData.t) (s : Store) (shipment : Shipment.t) :
  getCurrentUser env = Ok u →
  owned_shipment id u s = Some shipment →
  ∃ view s' shipment',
    updateShipmentDetailsAction env id updates s = (Success view, s')
    ∧ owned_shipment id u s' = Some shipment'
    ∧ Shipment.consigneeData shipment'
      = match ShipmentData.consignee updates with
        | Some c => Snapshot c
        | None => Shipment.consigneeData shipment
        end
    ∧ Shipment.exporterData shipment'
      = match ShipmentData.exporter updates with
        | Some e => Snapshot e
        | None => Shipment.exporterData shipment
        end
    ∧ Shipment.shipmentDetails shipment'
      = match ShipmentData.shipmentDetails updates with
        | Some d => d
        | None => Shipment.shipmentDetails shipment
        end
    ∧ Shipment.documentsData shipment'
      = match ShipmentData.documents updates with
        | Some d => d
        | None => Shipment.documentsData shipment
        end
    ∧ Shipment.timelineData shipment'
      = match ShipmentData.timeline updates with
        | Some t => t
        | None => Shipment.timelineData shipment
        end
    ∧ Shipment.notesData shipment'
      = match ShipmentData.notes updates with
        | Some n => n
        | None => Shipment.notesData shipment
        end
    ∧ Shipment.cargoData shipment'
      = match ShipmentData.cargo updates with
        | Some c => Some c
        | None => Shipment.cargoData shipment
        end
    ∧ Shipment.statementOfFactsData shipment'
      = match ShipmentData.statementOfFacts updates with
        | Some f => Some f
        | None => Shipment.statementOfFactsData shipment
        end.
Proof.
  intros Hu Hs.
  destruct (details_run env u id updates s shipment Hu Hs) as (view & s' & Hrun & Hown & _).
  eexists view, s', _. split; [exact Hrun|]. split; [exact Hown|]. simpl.
  destruct updates as [c e d docs t n cargo sof]; simpl.
  repeat split; [by destruct c | by destruct e].
Qed.

Lemma C6_details_update_witness :
  ∃ view s' shipment',
    updateShipmentDetailsAction Sample.alice_env "s-1"
      (Sample.form None None (Some [Sample.packing_list])) Sample.store
    = (Success view, s')
    ∧ owned_shipment "s-1" Sample.alice s' = Some shipment'
    ∧ Shipment.documentsData shipment' = [Sample.packing_list]
    ∧ Shipment.timelineData shipment' = [created_event Sample.alice_env]
    ∧ Shipment.consigneeData shipment' = EmptyObject.
Proof.
  destruct (C6_details_update_replaces_or_keeps Sample.alice_env Sample.alice "s-1"
              (Sample.form None None (Some [Sample.packing_list])) Sample.store
              (Sample.shipment_of "s-1" "u-alice") eq_refl eq_refl)
    as (view & s' & shipment' & Hrun & Hown & Hc & _ & _ & Hdocs & Ht & _).
  exists view, s', shipment'. repeat split; assumption.
Defined.

Lemma relink_consignee_found (current : option string) (c : ConsigneeData.t)
    (s : Store) (cid : string) (row : Consignee.t) :
  ConsigneeData.id c = Some cid → cid ≠ "" →
  row ∈ consignees s → Consignee.id row = cid →
  relink_consignee current c s = Some cid.
Proof.
  intros Hid Hne Hrow Hcid. unfold relink_consignee. rewrite Hid. simpl.
  rewrite bool_decide_eq_true_2 by done.
  destruct (findFirst_is_Some (λ r, Consignee.id r = cid) (consignees s) row Hrow Hcid)
    as [r0 Hr0].
  rewrite Hr0. apply findFirst_Some in Hr0 as [_ Hr0]. by rewrite Hr0.
Qed.

Lemma relink_consignee_kept (current : option string) (c : ConsigneeData.t) (s : Store) :
  ConsigneeData.id c = None ∨ ConsigneeData.id c = Some ""
  ∨ (∀ row, row ∈ consignees s → Some (Consignee.id row) ≠ ConsigneeData.id c) →
  relink_consignee current c s = current.
Proof.
  unfold relink_consignee. intros [Hid|[Hid|Hno]].
  - by rewrite Hid.
  - by rewrite Hid.
  - destruct (ConsigneeData.id c) as [cid|]; [|done]. simpl.
    destruct (findFirst _ _) as [r0|] eqn:Hr0; [|by destruct (bool_decide _)].
    apply findFirst_Some in Hr0 as [Hin Hr0]. destruct (Hno r0 Hin). by rewrite Hr0.
Qed.

Lemma relink_exporter_found (current : option string) (e : ExporterData.t)
    (s : Store) (eid : string) (row : Exporter.t) :
  ExporterData.id e = Some eid → eid ≠ "" →
  row ∈ exporters s → Exporter.id row = eid →
  relink_exporter current e s = Some eid.
Proof.
  intros Hid Hne Hrow Heid. unfold relink_exporter. rewrite Hid. simpl.
  rewrite bool_decide_eq_true_2 by done.
  destruct (findFirst_is_Some (λ r, Exporter.id r = eid) (exporters s) row Hrow Heid)
    as [r0 Hr0].
  rewrite Hr0. apply findFirst_Some in Hr0 as [_ Hr0]. by rewrite Hr0.
Qed.

Lemma relink_exporter_kept (current : option string) (e : ExporterData.t) (s : Store) :
  ExporterData.id e = None ∨ ExporterData.id e = Some ""
  ∨ (∀ row, row ∈ exporters s → Some (Exporter.id row) ≠ ExporterData.id e) →
  relink_exporter current e s = current.
Proof.
  unfold relink_exporter. intros [Hid|[Hid|Hno]].
  - by rewrite Hid.
  - by rewrite Hid.
  - destruct (ExporterData.id e) as [eid|]; [|done]. simpl.
    destruct (findFirst _ _) as [r0|] eqn:Hr0; [|by destruct (bool_decide _)].
    apply findFirst_Some in Hr0 as [Hin Hr0]. destruct (Hno r0 Hin). by rewrite Hr0.
Qed.

(** C4. A details update of an owned shipment that names a consignee (or an
    exporter) overwrites the snapshot, and links the shipment to the client
    row of the given id whenever such a row exists, whoever owns that row;
    with no id, or an id of no row, the link stays as it was. *)
Theorem C4_relink_ignores_client_owner (env : Env) (u : User) (id : string)
    (updates : ShipmentData.t) (s : Store) (shipment : Shipment.t) :
  getCurrentUser env = Ok u →
  owned_shipment id u s = Some shipment →
  ∃ view s' shipment',
    updateShipmentDetailsAction env id updates s = (Success view, s')
    ∧ owned_shipment id u s' = Some shipment'
    ∧ (∀ c, ShipmentData.consignee updates = Some c →
         Shipment.consigneeData shipment' = Snapshot c
         ∧ (∀ cid row,
              ConsigneeData.id c = Some cid → cid ≠ "" →
              row ∈ consignees s → Consignee.id row = cid →
              Shipment.consigneeId shipment' = Some cid)
         ∧ (ConsigneeData.id c = None ∨ ConsigneeData.id c = Some ""
            ∨ (∀ row, row ∈ consignees s → Some (Consignee.id row) ≠ ConsigneeData.id c) →
            Shipment.consigneeId shipment' = Shipment.consigneeId shipment))
    ∧ (∀ e, ShipmentData.exporter updates = Some e →
         Shipment.exporterData shipment' = Snapshot e
         ∧ (∀ eid row,
              ExporterData.id e = Some eid → eid ≠ "" →
              row ∈ exporters s → Exporter.id row = eid →
              Shipment.exporterId shipment' = Some eid)
         ∧ (ExporterData.id e = None ∨ ExporterData.id e = Some ""
            ∨ (∀ row, row ∈ exporters s → Some (Exporter.id row) ≠ ExporterData.id e) →
            Shipment.exporterId shipment' = Shipment.exporterId shipment)).
Proof.
  intros Hu Hs.
  destruct (details_run env u id updates s shipment Hu Hs) as (view & s' & Hrun & Hown & _).
  eexists view, s', _. split; [exact Hrun|]. split; [exact Hown|].
  unfold ShipmentUpdate.apply, details_update. simpl. split.
  - intros c ->. simpl. split; [done|]. split.
    + intros cid row ????. by eapply relink_consignee_found.
    + apply relink_consignee_kept.
  - intros e ->. simpl. split; [done|]. split.
    + intros eid row ????. by eapply relink_exporter_found.
    + apply relink_exporter_kept.
Qed.

Lemma C4_relink_witness :
  Consignee.userId Sample.globex ≠ user_id Sample.alice
  ∧ ∃ view s' shipment',
      updateShipmentDetailsAction Sample.alice_env "s-1"
        (Sample.form (Some (Sample.consignee_input (Some "c-globex") "Globex" "222"))
           None None) Sample.store
      = (Success view, s')
      ∧ owned_shipment "s-1" Sample.alice s' = Some shipment'
      ∧ Shipment.consigneeId shipment' = Some "c-globex".
Proof.
  split; [discriminate|].
  destruct (C4_relink_ignores_client_owner Sample.alice_env Sample.alice "s-1"
              (Sample.form (Some (Sample.consignee_input (Some "c-globex") "Globex" "222"))
                 None None) Sample.store
              (Sample.shipment_of "s-1" "u-alice") eq_refl eq_refl)
    as (view & s' & shipment' & Hrun & Hown & Hc & _).
  exists view, s', shipment'. split; [exact Hrun|]. split; [exact Hown|].
  destruct (Hc _ eq_refl) as (_ & Hlink & _).
  apply (Hlink "c-globex" Sample.globex); [reflexivity | discriminate | | reflexivity].
  right. left.
Defined.

(** The explicit link action, by contrast, refuses a client of another
    user. *)
Example link_refuses_foreign_client :
  linkClientToShipmentAction Sample.alice_env "s-1" "c-globex" ConsigneeClient
    Sample.store
  = (Failure "consignee not found or unauthorized", Sample.store).
Proof. reflexivity. Qed.

(** * Reading one shipment *)

(** C8. Asking for a shipment that another user owns gives null, and so
    does asking for an id that no shipment has: the two answers are the
    same. *)
Theorem C8_foreign_shipment_reads_as_missing (env : Env) (u : User) (s : Store)
    (foreign missing : string) (other : Shipment.t) :
  getCurrentUser env = Ok u →
  other ∈ shipments s → Shipment.id other = foreign →
  (∀ r, r ∈ shipments s → Shipment.id r = foreign → Shipment.userId r ≠ user_id u) →
  (∀ r, r ∈ shipments s → Shipment.id r ≠ missing) →
  getShipmentByIdAction env foreign s = (None, s)
  ∧ getShipmentByIdAction env missing s = getShipmentByIdAction env foreign s.
Proof.
  intros Hu _ _ Hforeign Hmissing.
  assert (Hf : owned_shipment foreign u s = None).
  { apply findFirst_None. intros r Hr [Hid Hown]. by apply (Hforeign r). }
  assert (Hm : owned_shipment missing u s = None).
  { apply findFirst_None. intros r Hr [Hid _]. by apply (Hmissing r). }
  unfold getShipmentByIdAction. rewrite Hu. simpl. by rewrite Hf, Hm.
Qed.

Lemma C8_foreign_shipment_witness :
  getShipmentByIdAction Sample.alice_env "s-2" Sample.store = (None, Sample.store)
  ∧ getShipmentByIdAction Sample.alice_env "s-404" Sample.store
    = getShipmentByIdAction Sample.alice_env "s-2" Sample.store.
Proof.
  apply (C8_foreign_shipment_reads_as_missing Sample.alice_env Sample.alice Sample.store
           "s-2" "s-404" (Sample.shipment_of "s-2" "u-bob")).
  - reflexivity.
  - right. left.
  - reflexivity.
  - intros r Hr Hid Hown. unfold Sample.store in Hr. simpl in Hr.
    apply elem_of_cons in Hr as [->|Hr]; [discriminate|].
    apply elem_of_cons in Hr as [->|Hr]; [discriminate|].
    by apply not_elem_of_nil in Hr.
  - intros r Hr Hid. unfold Sample.store in Hr. simpl in Hr.
    apply elem_of_cons in Hr as [->|Hr]; [discriminate|].
    apply elem_of_cons in Hr as [->|Hr]; [discriminate|].
    by apply not_elem_of_nil in Hr.
Defined.

(** * Creating a shipment *)

Lemma create_run (env : Env) (u : User) (data : CreateShipmentInput) (s : Store) :
  getCurrentUser env = Ok u →
  let hc := handleConsignee env u (formData data) s in
  let he := handleExporter env u (formData data) hc.2 in
  let row := new_shipment env u data hc.1 he.1 in
  createShipmentAction env data s
  = (Ok {| success := true;
           referenceNumber := reference_number (shipmentType data) env;
           shipment := row |},
     set_shipments (create row (shipments he.2)) he.2).
Proof.
  intros Hu. unfold createShipmentAction, transaction. rewrite Hu. simpl.
  destruct (handleConsignee _ _ _ _) as [cid tx1]. simpl.
  by destruct (handleExporter _ _ _ _) as [eid tx2].
Qed.

Lemma create_returns (env : Env) (data : CreateShipmentInput) (s s' : Store)
    (out : CreateShipmentOutput) :
  createShipmentAction env data s = (Ok out, s') →
  ∃ u, getCurrentUser env = Ok u.
Proof.
  unfold createShipmentAction. destruct (getCurrentUser env) as [u|m]; [by exists u|].
  discriminate.
Qed.

Lemma handleConsignee_frame (env : Env) (u : User) (fd : ShipmentData.t) (s : Store) :
  exporters (handleConsignee env u fd s).2 = exporters s
  ∧ shipments (handleConsignee env u fd s).2 = shipments s.
Proof.
  unfold handleConsignee. destruct (ShipmentData.consignee fd) as [c|]; [|done].
  destruct (truthy _); [|done]. by destruct (findFirst _ _).
Qed.

Lemma handleExporter_frame (env : Env) (u : User) (fd : ShipmentData.t) (s : Store) :
  consignees (handleExporter env u fd s).2 = consignees s
  ∧ shipments (handleExporter env u fd s).2 = shipments s.
Proof.
  unfold handleExporter. destruct (ShipmentData.exporter fd) as [e|]; [|done].
  by destruct (findFirst _ _).
Qed.

Lemma str_or_empty (a : string) : str_or a "" = a.
Proof. unfold str_or. by destruct (decide (a = "")). Qed.

(** C3. A created shipment is stored after the existing ones with the
    status CLIENT_DETAILS, a timeline of one entry (that status, the current
    time, "Shipment created"), no notes and empty computations; its document
    list is the one of the form data, and empty when the form data has
    none. *)
Theorem C3_new_shipment_columns (env : Env) (data : CreateShipmentInput) (s s' : Store)
    (out : CreateShipmentOutput) :
  createShipmentAction env data s = (Ok out, s') →
  shipments s' = (shipments s ++ [shipment out])%list
  ∧ Shipment.status (shipment out) = "CLIENT_DETAILS"
  ∧ Shipment.timelineData (shipment out)
    = [JObj [("status", JStr "CLIENT_DETAILS");
             ("timestamp", JStr (toISOString (now env)));
             ("description", JStr "Shipment created")]]
  ∧ Shipment.notesData (shipment out) = []
  ∧ Shipment.computations (shipment out) = Some (JObj [])
  ∧ Shipment.documentsData (shipment out)
    = match ShipmentData.documents (formData data) with
      | Some docs => docs
      | None => []
      end.
Proof.
  intros Hrun. destruct (create_returns _ _ _ _ _ Hrun) as [u Hu].
  rewrite (create_run env u data s Hu) in Hrun. simpl in Hrun.
  injection Hrun as <- <-. simpl.
  destruct (handleExporter_frame env u (formData data)
              (handleConsignee env u (formData data) s).2) as [_ ->].
  destruct (handleConsignee_frame env u (formData data) s) as [_ ->].
  repeat split.
Qed.

Lemma C3_new_shipment_witness :
  ∃ out s',
    createShipmentAction Sample.alice_env (Sample.request (Sample.form None None None))
      Sample.empty_store = (Ok out, s')
    ∧ shipments s' = [shipment out]
    ∧ Shipment.status (shipment out) = "CLIENT_DETAILS"
    ∧ Shipment.timelineData (shipment out)
      = [JObj [("status", JStr "CLIENT_DETAILS");
               ("timestamp", JStr "2026-11-02T00:00:00.000Z");
               ("description", JStr "Shipment created")]]
    ∧ Shipment.documentsData (shipment out) = [].
Proof.
  eexists _, _. split; [reflexivity|].
  destruct (C3_new_shipment_columns Sample.alice_env
              (Sample.request (Sample.form None None None)) Sample.empty_store
              _ _ eq_refl) as (Hs & Hst & Ht & _ & _ & Hd).
  repeat split; assumption.
Defined.

(** The documents column of a new shipment is not always empty: a form that
    brings a checklist has it stored. *)
Lemma C3_documents_counterexample :
  ∃ out s',
    createShipmentAction Sample.alice_env
      (Sample.request (Sample.form None None (Some [Sample.invoice])))
      Sample.empty_store = (Ok out, s')
    ∧ Shipment.documentsData (shipment out) = [Sample.invoice]
    ∧ Shipment.documentsData (shipment out) ≠ [].
Proof. eexists _, _. split; [reflexivity|]. split; [reflexivity | discriminate]. Qed.

(** What the consignee step does in a successful creation, by the form
    data: for a consignee that carries an id the caller's consignees are
    searched for one with the same tin or the same name, a match is reused,
    and on a miss a row is created for the caller; for a consignee without
    an id, as with no consignee at all, the shipment's consignee id is null
    and no consignee row is written. *)
Lemma consignee_step (env : Env) (data : CreateShipmentInput) (s s' : Store)
    (out : CreateShipmentOutput) :
  createShipmentAction env data s = (Ok out, s') →
  ∃ u, getCurrentUser env = Ok u ∧
  match ShipmentData.consignee (formData data) with
  | Some c =>
      if truthy (ConsigneeData.id c) then
        (∃ r, r ∈ consignees s
              ∧ Consignee.userId r = user_id u
              ∧ (Consignee.tin r = ConsigneeData.tin c
                 ∨ Consignee.name r = ConsigneeData.name c)
              ∧ Shipment.consigneeId (shipment out) = Some (Consignee.id r)
              ∧ consignees s' = consignees s)
        ∨ ((∀ r, r ∈ consignees s → Consignee.userId r = user_id u →
              Consignee.tin r ≠ ConsigneeData.tin c
              ∧ Consignee.name r ≠ ConsigneeData.name c)
           ∧ Shipment.consigneeId (shipment out) = Some (cuid env ConsigneeTable)
           ∧ ∃ row, consignees s' = (consignees s ++ [row])%list
                    ∧ Consignee.id row = cuid env ConsigneeTable
                    ∧ Consignee.userId row = user_id u
                    ∧ Consignee.name row = ConsigneeData.name c
                    ∧ Consignee.tin row = ConsigneeData.tin c
                    ∧ Consignee.businessAddress row = ConsigneeData.address c)
      else Shipment.consigneeId (shipment out) = None ∧ consignees s' = consignees s
  | None => Shipment.consigneeId (shipment out) = None ∧ consignees s' = consignees s
  end.
Proof.
  intros Hrun. destruct (create_returns _ _ _ _ _ Hrun) as [u Hu]. exists u.
  split; [exact Hu|].
  rewrite (create_run env u data s Hu) in Hrun. simpl in Hrun.
  injection Hrun as <- <-. simpl.
  destruct (handleExporter_frame env u (formData data)
              (handleConsignee env u (formData data) s).2) as [-> _].
  unfold handleConsignee.
  destruct (ShipmentData.consignee (formData data)) as [c|]; [|done].
  destruct (truthy (ConsigneeData.id c)); [|done].
  destruct (findFirst _ _) as [r|] eqn:Hfind; simpl.
  - left. apply findFirst_Some in Hfind as (Hin & Hmatch & Hown). by exists r.
  - right. split.
    + intros r Hin Hown. rewrite findFirst_None in Hfind.
      specialize (Hfind r Hin). simpl in Hfind. split; intros ?; apply Hfind; auto.
    + split; [done|]. eexists. split; [reflexivity|]. simpl.
      by rewrite str_or_empty.
Qed.

Lemma consignee_step_creates :
  ∃ out s',
    createShipmentAction Sample.alice_env
      (Sample.request
         (Sample.form (Some (Sample.consignee_input (Some "picked") "Umbrella" "333"))
            None None))
      Sample.store = (Ok out, s')
    ∧ Shipment.consigneeId (shipment out) = Some "c-new"
    ∧ length (consignees s') = 3%nat.
Proof.
  eexists _, _. split; [reflexivity|].
  destruct (consignee_step Sample.alice_env
              (Sample.request
                 (Sample.form (Some (Sample.consignee_input (Some "picked") "Umbrella" "333"))
                    None None))
              Sample.store _ _ eq_refl) as (u & Hu & H).
  injection Hu as <-. simpl in H.
  destruct H as [(r & Hin & Hown & Hmatch & _) | (_ & Hid & row & Hrows & _)].
  - exfalso. unfold Sample.store in Hin. simpl in Hin.
    apply elem_of_cons in Hin as [->|Hin]; [by destruct Hmatch|].
    apply elem_of_cons in Hin as [->|Hin]; [by destruct Hmatch|].
    by apply not_elem_of_nil in Hin.
  - split; [exact Hid|].
    exact (f_equal length Hrows).
Defined.

(** C1. A consignee sent without an id. The store holds the caller's
    consignee Acme (tin 111) and the caller's exporter Initech, and the form
    names both, neither with an id. The exporter step finds the caller's
    row and links it. The consignee step is skipped by the guard on the id:
    the shipment is stored with a null consignee id although a consignee is
    supplied and the caller's row matches it by tin and by name. It is the
    same on a miss: for a new consignee and a new exporter, both without an
    id, the exporter row is created and linked, while no consignee row is
    written and the consignee id is null. *)
Theorem C1_consignee_without_id_is_skipped :
  (∃ out s',
     createShipmentAction Sample.alice_env
       (Sample.request
          (Sample.form (Some (Sample.consignee_input None "Acme" "111"))
             (Some (Sample.exporter_input None "Initech" "5 Dock Lane")) None))
       Sample.store = (Ok out, s')
     ∧ Sample.acme ∈ consignees Sample.store
     ∧ Consignee.userId Sample.acme = user_id Sample.alice
     ∧ Consignee.tin Sample.acme = "111"
     ∧ Consignee.name Sample.acme = "Acme"
     ∧ Shipment.consigneeId (shipment out) = None
     ∧ Shipment.exporterId (shipment out) = Some "e-initech"
     ∧ consignees s' = consignees Sample.store
     ∧ exporters s' = exporters Sample.store)
  ∧ (∃ out s',
       createShipmentAction Sample.alice_env
         (Sample.request
            (Sample.form (Some (Sample.consignee_input None "Umbrella" "333"))
               (Some (Sample.exporter_input None "Umbrella Export" "3 Wharf Row")) None))
         Sample.store = (Ok out, s')
       ∧ Shipment.consigneeId (shipment out) = None
       ∧ consignees s' = consignees Sample.store
       ∧ Shipment.exporterId (shipment out) = Some "e-new"
       ∧ ∃ row, exporters s' = (exporters Sample.store ++ [row])%list
                ∧ Exporter.id row = "e-new"
                ∧ Exporter.name row = "Umbrella Export").
Proof.
  split.
  - eexists _, _. split; [reflexivity|]. split; [by left|].
    repeat split; reflexivity.
  - eexists _, _. split; [reflexivity|]. do 3 (split; [reflexivity|]).
    eexists. repeat split; reflexivity.
Qed.

(** * Matching clients *)

Lemma findFirst_ext_in {A} (P Q : A → Prop) `{!∀ x, Decision (P x)}
    `{!∀ x, Decision (Q x)} (rows : list A) :
  (∀ x, x ∈ rows → P x ↔ Q x) → findFirst P rows = findFirst Q rows.
Proof.
  unfold findFirst. induction rows as [|y rows IH]; intros Hext; [done|].
  assert (Hy : P y ↔ Q y) by (apply Hext; left).
  assert (IH' : head (filter P rows) = head (filter Q rows))
    by (apply IH; intros x Hx; apply Hext; by right).
  rewrite !filter_cons.
  destruct (decide (P y)), (decide (Q y)); simpl; tauto || done.
Qed.

Lemma handleConsignee_with_id (env : Env) (u : User) (fd : ShipmentData.t) (s : Store)
    (c : ConsigneeData.t) :
  ShipmentData.consignee fd = Some c → truthy (ConsigneeData.id c) = true →
  handleConsignee env u fd s
  = match findFirst (λ r, (Consignee.tin r = ConsigneeData.tin c
                           ∨ Consignee.name r = ConsigneeData.name c)
                          ∧ Consignee.userId r = user_id u) (consignees s) with
    | Some r => (Some (Consignee.id r), s)
    | None => (Some (cuid env ConsigneeTable),
               set_consignees (create (new_consignee env u fd c) (consignees s)) s)
    end.
Proof. intros Hc Hid. unfold handleConsignee. by rewrite Hc, Hid. Qed.

Lemma handleExporter_some (env : Env) (u : User) (fd : ShipmentData.t) (s : Store)
    (e : ExporterData.t) :
  ShipmentData.exporter fd = Some e →
  handleExporter env u fd s
  = match findFirst (λ r, (Exporter.name r = ExporterData.name e
                           ∧ Exporter.businessAddress r = ExporterData.address e)
                          ∧ Exporter.userId r = user_id u) (exporters s) with
    | Some r => (Some (Exporter.id r), s)
    | None => (Some (cuid env ExporterTable),
               set_exporters (create (new_exporter env u e) (exporters s)) s)
    end.
Proof. intros He. unfold handleExporter. by rewrite He. Qed.

(** What one successful creation leaves in the two client tables. *)
Lemma create_tables (env : Env) (u : User) (data : CreateShipmentInput) (s : Store) :
  getCurrentUser env = Ok u →
  ∃ out s',
    createShipmentAction env data s = (Ok out, s')
    ∧ Shipment.consigneeId (shipment out) = (handleConsignee env u (formData data) s).1
    ∧ consignees s' = consignees (handleConsignee env u (formData data) s).2
    ∧ ∀ s0, exporters s0 = exporters s →
        Shipment.exporterId (shipment out) = (handleExporter env u (formData data) s0).1
        ∧ exporters s' = exporters (handleExporter env u (formData data) s0).2.
Proof.
  intros Hu. eexists _, _. split; [by apply create_run|]. simpl.
  split; [done|]. split; [apply handleExporter_frame|].
  intros s0 Hs0.
  destruct (handleConsignee_frame env u (formData data) s) as [Hex _].
  rewrite <- Hex in Hs0. revert Hs0.
  generalize (handleConsignee env u (formData data) s).2. intros s1 Hs0.
  unfold handleExporter. destruct (ShipmentData.exporter (formData data)) as [e|];
    [|done].
  rewrite Hs0. by destruct (findFirst _ _).
Qed.

(** C5. Two creations by the same user, one after the other.
    Consignees: the two inputs carry an id, have the same tin and different
    names, and no consignee the user already has bears either name; then the
    second shipment gets the consignee id of the first and no consignee row
    is added by the second call.
    Exporters: the two inputs have the same name and different addresses,
    and the user has no exporter with the second input's name and address;
    then the second call adds an exporter row and links the shipment to
    it. *)
Theorem C5_matching_asymmetry (env1 env2 : Env) (u : User) (s : Store) :
  getCurrentUser env1 = Ok u → getCurrentUser env2 = Ok u →
  (∀ d1 d2 c1 c2,
     ShipmentData.consignee (formData d1) = Some c1 →
     ShipmentData.consignee (formData d2) = Some c2 →
     truthy (ConsigneeData.id c1) = true → truthy (ConsigneeData.id c2) = true →
     ConsigneeData.tin c1 = ConsigneeData.tin c2 →
     ConsigneeData.name c1 ≠ ConsigneeData.name c2 →
     (∀ r, r ∈ consignees s → Consignee.userId r = user_id u →
        Consignee.name r ≠ ConsigneeData.name c1
        ∧ Consignee.name r ≠ ConsigneeData.name c2) →
     ∃ out1 s1 out2 s2,
       createShipmentAction env1 d1 s = (Ok out1, s1)
       ∧ createShipmentAction env2 d2 s1 = (Ok out2, s2)
       ∧ is_Some (Shipment.consigneeId (shipment out1))
       ∧ Shipment.consigneeId (shipment out2) = Shipment.consigneeId (shipment out1)
       ∧ consignees s2 = consignees s1)
  ∧ (∀ d1 d2 e1 e2,
       ShipmentData.exporter (formData d1) = Some e1 →
       ShipmentData.exporter (formData d2) = Some e2 →
       ExporterData.name e1 = ExporterData.name e2 →
       ExporterData.address e1 ≠ ExporterData.address e2 →
       (∀ r, r ∈ exporters s → Exporter.userId r = user_id u →
          ¬ (Exporter.name r = ExporterData.name e2
             ∧ Exporter.businessAddress r = ExporterData.address e2)) →
       ∃ out1 s1 out2 s2 row,
         createShipmentAction env1 d1 s = (Ok out1, s1)
         ∧ createShipmentAction env2 d2 s1 = (Ok out2, s2)
         ∧ exporters s2 = (exporters s1 ++ [row])%list
         ∧ Shipment.exporterId (shipment out2) = Some (Exporter.id row)
         ∧ Exporter.id row = cuid env2 ExporterTable
         ∧ Exporter.name row = ExporterData.name e2
         ∧ Exporter.businessAddress row = ExporterData.address e2
         ∧ Exporter.userId row = user_id u).
Proof.
  intros Hu1 Hu2. split.
  - intros d1 d2 c1 c2 Hc1 Hc2 Hid1 Hid2 Htin Hname Hfresh.
    destruct (create_tables env1 u d1 s Hu1) as (out1 & s1 & Hrun1 & Hout1 & Hs1 & _).
    destruct (create_tables env2 u d2 s1 Hu2) as (out2 & s2 & Hrun2 & Hout2 & Hs2 & _).
    exists out1, s1, out2, s2. split; [done|]. split; [done|].
    rewrite Hout1, Hout2, Hs2.
    rewrite (handleConsignee_with_id env1 u _ s c1 Hc1 Hid1) in *.
    rewrite (handleConsignee_with_id env2 u _ s1 c2 Hc2 Hid2).
    set (P1 := λ r, (Consignee.tin r = ConsigneeData.tin c1
                     ∨ Consignee.name r = ConsigneeData.name c1)
                    ∧ Consignee.userId r = user_id u) in *.
    set (P2 := λ r, (Consignee.tin r = ConsigneeData.tin c2
                     ∨ Consignee.name r = ConsigneeData.name c2)
                    ∧ Consignee.userId r = user_id u).
    assert (Hsame : findFirst P2 (consignees s) = findFirst P1 (consignees s)).
    { apply findFirst_ext_in. intros r Hr. unfold P1, P2. rewrite Htin.
      split; intros [[?|?] Hown]; (split; [by left | done])
        || (by destruct (Hfresh r Hr Hown)). }
    destruct (findFirst P1 (consignees s)) as [r|] eqn:Hfind; simpl in *.
    + rewrite Hs1, Hsame. simpl. by split; [eexists|].
    + rewrite Hs1. simpl.
      rewrite (findFirst_create_miss P2 _ _ Hsame).
      rewrite decide_True; [by split; [eexists|]|].
      unfold P2. simpl. rewrite str_or_empty. by split; [left|].
  - intros d1 d2 e1 e2 He1 He2 Hname Haddr Hfresh.
    destruct (create_tables env1 u d1 s Hu1) as (out1 & s1 & Hrun1 & _ & _ & Hex1).
    destruct (create_tables env2 u d2 s1 Hu2) as (out2 & s2 & Hrun2 & _ & _ & Hex2).
    destruct (Hex1 s eq_refl) as [_ Hs1]. destruct (Hex2 s1 eq_refl) as [Hout2 Hs2].
    exists out1, s1, out2, s2, (new_exporter env2 u e2).
    split; [done|]. split; [done|].
    rewrite Hout2, Hs2. rewrite (handleExporter_some env2 u _ s1 e2 He2).
    rewrite (handleExporter_some env1 u _ s e1 He1) in Hs1.
    set (P2 := λ r, (Exporter.name r = ExporterData.name e2
                     ∧ Exporter.businessAddress r = ExporterData.address e2)
                    ∧ Exporter.userId r = user_id u).
    assert (Hmiss : findFirst P2 (exporters s) = None).
    { apply findFirst_None. intros r Hr [Hm Hown]. by apply (Hfresh r Hr Hown). }
    assert (Hmiss1 : findFirst P2 (exporters s1) = None).
    { rewrite Hs1. destruct (findFirst _ (exporters s)); simpl; [done|].
      rewrite (findFirst_create_miss P2 _ _ Hmiss).
      apply decide_False. unfold P2. simpl. intros [[_ ?] _]. done. }
    rewrite Hmiss1. simpl. done.
Qed.

Lemma C5_matching_witness :
  (∃ out1 s1 out2 s2,
     createShipmentAction Sample.alice_env
       (Sample.request
          (Sample.form (Some (Sample.consignee_input (Some "a") "Umbrella" "333"))
             None None)) Sample.store = (Ok out1, s1)
     ∧ createShipmentAction Sample.alice_later
         (Sample.request
            (Sample.form (Some (Sample.consignee_input (Some "b") "Umbrella Corp" "333"))
               None None)) s1 = (Ok out2, s2)
     ∧ is_Some (Shipment.consigneeId (shipment out1))
     ∧ Shipment.consigneeId (shipment out2) = Shipment.consigneeId (shipment out1)
     ∧ consignees s2 = consignees s1)
  ∧ (∃ out1 s1 out2 s2 row,
       createShipmentAction Sample.alice_env
         (Sample.request
            (Sample.form None (Some (Sample.exporter_input None "Initech" "5 Dock Lane"))
               None)) Sample.store = (Ok out1, s1)
       ∧ createShipmentAction Sample.alice_later
           (Sample.request
              (Sample.form None (Some (Sample.exporter_input None "Initech" "8 Wharf Row"))
                 None)) s1 = (Ok out2, s2)
       ∧ exporters s2 = (exporters s1 ++ [row])%list
       ∧ Shipment.exporterId (shipment out2) = Some (Exporter.id row)
       ∧ Exporter.id row = "e-later"
       ∧ Exporter.name row = "Initech"
       ∧ Exporter.businessAddress row = "8 Wharf Row"
       ∧ Exporter.userId row = "u-alice").
Proof.
  destruct (C5_matching_asymmetry Sample.alice_env Sample.alice_later Sample.alice
              Sample.store eq_refl eq_refl) as [Hconsignee Hexporter].
  split.
  - apply (Hconsignee _ _ (Sample.consignee_input (Some "a") "Umbrella" "333")
             (Sample.consignee_input (Some "b") "Umbrella Corp" "333"));
      [reflexivity | reflexivity | reflexivity | reflexivity | reflexivity
      | discriminate |].
    intros r Hr Hown. unfold Sample.store in Hr. simpl in Hr.
    apply elem_of_cons in Hr as [->|Hr]; [split; discriminate|].
    apply elem_of_cons in Hr as [->|Hr]; [discriminate|].
    by apply not_elem_of_nil in Hr.
  - apply (Hexporter _ _ (Sample.exporter_input None "Initech" "5 Dock Lane")
             (Sample.exporter_input None "Initech" "8 Wharf Row"));
      [reflexivity | reflexivity | reflexivity | discriminate |].
    intros r Hr Hown [_ Haddr]. unfold Sample.store in Hr. simpl in Hr.
    apply elem_of_cons in Hr as [->|Hr]; [discriminate|].
    apply elem_of_cons in Hr as [->|Hr]; [discriminate|].
    by apply not_elem_of_nil in Hr.
Defined.

(** With clients already in the store the two rules give other answers: a
    second consignee input that shares the first one's tin is matched to an
    older row that bears its name, and a second exporter input whose name
    and address an older row has is matched to that row, not created. And a
    second consignee input that comes without an id is not matched at all. *)
Lemma C5_matching_counterexample :
  (∃ out1 s1 out2 s2,
     createShipmentAction Sample.alice_env
       (Sample.request
          (Sample.form (Some (Sample.consignee_input (Some "a") "Umbrella" "333"))
             None None)) Sample.store = (Ok out1, s1)
     ∧ createShipmentAction Sample.alice_later
         (Sample.request
            (Sample.form (Some (Sample.consignee_input (Some "b") "Acme" "333"))
               None None)) s1 = (Ok out2, s2)
     ∧ Shipment.consigneeId (shipment out1) = Some "c-new"
     ∧ Shipment.consigneeId (shipment out2) = Some "c-acme")
  ∧ (∃ out1 s1 out2 s2,
       createShipmentAction Sample.alice_env
         (Sample.request
            (Sample.form None (Some (Sample.exporter_input None "Initech" "8 Wharf Row"))
               None)) Sample.store = (Ok out1, s1)
       ∧ createShipmentAction Sample.alice_later
           (Sample.request
              (Sample.form None (Some (Sample.exporter_input None "Initech" "5 Dock Lane"))
                 None)) s1 = (Ok out2, s2)
       ∧ exporters s2 = exporters s1
       ∧ Shipment.exporterId (shipment out2) = Some "e-initech")
  ∧ (∃ out1 s1 out2 s2,
       createShipmentAction Sample.alice_env
         (Sample.request
            (Sample.form (Some (Sample.consignee_input (Some "a") "Umbrella" "333"))
               None None)) Sample.empty_store = (Ok out1, s1)
       ∧ createShipmentAction Sample.alice_later
           (Sample.request
              (Sample.form (Some (Sample.consignee_input None "Umbrella Corp" "333"))
                 None None)) s1 = (Ok out2, s2)
       ∧ Shipment.consigneeId (shipment out1) = Some "c-new"
       ∧ Shipment.consigneeId (shipment out2) = None).
Proof.
  split; [|split].
  - eexists _, _, _, _. split; [reflexivity|]. split; [reflexivity|].
    split; reflexivity.
  - eexists _, _, _, _. split; [reflexivity|]. split; [reflexivity|].
    split; reflexivity.
  - eexists _, _, _, _. split; [reflexivity|]. split; [reflexivity|].
    split; reflexivity.
Qed.

(** * Without a session *)

Lemma getCurrentUser_unauthorized (env : Env) :
  validateSession env ≫= user = None → getCurrentUser env = Throw "Unauthorized".
Proof.
  unfold getCurrentUser. destruct (validateSession env) as [[[u|]]|]; simpl;
    [discriminate | done | done].
Qed.

(** C2. When the session yields no valid user, [getCurrentUser] throws
    Unauthorized, and every action catches it: the caller sees the action's
    own failure shape, and the store is left as it was. *)
Theorem C2_unauthorized_outcomes (env : Env) (s : Store) :
  validateSession env ≫= user = None →
  getCurrentUser env = Throw "Unauthorized"
  ∧ (∀ data, createShipmentAction env data s = (Throw "Failed to create shipment", s))
  ∧ (∀ type, getSavedEntitiesAction env type s = ([], s))
  ∧ (∀ shipmentId documentType file,
       processDocumentUploadAction env shipmentId documentType file s
       = (Throw "Failed to process document upload", s))
  ∧ getShipmentsAction env s = ({| list_success := false; data := [] |}, s)
  ∧ (∀ id, getShipmentByIdAction env id s = (None, s))
  ∧ (∀ id status timelineUpdate,
       updateShipmentStatusAction env id status timelineUpdate s = (false, s))
  ∧ (∀ id updates,
       updateShipmentDetailsAction env id updates s = (Failure "Unauthorized", s))
  ∧ (∀ shipmentId clientId type,
       linkClientToShipmentAction env shipmentId clientId type s
       = (Failure "Unauthorized", s))
  ∧ (∀ data, createClientDuringShipmentAction env data s = (Failure "Unauthorized", s)).
Proof.
  intros Hno. apply getCurrentUser_unauthorized in Hno.
  split; [exact Hno|].
  unfold createShipmentAction, getSavedEntitiesAction, processDocumentUploadAction,
    getShipmentsAction, getShipmentByIdAction, updateShipmentStatusAction,
    updateShipmentDetailsAction, linkClientToShipmentAction,
    createClientDuringShipmentAction.
  rewrite Hno. simpl. repeat split.
Qed.

Lemma C2_unauthorized_witness :
  getCurrentUser Sample.anonymous_env = Throw "Unauthorized"
  ∧ getSavedEntitiesAction Sample.anonymous_env ConsigneeClient Sample.store
    = ([], Sample.store)
  ∧ getShipmentByIdAction Sample.anonymous_env "s-1" Sample.store = (None, Sample.store)
  ∧ updateShipmentStatusAction Sample.anonymous_env "s-1" "ARRIVED" None Sample.store
    = (false, Sample.store)
  ∧ updateShipmentDetailsAction Sample.anonymous_env "s-1" (Sample.form None None None)
      Sample.store = (Failure "Unauthorized", Sample.store).
Proof.
  destruct (C2_unauthorized_outcomes Sample.anonymous_env Sample.store eq_refl)
    as (Hu & _ & Hsaved & _ & _ & Hget & Hstatus & Hdetails & _).
  split; [exact Hu|]. split; [apply Hsaved|]. split; [apply Hget|].
  split; [apply Hstatus | apply Hdetails].
Defined.

(** Unauthorized does not reach the caller of the read and status actions:
    with no session they answer as if there were nothing to show, although
    the store holds rows. *)
Lemma C2_unauthorized_counterexample :
  getCurrentUser Sample.anonymous_env = Throw "Unauthorized"
  ∧ Sample.store ≠ Sample.empty_store
  ∧ getSavedEntitiesAction Sample.anonymous_env ConsigneeClient Sample.store
    = ([], Sample.store)
  ∧ getShipmentsAction Sample.anonymous_env Sample.store
    = ({| list_success := false; data := [] |}, Sample.store)
  ∧ getShipmentByIdAction Sample.anonymous_env "s-1" Sample.store = (None, Sample.store)
  ∧ updateShipmentStatusAction Sample.anonymous_env "s-1" "ARRIVED" None Sample.store
    = (false, Sample.store)
  ∧ (createShipmentAction Sample.anonymous_env
       (Sample.request (Sample.form None None None)) Sample.store).1
    ≠ Throw "Unauthorized".
Proof. repeat split; try reflexivity; discriminate. Qed.

(** * Reference numbers *)

Lemma create_inv (env : Env) (data : CreateShipmentInput) (s s' : Store)
    (out : CreateShipmentOutput) :
  createShipmentAction env data s = (Ok out, s') →
  ∃ u, getCurrentUser env = Ok u
       ∧ referenceNumber out = reference_number (shipmentType data) env
       ∧ Shipment.referenceNumber (shipment out)
         = reference_number (shipmentType data) env
       ∧ shipments s' = (shipments s ++ [shipment out])%list.
Proof.
  intros Hrun. destruct (create_returns _ _ _ _ _ Hrun) as [u Hu]. exists u.
  split; [exact Hu|].
  rewrite (create_run env u data s Hu) in Hrun. simpl in Hrun.
  injection Hrun as <- <-. simpl.
  destruct (handleExporter_frame env u (formData data)
              (handleConsignee env u (formData data) s).2) as [_ ->].
  by destruct (handleConsignee_frame env u (formData data) s) as [_ ->].
Qed.

(** C10. The reference number of a created shipment is CLEX-, the shipment
    type, the last two digits of the current year, a dash, and four digits:
    the floor of the double product of the random draw and ten thousand,
    padded with zeros. The year is any year of two or more digits, the draw
    any double from 0 up to 1. The number depends on nothing else: any
    other creation that succeeds with the same type, in the same year and
    with a draw of the same floor returns the same number. *)
Theorem C10_reference_number_format (env : Env) (data : CreateShipmentInput)
    (s s' : Store) (out : CreateShipmentOutput) :
  createShipmentAction env data s = (Ok out, s') →
  10 ≤ getFullYear (now env) →
  is_draw (random env) = true →
  ∃ n,
    Math_floor (SFmul prec emax (random env) ten_thousand) = Integer n
    ∧ 0 ≤ n < 10000
    ∧ referenceNumber out = Shipment.referenceNumber (shipment out)
    ∧ referenceNumber out
      = "CLEX-" +:+ shipmentType data +:+ two_digits (getFullYear (now env))
        +:+ "-" +:+ four_digits n
    ∧ String.length (two_digits (getFullYear (now env))) = 2%nat
    ∧ all_digits (two_digits (getFullYear (now env)))
    ∧ String.length (four_digits n) = 4%nat
    ∧ all_digits (four_digits n)
    ∧ ∀ env2 data2 s2 s2' out2,
        createShipmentAction env2 data2 s2 = (Ok out2, s2') →
        shipmentType data2 = shipmentType data →
        getFullYear (now env2) = getFullYear (now env) →
        Math_floor (SFmul prec emax (random env2) ten_thousand) = Integer n →
        referenceNumber out2 = referenceNumber out.
Proof.
  intros Hrun Hyear Hdraw.
  destruct (create_inv _ _ _ _ _ Hrun) as (u & Hu & Href & Hrow & Hrows).
  destruct (floor_draw _ Hdraw) as (n & Hfloor & Hn).
  exists n. split; [exact Hfloor|]. split; [exact Hn|].
  split; [by rewrite Href, Hrow|]. split.
  { rewrite Href. unfold reference_number.
    by rewrite Hfloor, floored_toString_small, slice_year, pad_draw. }
  split; [apply two_digits_shape|]. split; [apply two_digits_shape|].
  split; [apply four_digits_shape|]. split; [apply four_digits_shape|].
  intros env2 data2 s2 s2' out2 Hrun2 Htype Hyear2 Hfloor2.
  destruct (create_inv _ _ _ _ _ Hrun2) as (_ & _ & Href2 & _).
  rewrite Href2, Href. unfold reference_number.
  by rewrite Htype, Hyear2, Hfloor2, Hfloor.
Qed.

Lemma C10_reference_number_witness :
  ∃ out s',
    createShipmentAction Sample.alice_env
      (Sample.request (Sample.form None None None)) Sample.store = (Ok out, s')
    ∧ referenceNumber out = "CLEX-IMS26-0042"
    ∧ ∃ out2 s2,
        createShipmentAction Sample.alice_later
          (Sample.request (Sample.form None None None)) Sample.empty_store
        = (Ok out2, s2)
        ∧ random Sample.alice_later ≠ random Sample.alice_env
        ∧ referenceNumber out2 = referenceNumber out.
Proof.
  eexists _, _. split; [reflexivity|].
  assert (Hdraw : is_draw (random Sample.alice_env) = true)
    by (vm_compute; reflexivity).
  assert (Hyear : 10 ≤ getFullYear (now Sample.alice_env)) by (simpl; lia).
  destruct (C10_reference_number_format Sample.alice_env
              (Sample.request (Sample.form None None None)) Sample.store _ _
              eq_refl Hyear Hdraw)
    as (n & Hfloor & _ & _ & Href & _ & _ & _ & _ & Hagain).
  assert (H42 : Math_floor (SFmul prec emax (random Sample.alice_env) ten_thousand)
                = Integer 42) by (vm_compute; reflexivity).
  rewrite H42 in Hfloor. injection Hfloor as <-.
  split; [exact Href|].
  eexists _, _. split; [reflexivity|]. split; [discriminate|].
  apply (Hagain Sample.alice_later (Sample.request (Sample.form None None None))
           Sample.empty_store _ _ eq_refl eq_refl eq_refl).
  vm_compute. reflexivity.
Defined.

(** With the clock in the year 5 the year of the reference number is the
    one character 5: the number is one character short of the pattern. *)
Lemma C10_one_digit_year_counterexample :
  ∃ out s',
    createShipmentAction Sample.early_env
      (Sample.request (Sample.form None None None)) Sample.store = (Ok out, s')
    ∧ is_draw (random Sample.early_env) = true
    ∧ referenceNumber out = "CLEX-IMS5-0042"
    ∧ ¬ ∃ yy nnnn,
          String.length yy = 2%nat ∧ String.length nnnn = 4%nat
          ∧ referenceNumber out = "CLEX-" +:+ "IMS" +:+ yy +:+ "-" +:+ nnnn.
Proof.
  eexists _, _. split; [reflexivity|].
  split; [vm_compute; reflexivity|]. split; [vm_compute; reflexivity|].
  intros (yy & nnnn & Hyy & Hnnnn & Heq).
  apply (f_equal String.length) in Heq.
  rewrite !length_append, Hyy, Hnnnn in Heq.
  vm_compute in Heq. discriminate.
Qed.

(** * More on creation *)

Lemma handleConsignee_result (env : Env) (u : User) (fd : ShipmentData.t) (s : Store) :
  documents (handleConsignee env u fd s).2 = documents s
  ∧ (∃ new, consignees (handleConsignee env u fd s).2 = (consignees s ++ new)%list
            ∧ (length new ≤ 1)%nat)
  ∧ ∀ cid, (handleConsignee env u fd s).1 = Some cid →
      ∃ r, r ∈ consignees (handleConsignee env u fd s).2
           ∧ Consignee.id r = cid ∧ Consignee.userId r = user_id u.
Proof.
  unfold handleConsignee.
  destruct (ShipmentData.consignee fd) as [c|];
    [|split; [done|]; split; [exists []; split; [by rewrite app_nil_r | simpl; lia] | done]].
  destruct (truthy _);
    [|split; [done|]; split; [exists []; split; [by rewrite app_nil_r | simpl; lia] | done]].
  destruct (findFirst _ _) as [r|] eqn:Hfind; simpl.
  - split; [done|]. split; [exists []; split; [by rewrite app_nil_r | simpl; lia]|].
    intros cid [= <-]. apply findFirst_Some in Hfind as (Hin & _ & Hown). by exists r.
  - split; [done|]. split; [eexists [_]; split; [reflexivity | simpl; lia]|].
    intros cid [= <-]. exists (new_consignee env u fd c). split; [|done].
    apply elem_of_app. right. by apply list_elem_of_singleton.
Qed.

Lemma handleExporter_result (env : Env) (u : User) (fd : ShipmentData.t) (s : Store) :
  documents (handleExporter env u fd s).2 = documents s
  ∧ (∃ new, exporters (handleExporter env u fd s).2 = (exporters s ++ new)%list
            ∧ (length new ≤ 1)%nat)
  ∧ ∀ eid, (handleExporter env u fd s).1 = Some eid →
      ∃ r, r ∈ exporters (handleExporter env u fd s).2
           ∧ Exporter.id r = eid ∧ Exporter.userId r = user_id u.
Proof.
  unfold handleExporter.
  destruct (ShipmentData.exporter fd) as [e|];
    [|split; [done|]; split; [exists []; split; [by rewrite app_nil_r | simpl; lia] | done]].
  destruct (findFirst _ _) as [r|] eqn:Hfind; simpl.
  - split; [done|]. split; [exists []; split; [by rewrite app_nil_r | simpl; lia]|].
    intros eid [= <-]. apply findFirst_Some in Hfind as (Hin & _ & Hown). by exists r.
  - split; [done|]. split; [eexists [_]; split; [reflexivity | simpl; lia]|].
    intros eid [= <-]. exists (new_exporter env u e). split; [|done].
    apply elem_of_app. right. by apply list_elem_of_singleton.
Qed.

(** The store and the row a successful creation ends with. *)
Lemma create_outcome (env : Env) (data : CreateShipmentInput) (s s' : Store)
    (out : CreateShipmentOutput) :
  createShipmentAction env data s = (Ok out, s') →
  ∃ u, getCurrentUser env = Ok u
       ∧ shipment out
         = new_shipment env u data (handleConsignee env u (formData data) s).1
             (handleExporter env u (formData data)
                (handleConsignee env u (formData data) s).2).1
       ∧ consignees s' = consignees (handleConsignee env u (formData data) s).2
       ∧ exporters s'
         = exporters (handleExporter env u (formData data)
                        (handleConsignee env u (formData data) s).2).2
       ∧ documents s' = documents s
       ∧ shipments s' = (shipments s ++ [shipment out])%list.
Proof.
  intros Hrun. destruct (create_returns _ _ _ _ _ Hrun) as [u Hu]. exists u.
  split; [exact Hu|].
  rewrite (create_run env u data s Hu) in Hrun. simpl in Hrun.
  injection Hrun as <- <-. simpl.
  destruct (handleExporter_frame env u (formData data)
              (handleConsignee env u (formData data) s).2) as [-> ->].
  destruct (handleConsignee_frame env u (formData data) s) as [_ ->].
  destruct (handleExporter_result env u (formData data)
              (handleConsignee env u (formData data) s).2) as [-> _].
  by destruct (handleConsignee_result env u (formData data) s) as [-> _].
Qed.

(** X1. In a successful creation the exporter step runs whenever the form
    data has an exporter, with or without an id: an exporter of the caller
    with that name and that address is reused, and otherwise a row is
    created for the caller with empty contact fields. The exporter id is
    null only when the form data has no exporter. *)
Theorem X1_exporter_step (env : Env) (data : CreateShipmentInput) (s s' : Store)
    (out : CreateShipmentOutput) :
  createShipmentAction env data s = (Ok out, s') →
  ∃ u, getCurrentUser env = Ok u ∧
  match ShipmentData.exporter (formData data) with
  | Some e =>
      (∃ r, r ∈ exporters s
            ∧ Exporter.userId r = user_id u
            ∧ Exporter.name r = ExporterData.name e
            ∧ Exporter.businessAddress r = ExporterData.address e
            ∧ Shipment.exporterId (shipment out) = Some (Exporter.id r)
            ∧ exporters s' = exporters s)
      ∨ ((∀ r, r ∈ exporters s → Exporter.userId r = user_id u →
            ¬ (Exporter.name r = ExporterData.name e
               ∧ Exporter.businessAddress r = ExporterData.address e))
         ∧ Shipment.exporterId (shipment out) = Some (cuid env ExporterTable)
         ∧ ∃ row, exporters s' = (exporters s ++ [row])%list
                  ∧ Exporter.id row = cuid env ExporterTable
                  ∧ Exporter.userId row = user_id u
                  ∧ Exporter.name row = ExporterData.name e
                  ∧ Exporter.businessAddress row = ExporterData.address e
                  ∧ Exporter.contactPerson row = ""
                  ∧ Exporter.contactNumber row = ""
                  ∧ Exporter.email row = "")
  | None => Shipment.exporterId (shipment out) = None ∧ exporters s' = exporters s
  end.
Proof.
  intros Hrun.
  destruct (create_outcome _ _ _ _ _ Hrun) as (u & Hu & -> & _ & -> & _). exists u.
  split; [exact Hu|]. simpl.
  destruct (handleConsignee_frame env u (formData data) s) as [Hex _].
  revert Hex. generalize (handleConsignee env u (formData data) s).2. intros s1 Hex.
  unfold handleExporter.
  destruct (ShipmentData.exporter (formData data)) as [e|]; [|done].
  rewrite Hex.
  destruct (findFirst _ _) as [r|] eqn:Hfind; simpl.
  - left. apply findFirst_Some in Hfind as (Hin & [Hn Ha] & Hown). by exists r.
  - right. split.
    + intros r Hin Hown Hmatch. rewrite findFirst_None in Hfind. by apply (Hfind r Hin).
    + split; [done|]. by exists (new_exporter env u e).
Qed.

Lemma X1_exporter_step_witness :
  ∃ out s',
    createShipmentAction Sample.alice_env
      (Sample.request
         (Sample.form None (Some (Sample.exporter_input None "Initech" "5 Dock Lane"))
            None))
      Sample.store = (Ok out, s')
    ∧ Shipment.exporterId (shipment out) = Some "e-initech"
    ∧ exporters s' = exporters Sample.store.
Proof.
  eexists _, _. split; [reflexivity|].
  destruct (X1_exporter_step Sample.alice_env
              (Sample.request
                 (Sample.form None
                    (Some (Sample.exporter_input None "Initech" "5 Dock Lane")) None))
              Sample.store _ _ eq_refl) as (u & Hu & H).
  injection Hu as <-. simpl in H.
  destruct H as [(r & Hin & Hown & Hname & Haddr & Hid & Hrows) | (Hmiss & _)].
  - split; [|exact Hrows]. rewrite Hid. unfold Sample.store in Hin. simpl in Hin.
    apply elem_of_cons in Hin as [->|Hin]; [reflexivity|].
    apply elem_of_cons in Hin as [->|Hin]; [discriminate|].
    by apply not_elem_of_nil in Hin.
  - exfalso. apply (Hmiss Sample.initech); [left | reflexivity | by split].
Defined.

(** X2. A created shipment belongs to the caller, and a consignee or exporter
    id it carries is the id of a row that the store then holds and that the
    caller owns: creation never links a shipment to a client of another
    user. *)
Theorem X2_created_links_are_the_callers (env : Env) (data : CreateShipmentInput)
    (s s' : Store) (out : CreateShipmentOutput) :
  createShipmentAction env data s = (Ok out, s') →
  ∃ u, getCurrentUser env = Ok u
       ∧ Shipment.userId (shipment out) = user_id u
       ∧ (∀ cid, Shipment.consigneeId (shipment out) = Some cid →
            ∃ r, r ∈ consignees s' ∧ Consignee.id r = cid
                 ∧ Consignee.userId r = user_id u)
       ∧ (∀ eid, Shipment.exporterId (shipment out) = Some eid →
            ∃ r, r ∈ exporters s' ∧ Exporter.id r = eid
                 ∧ Exporter.userId r = user_id u).
Proof.
  intros Hrun.
  destruct (create_outcome _ _ _ _ _ Hrun) as (u & Hu & -> & -> & -> & _). exists u.
  split; [exact Hu|]. split; [done|]. simpl. split.
  - apply handleConsignee_result.
  - apply handleExporter_result.
Qed.

Lemma X2_created_links_witness :
  ∃ out s' u r,
    createShipmentAction Sample.alice_env
      (Sample.request
         (Sample.form (Some (Sample.consignee_input (Some "picked") "Globex" "222"))
            None None))
      Sample.store = (Ok out, s')
    ∧ getCurrentUser Sample.alice_env = Ok u
    ∧ Shipment.consigneeId (shipment out) = Some "c-new"
    ∧ r ∈ consignees s' ∧ Consignee.id r = "c-new" ∧ Consignee.userId r = user_id u.
Proof.
  destruct (X2_created_links_are_the_callers Sample.alice_env
              (Sample.request
                 (Sample.form (Some (Sample.consignee_input (Some "picked") "Globex" "222"))
                    None None))
              Sample.store _ _ eq_refl) as (u & Hu & _ & Hc & _).
  destruct (Hc "c-new" eq_refl) as (r & Hin & Hid & Hown).
  eexists _, _, u, r. split; [reflexivity|]. by repeat split.
Defined.

(** X3. A successful creation only appends: the consignee table and the
    exporter table keep their rows, in place, and gain one row at most each;
    the document table is the same; the shipment table gains the new row at
    its end. *)
Theorem X3_creation_only_appends (env : Env) (data : CreateShipmentInput)
    (s s' : Store) (out : CreateShipmentOutput) :
  createShipmentAction env data s = (Ok out, s') →
  (∃ new, consignees s' = (consignees s ++ new)%list ∧ (length new ≤ 1)%nat)
  ∧ (∃ new, exporters s' = (exporters s ++ new)%list ∧ (length new ≤ 1)%nat)
  ∧ documents s' = documents s
  ∧ shipments s' = (shipments s ++ [shipment out])%list.
Proof.
  intros Hrun.
  destruct (create_outcome _ _ _ _ _ Hrun) as (u & Hu & _ & -> & -> & -> & ->).
  split; [apply handleConsignee_result|]. split; [|done].
  destruct (handleConsignee_frame env u (formData data) s) as [<- _].
  apply handleExporter_result.
Qed.

Lemma X3_creation_only_appends_witness :
  ∃ out s',
    createShipmentAction Sample.alice_env
      (Sample.request
         (Sample.form (Some (Sample.consignee_input (Some "picked") "Umbrella" "333"))
            (Some (Sample.exporter_input None "Initech" "5 Dock Lane")) None))
      Sample.store = (Ok out, s')
    ∧ (∃ new, consignees s' = (consignees Sample.store ++ new)%list
              ∧ (length new ≤ 1)%nat)
    ∧ (∃ new, exporters s' = (exporters Sample.store ++ new)%list
              ∧ (length new ≤ 1)%nat)
    ∧ documents s' = documents Sample.store
    ∧ shipments s' = (shipments Sample.store ++ [shipment out])%list.
Proof.
  eexists _, _. split; [reflexivity|].
  exact (X3_creation_only_appends Sample.alice_env
           (Sample.request
              (Sample.form (Some (Sample.consignee_input (Some "picked") "Umbrella" "333"))
                 (Some (Sample.exporter_input None "Initech" "5 Dock Lane")) None))
           Sample.store _ _ eq_refl).
Defined.

(** * Who may write, and what a write touches *)

Lemma owned_shipment_None (id : string) (u : User) (s : Store) :
  (∀ r, r ∈ shipments s → Shipment.id r = id → Shipment.userId r ≠ user_id u) →
  owned_shipment id u s = None.
Proof. intros Hno. apply findFirst_None. intros r Hr [Hid Hown]. by apply (Hno r). Qed.

Lemma status_run (env : Env) (u : User) (id status : string)
    (timelineUpdate : option TimelineUpdate) (s : Store) (shipment : Shipment.t) :
  getCurrentUser env = Ok u →
  owned_shipment id u s = Some shipment →
  let d := status_update env status
             match timelineUpdate with
             | Some t => (Shipment.timelineData shipment ++ [timeline_entry t])%list
             | None => Shipment.timelineData shipment
             end in
  updateShipmentStatusAction env id status timelineUpdate s
  = (true, set_shipments (update_rows id d (shipments s)) s).
Proof.
  intros Hu Hs d. unfold updateShipmentStatusAction. rewrite Hu. simpl. rewrite Hs.
  fold d. by destruct (shipment_update_owned id u d s shipment Hs) as [r0 ->].
Qed.

Lemma upload_run (env : Env) (u : User) (shipmentId documentType : string)
    (file : File) (s : Store) (shipment : Shipment.t) :
  getCurrentUser env = Ok u →
  owned_shipment shipmentId u s = Some shipment →
  let url := simulatedUrl env shipmentId documentType file in
  let d := documents_update
             (record_upload documentType url <$> Shipment.documentsData shipment) in
  processDocumentUploadAction env shipmentId documentType file s
  = (Ok {| upload_success := true; fileUrl := url; upload_status := "draft" |},
     set_shipments (update_rows shipmentId d (shipments s)) s).
Proof.
  intros Hu Hs url d. unfold processDocumentUploadAction. rewrite Hu. simpl. rewrite Hs.
  fold url. fold d. by destruct (shipment_update_owned shipmentId u d s shipment Hs) as [r0 ->].
Qed.

Lemma clientExists_true (clientId : string) (type : ClientType) (u : User) (s : Store) :
  clientExists clientId type u s = true ↔
  match type with
  | ConsigneeClient =>
      ∃ c, c ∈ consignees s ∧ Consignee.id c = clientId
           ∧ Consignee.userId c = user_id u
  | ExporterClient =>
      ∃ e, e ∈ exporters s ∧ Exporter.id e = clientId
           ∧ Exporter.userId e = user_id u
  end.
Proof.
  unfold clientExists. destruct type; rewrite bool_decide_eq_true; split.
  - intros [c Hc]. apply findFirst_Some in Hc as (Hin & Hid & Hown). by exists c.
  - intros (c & Hin & Hid & Hown). by eapply findFirst_is_Some.
  - intros [e He]. apply findFirst_Some in He as (Hin & Hid & Hown). by exists e.
  - intros (e & Hin & Hid & Hown). by eapply findFirst_is_Some.
Qed.

Lemma link_run (env : Env) (u : User) (shipmentId clientId : string)
    (type : ClientType) (s : Store) (shipment : Shipment.t) :
  getCurrentUser env = Ok u →
  owned_shipment shipmentId u s = Some shipment →
  clientExists clientId type u s = true →
  ∃ result,
    linkClientToShipmentAction env shipmentId clientId type s
    = (Success result,
       set_shipments (update_rows shipmentId (link_update clientId type) (shipments s)) s).
Proof.
  intros Hu Hs Hc. unfold linkClientToShipmentAction. rewrite Hu. simpl. rewrite Hs, Hc.
  destruct (shipment_update_owned shipmentId u (link_update clientId type) s shipment Hs)
    as [r0 ->].
  by eexists.
Qed.

(** X4. Linking a client of the caller to a shipment of the caller succeeds
    and sets the one foreign key: the consignee id for a consignee, the
    exporter id for an exporter. The other link, the status and both JSON
    snapshots stay as they were; linking does not refresh a snapshot. *)
Theorem X4_link_sets_one_foreign_key (env : Env) (u : User)
    (shipmentId clientId : string) (type : ClientType) (s : Store)
    (shipment : Shipment.t) :
  getCurrentUser env = Ok u →
  owned_shipment shipmentId u s = Some shipment →
  match type with
  | ConsigneeClient =>
      ∃ c, c ∈ consignees s ∧ Consignee.id c = clientId
           ∧ Consignee.userId c = user_id u
  | ExporterClient =>
      ∃ e, e ∈ exporters s ∧ Exporter.id e = clientId
           ∧ Exporter.userId e = user_id u
  end →
  ∃ result s' shipment',
    linkClientToShipmentAction env shipmentId clientId type s = (Success result, s')
    ∧ owned_shipment shipmentId u s' = Some shipment'
    ∧ Shipment.consigneeId shipment'
      = match type with
        | ConsigneeClient => Some clientId
        | ExporterClient => Shipment.consigneeId shipment
        end
    ∧ Shipment.exporterId shipment'
      = match type with
        | ConsigneeClient => Shipment.exporterId shipment
        | ExporterClient => Some clientId
        end
    ∧ Shipment.consigneeData shipment' = Shipment.consigneeData shipment
    ∧ Shipment.exporterData shipment' = Shipment.exporterData shipment
    ∧ Shipment.status shipment' = Shipment.status shipment.
Proof.
  intros Hu Hs Hc. apply clientExists_true in Hc.
  destruct (link_run env u shipmentId clientId type s shipment Hu Hs Hc) as [result Hrun].
  eexists result, _, _. split; [exact Hrun|].
  rewrite owned_shipment_updated, Hs. split; [reflexivity|].
  by destruct type.
Qed.

Lemma X4_link_witness :
  ∃ result s' shipment',
    linkClientToShipmentAction Sample.alice_env "s-1" "c-acme" ConsigneeClient
      Sample.store = (Success result, s')
    ∧ owned_shipment "s-1" Sample.alice s' = Some shipment'
    ∧ Shipment.consigneeId shipment' = Some "c-acme"
    ∧ Shipment.exporterId shipment' = None
    ∧ Shipment.consigneeData shipment' = EmptyObject.
Proof.
  destruct (X4_link_sets_one_foreign_key Sample.alice_env Sample.alice "s-1" "c-acme"
              ConsigneeClient Sample.store (Sample.shipment_of "s-1" "u-alice")
              eq_refl eq_refl)
    as (result & s' & shipment' & Hrun & Hown & Hc & He & Hsnap & _).
  { exists Sample.acme. split; [left | by split]. }
  by exists result, s', shipment'.
Defined.

(** X5. Linking is refused when the caller owns no client of the given id
    and type, also when a client of that id exists for another user: the
    result is the failure "<type> not found or unauthorized" and the store
    is unchanged. *)
Theorem X5_link_refuses_foreign_client (env : Env) (u : User)
    (shipmentId clientId : string) (type : ClientType) (s : Store)
    (shipment : Shipment.t) :
  getCurrentUser env = Ok u →
  owned_shipment shipmentId u s = Some shipment →
  match type with
  | ConsigneeClient =>
      ∀ c, c ∈ consignees s → Consignee.id c = clientId →
           Consignee.userId c ≠ user_id u
  | ExporterClient =>
      ∀ e, e ∈ exporters s → Exporter.id e = clientId →
           Exporter.userId e ≠ user_id u
  end →
  linkClientToShipmentAction env shipmentId clientId type s
  = (Failure (match type with
              | ConsigneeClient => "consignee not found or unauthorized"
              | ExporterClient => "exporter not found or unauthorized"
              end), s).
Proof.
  intros Hu Hs Hno.
  assert (Hc : clientExists clientId type u s = false).
  { apply not_true_is_false. rewrite clientExists_true. destruct type.
    - intros (c & Hin & Hid & Hown). by apply (Hno c).
    - intros (e & Hin & Hid & Hown). by apply (Hno e). }
  unfold linkClientToShipmentAction. rewrite Hu. simpl. rewrite Hs, Hc.
  by destruct type.
Qed.

Lemma X5_link_refusal_witness :
  linkClientToShipmentAction Sample.alice_env "s-1" "e-hooli" ExporterClient Sample.store
  = (Failure "exporter not found or unauthorized", Sample.store).
Proof.
  apply (X5_link_refuses_foreign_client Sample.alice_env Sample.alice "s-1" "e-hooli"
           ExporterClient Sample.store (Sample.shipment_of "s-1" "u-alice")
           eq_refl eq_refl).
  intros e He Hid. unfold Sample.store in He. simpl in He.
  apply elem_of_cons in He as [->|He]; [discriminate|].
  apply elem_of_cons in He as [->|He]; [discriminate|].
  by apply not_elem_of_nil in He.
Defined.

(** X6. A caller who does not own a shipment of the given id, because
    another user owns it or because there is none, cannot write to it: the
    upload throws, the status update returns false, the details update and
    the link fail with "Shipment not found", and the store is unchanged in
    each case. *)
Theorem X6_writes_need_the_owner (env : Env) (u : User) (id : string) (s : Store) :
  getCurrentUser env = Ok u →
  (∀ r, r ∈ shipments s → Shipment.id r = id → Shipment.userId r ≠ user_id u) →
  (∀ documentType file,
     processDocumentUploadAction env id documentType file s
     = (Throw "Failed to process document upload", s))
  ∧ (∀ status timelineUpdate,
       updateShipmentStatusAction env id status timelineUpdate s = (false, s))
  ∧ (∀ updates,
       updateShipmentDetailsAction env id updates s = (Failure "Shipment not found", s))
  ∧ (∀ clientId type,
       linkClientToShipmentAction env id clientId type s
       = (Failure "Shipment not found", s)).
Proof.
  intros Hu Hno. apply owned_shipment_None in Hno.
  unfold processDocumentUploadAction, updateShipmentStatusAction,
    updateShipmentDetailsAction, linkClientToShipmentAction.
  rewrite Hu. simpl. rewrite Hno. repeat split.
Qed.

Lemma X6_writes_need_the_owner_witness :
  updateShipmentStatusAction Sample.alice_env "s-2" "ARRIVED" (Some Sample.arrival)
    Sample.store = (false, Sample.store)
  ∧ updateShipmentDetailsAction Sample.alice_env "s-2" (Sample.form None None (Some []))
      Sample.store = (Failure "Shipment not found", Sample.store)
  ∧ processDocumentUploadAction Sample.alice_env "s-2" "Packing List" Sample.scan
      Sample.store = (Throw "Failed to process document upload", Sample.store).
Proof.
  destruct (X6_writes_need_the_owner Sample.alice_env Sample.alice "s-2" Sample.store
              eq_refl) as (Hupload & Hstatus & Hdetails & _).
  { intros r Hr Hid. unfold Sample.store in Hr. simpl in Hr.
    apply elem_of_cons in Hr as [->|Hr]; [discriminate|].
    apply elem_of_cons in Hr as [->|Hr]; [discriminate|].
    by apply not_elem_of_nil in Hr. }
  split; [apply Hstatus|]. split; [apply Hdetails | apply Hupload].
Defined.

Lemma status_store (env : Env) (id status : string)
    (timelineUpdate : option TimelineUpdate) (s : Store) :
  (updateShipmentStatusAction env id status timelineUpdate s).2 = s
  ∨ ∃ d, (updateShipmentStatusAction env id status timelineUpdate s).2
         = set_shipments (update_rows id d (shipments s)) s.
Proof.
  unfold updateShipmentStatusAction, shipment_update.
  destruct (getCurrentUser env) as [u|]; simpl; [|by left].
  destruct (owned_shipment id u s); simpl; [|by left].
  destruct (findFirst _ _); simpl; [right; by eexists | by left].
Qed.

Lemma details_store (env : Env) (id : string) (updates : ShipmentData.t) (s : Store) :
  (updateShipmentDetailsAction env id updates s).2 = s
  ∨ ∃ d, (updateShipmentDetailsAction env id updates s).2
         = set_shipments (update_rows id d (shipments s)) s.
Proof.
  unfold updateShipmentDetailsAction, shipment_update.
  destruct (getCurrentUser env) as [u|]; simpl; [|by left].
  destruct (owned_shipment id u s); simpl; [|by left].
  destruct (findFirst _ _); simpl; [right; by eexists | by left].
Qed.

Lemma upload_store (env : Env) (id documentType : string) (file : File) (s : Store) :
  (processDocumentUploadAction env id documentType file s).2 = s
  ∨ ∃ d, (processDocumentUploadAction env id documentType file s).2
         = set_shipments (update_rows id d (shipments s)) s.
Proof.
  unfold processDocumentUploadAction, shipment_update.
  destruct (getCurrentUser env) as [u|]; simpl; [|by left].
  destruct (owned_shipment id u s); simpl; [|by left].
  destruct (findFirst _ _); simpl; [right; by eexists | by left].
Qed.

Lemma link_store (env : Env) (id clientId : string) (type : ClientType) (s : Store) :
  (linkClientToShipmentAction env id clientId type s).2 = s
  ∨ ∃ d, (linkClientToShipmentAction env id clientId type s).2
         = set_shipments (update_rows id d (shipments s)) s.
Proof.
  unfold linkClientToShipmentAction, shipment_update.
  destruct (getCurrentUser env) as [u|]; simpl; [|by left].
  destruct (owned_shipment id u s); simpl; [|by left].
  destruct (clientExists _ _ _ _); simpl; [|by left].
  destruct (findFirst _ _); simpl; [right; by eexists | by left].
Qed.

Lemma update_rows_lookup (id : string) (d : ShipmentUpdate.t) (rows : list Shipment.t)
    (i : nat) (r : Shipment.t) :
  rows !! i = Some r →
  update_rows id d rows !! i
  = Some (if decide (Shipment.id r = id) then ShipmentUpdate.apply d r else r).
Proof. intros Hi. unfold update_rows. by rewrite list_lookup_fmap, Hi. Qed.

(** X7. Whatever their outcome, the status update, the details update, the
    upload and the link, called for the shipment id [id], write to no other
    place: the client and document tables are the same, no shipment row is
    added, removed or moved, every shipment of another id is left as it is,
    and no shipment changes its id, owner, reference number, freight type,
    computations, lock flag, completion date or creation time. *)
Theorem X7_updates_write_one_shipment (env : Env) (id : string) (s s' : Store) :
  (∃ status timelineUpdate,
     s' = (updateShipmentStatusAction env id status timelineUpdate s).2)
  ∨ (∃ updates, s' = (updateShipmentDetailsAction env id updates s).2)
  ∨ (∃ documentType file,
       s' = (processDocumentUploadAction env id documentType file s).2)
  ∨ (∃ clientId type, s' = (linkClientToShipmentAction env id clientId type s).2) →
  consignees s' = consignees s
  ∧ exporters s' = exporters s
  ∧ documents s' = documents s
  ∧ length (shipments s') = length (shipments s)
  ∧ (∀ (i : nat) (r : Shipment.t),
       shipments s !! i = Some r → Shipment.id r ≠ id → shipments s' !! i = Some r)
  ∧ ∀ (i : nat) (r : Shipment.t),
      shipments s !! i = Some r →
      ∃ r', shipments s' !! i = Some r'
            ∧ Shipment.id r' = Shipment.id r
            ∧ Shipment.userId r' = Shipment.userId r
            ∧ Shipment.referenceNumber r' = Shipment.referenceNumber r
            ∧ Shipment.freightType r' = Shipment.freightType r
            ∧ Shipment.computations r' = Shipment.computations r
            ∧ Shipment.isLocked r' = Shipment.isLocked r
            ∧ Shipment.completionDate r' = Shipment.completionDate r
            ∧ Shipment.createdAt r' = Shipment.createdAt r.
Proof.
  intros Hs'.
  assert (Hshape : s' = s ∨ ∃ d, s' = set_shipments (update_rows id d (shipments s)) s).
  { destruct Hs' as [(status & t & ->)|[(updates & ->)|[(ty & file & ->)|(c & ty & ->)]]].
    - apply status_store.
    - apply details_store.
    - apply upload_store.
    - apply link_store. }
  destruct Hshape as [->|[d ->]].
  { repeat split; try done. intros i r Hi. by exists r. }
  simpl. split; [done|]. split; [done|]. split; [done|].
  split; [apply length_fmap|]. split.
  - intros i r Hi Hne. rewrite (update_rows_lookup id d _ i r Hi).
    by rewrite decide_False.
  - intros i r Hi. rewrite (update_rows_lookup id d _ i r Hi).
    eexists. split; [reflexivity|]. by destruct (decide _).
Qed.

Lemma X7_updates_write_one_shipment_witness :
  shipments (updateShipmentDetailsAction Sample.alice_env "s-1"
               (Sample.form None None (Some [])) Sample.store).2 !! 1%nat
  = Some (Sample.shipment_of "s-2" "u-bob")
  ∧ consignees (updateShipmentDetailsAction Sample.alice_env "s-1"
                  (Sample.form None None (Some [])) Sample.store).2
    = consignees Sample.store.
Proof.
  destruct (X7_updates_write_one_shipment Sample.alice_env "s-1" Sample.store
              (updateShipmentDetailsAction Sample.alice_env "s-1"
                 (Sample.form None None (Some [])) Sample.store).2)
    as (Hc & _ & _ & _ & Hother & _).
  { right. left. by eexists. }
  split; [|exact Hc].
  apply (Hother 1%nat (Sample.shipment_of "s-2" "u-bob")); [reflexivity | discriminate].
Defined.

(** X8. A status update of an owned shipment writes the status, the timeline
    and the update time of that shipment, and no other column: its links,
    snapshots, details, documents, notes, cargo and statement of facts are
    what they were. *)
Theorem X8_status_update_columns (env : Env) (u : User) (id status : string)
    (timelineUpdate : option TimelineUpdate) (s : Store) (shipment : Shipment.t) :
  getCurrentUser env = Ok u →
  owned_shipment id u s = Some shipment →
  ∃ shipment',
    owned_shipment id u (updateShipmentStatusAction env id status timelineUpdate s).2
    = Some shipment'
    ∧ Shipment.updatedAt shipment' = now env
    ∧ Shipment.consigneeId shipment' = Shipment.consigneeId shipment
    ∧ Shipment.exporterId shipment' = Shipment.exporterId shipment
    ∧ Shipment.consigneeData shipment' = Shipment.consigneeData shipment
    ∧ Shipment.exporterData shipment' = Shipment.exporterData shipment
    ∧ Shipment.shipmentDetails shipment' = Shipment.shipmentDetails shipment
    ∧ Shipment.documentsData shipment' = Shipment.documentsData shipment
    ∧ Shipment.notesData shipment' = Shipment.notesData shipment
    ∧ Shipment.cargoData shipment' = Shipment.cargoData shipment
    ∧ Shipment.statementOfFactsData shipment' = Shipment.statementOfFactsData shipment.
Proof.
  intros Hu Hs. rewrite (status_run env u id status timelineUpdate s shipment Hu Hs).
  simpl. rewrite owned_shipment_updated, Hs. eexists. split; [reflexivity|].
  repeat split.
Qed.

Lemma X8_status_update_columns_witness :
  ∃ shipment',
    owned_shipment "s-1" Sample.alice
      (updateShipmentStatusAction Sample.alice_later "s-1" "ARRIVED" None Sample.store).2
    = Some shipment'
    ∧ Shipment.updatedAt shipment' = Sample.clock
    ∧ Shipment.documentsData shipment' = [Sample.invoice; Sample.packing_list].
Proof.
  destruct (X8_status_update_columns Sample.alice_later Sample.alice "s-1" "ARRIVED" None
              Sample.store (Sample.shipment_of "s-1" "u-alice") eq_refl eq_refl)
    as (shipment' & Hown & Hat & _ & _ & _ & _ & _ & Hdocs & _).
  by exists shipment'.
Defined.

(** X9. An upload to an owned shipment writes the document checklist of that
    shipment: the status and the timeline are what they were, so an upload
    leaves no trace in the timeline, and the links, snapshots, details,
    notes, cargo and statement of facts are what they were too. *)
Theorem X9_upload_columns (env : Env) (u : User) (shipmentId documentType : string)
    (file : File) (s : Store) (shipment : Shipment.t) :
  getCurrentUser env = Ok u →
  owned_shipment shipmentId u s = Some shipment →
  ∃ shipment',
    owned_shipment shipmentId u
      (processDocumentUploadAction env shipmentId documentType file s).2
    = Some shipment'
    ∧ Shipment.status shipment' = Shipment.status shipment
    ∧ Shipment.timelineData shipment' = Shipment.timelineData shipment
    ∧ Shipment.consigneeId shipment' = Shipment.consigneeId shipment
    ∧ Shipment.exporterId shipment' = Shipment.exporterId shipment
    ∧ Shipment.consigneeData shipment' = Shipment.consigneeData shipment
    ∧ Shipment.exporterData shipment' = Shipment.exporterData shipment
    ∧ Shipment.shipmentDetails shipment' = Shipment.shipmentDetails shipment
    ∧ Shipment.notesData shipment' = Shipment.notesData shipment
    ∧ Shipment.cargoData shipment' = Shipment.cargoData shipment
    ∧ Shipment.statementOfFactsData shipment' = Shipment.statementOfFactsData shipment.
Proof.
  intros Hu Hs. rewrite (upload_run env u shipmentId documentType file s shipment Hu Hs).
  simpl. rewrite owned_shipment_updated, Hs. eexists. split; [reflexivity|].
  repeat split.
Qed.

Lemma X9_upload_columns_witness :
  ∃ shipment',
    owned_shipment "s-1" Sample.alice
      (processDocumentUploadAction Sample.alice_env "s-1" "Packing List" Sample.scan
         Sample.store).2
    = Some shipment'
    ∧ Shipment.status shipment' = "CLIENT_DETAILS"
    ∧ Shipment.timelineData shipment' = [created_event Sample.alice_env].
Proof.
  destruct (X9_upload_columns Sample.alice_env Sample.alice "s-1" "Packing List"
              Sample.scan Sample.store (Sample.shipment_of "s-1" "u-alice")
              eq_refl eq_refl)
    as (shipment' & Hown & Hstatus & Htimeline & _).
  by exists shipment'.
Defined.

(** * Listing *)

Lemma not_older_total {A} (createdAt : A → Date) : Total (not_older createdAt).
Proof. intros a b. unfold not_older. lia. Qed.

Lemma not_older_transitive {A} (createdAt : A → Date) : Transitive (not_older createdAt).
Proof. intros a b c. unfold not_older. lia. Qed.

Lemma newest_first_Permutation {A} (createdAt : A → Date) (rows : list A) :
  newest_first createdAt rows ≡ₚ rows.
Proof. apply merge_sort_Permutation. Qed.

Lemma newest_first_sorted {A} (createdAt : A → Date) (rows : list A) :
  StronglySorted (λ a b, getTime (createdAt b) ≤ getTime (createdAt a))
    (newest_first createdAt rows).
Proof.
  apply (@StronglySorted_merge_sort _ (not_older createdAt) _
           (not_older_transitive createdAt) (not_older_total createdAt)).
Qed.

Lemma elem_of_newest_first {A} (createdAt : A → Date) (rows : list A) (x : A) :
  x ∈ newest_first createdAt rows ↔ x ∈ rows.
Proof. by rewrite newest_first_Permutation. Qed.

Lemma shipments_run (env : Env) (u : User) (s : Store) :
  getCurrentUser env = Ok u →
  getShipmentsAction env s
  = ({| list_success := true;
        data := list_item s
                  <$> newest_first Shipment.createdAt
                        (findMany (λ r, Shipment.userId r = user_id u) (shipments s)) |},
     s).
Proof. intros Hu. unfold getShipmentsAction. by rewrite Hu. Qed.

Lemma non_empty_not_empty (a : option string) : non_empty a ≠ Some "".
Proof.
  destruct a as [x|]; [|done]. simpl. destruct (decide (x = "")); [done|]. by intros [=].
Qed.

Lemma opt_or_not_empty (a : option string) (b : string) : b ≠ "" → opt_or a b ≠ "".
Proof.
  intros Hb. destruct a as [x|]; [|done]. simpl. unfold str_or.
  by destruct (decide (x = "")).
Qed.

(** X10. For a caller with a session, the shipment list succeeds, leaves the
    store as it is, and has one item for each shipment of the caller and
    none for a shipment of another user, in the order of creation times
    from the newest to the oldest. *)
Theorem X10_shipments_are_the_callers_newest_first (env : Env) (u : User) (s : Store) :
  getCurrentUser env = Ok u →
  ∃ rows,
    getShipmentsAction env s
    = ({| list_success := true; data := list_item s <$> rows |}, s)
    ∧ rows ≡ₚ filter (λ r, Shipment.userId r = user_id u) (shipments s)
    ∧ (∀ r, r ∈ rows ↔ r ∈ shipments s ∧ Shipment.userId r = user_id u)
    ∧ StronglySorted
        (λ a b, getTime (Shipment.createdAt b) ≤ getTime (Shipment.createdAt a)) rows.
Proof.
  intros Hu. eexists. split; [by apply shipments_run|].
  split; [apply newest_first_Permutation|]. split; [|apply newest_first_sorted].
  intros r. rewrite elem_of_newest_first. unfold findMany.
  rewrite list_elem_of_filter. tauto.
Qed.

Lemma X10_shipments_witness :
  ∃ rows,
    getShipmentsAction Sample.alice_env Sample.store
    = ({| list_success := true; data := list_item Sample.store <$> rows |}, Sample.store)
    ∧ rows ≡ₚ [Sample.shipment_of "s-1" "u-alice"].
Proof.
  destruct (X10_shipments_are_the_callers_newest_first Sample.alice_env Sample.alice
              Sample.store eq_refl) as (rows & Hrun & Hperm & _).
  exists rows. split; [exact Hrun | exact Hperm].
Defined.

Lemma listed_item (env : Env) (u : User) (s : Store) (r : Shipment.t) :
  getCurrentUser env = Ok u →
  r ∈ shipments s → Shipment.userId r = user_id u →
  list_item s r ∈ data (getShipmentsAction env s).1.
Proof.
  intros Hu Hin Hown. rewrite (shipments_run env u s Hu). simpl.
  apply list_elem_of_fmap_2. apply elem_of_newest_first. unfold findMany.
  by apply list_elem_of_filter.
Qed.

(** X11. Every shipment of the caller has its item in the list: the item
    has the row's id, reference number and status; its type is sea exactly
    when the freight type is "IMS" and air for any other code; a sea item
    has no AWB number and an air item no BL number; the number it has, and
    the ETA, are never the empty string; and its consignee name is never
    empty, "N/A" standing in when neither a linked row nor the snapshot
    gives one. *)
Theorem X11_list_item_of_a_shipment (env : Env) (u : User) (s : Store) (r : Shipment.t) :
  getCurrentUser env = Ok u →
  r ∈ shipments s → Shipment.userId r = user_id u →
  ∃ item,
    item ∈ data (getShipmentsAction env s).1
    ∧ item_id item = Shipment.id r
    ∧ item_referenceNumber item = Shipment.referenceNumber r
    ∧ item_status item = Shipment.status r
    ∧ (item_type item = sea ↔ Shipment.freightType r = "IMS")
    ∧ (item_type item = air ↔ Shipment.freightType r ≠ "IMS")
    ∧ (item_type item = sea → awbNumber item = None)
    ∧ (item_type item = air → blNumber item = None)
    ∧ blNumber item ≠ Some "" ∧ awbNumber item ≠ Some "" ∧ eta item ≠ Some ""
    ∧ item_consignee item ≠ ""
    ∧ (include_consignee s r = None → Shipment.consigneeData r = EmptyObject →
       item_consignee item = "N/A").
Proof.
  intros Hu Hin Hown. exists (list_item s r). split; [by eapply listed_item|].
  unfold list_item. simpl.
  destruct (decide (Shipment.freightType r = "IMS")) as [Hims|Hims]; simpl.
  - repeat split; try done; try apply non_empty_not_empty.
    + by apply opt_or_not_empty, opt_or_not_empty.
    + by intros -> ->.
  - repeat split; try done; try apply non_empty_not_empty.
    + by apply opt_or_not_empty, opt_or_not_empty.
    + by intros -> ->.
Qed.

Lemma X11_list_item_witness :
  ∃ item,
    item ∈ data (getShipmentsAction Sample.alice_env Sample.store).1
    ∧ item_id item = "s-1"
    ∧ item_type item = sea
    ∧ awbNumber item = None
    ∧ item_consignee item = "N/A".
Proof.
  destruct (X11_list_item_of_a_shipment Sample.alice_env Sample.alice Sample.store
              (Sample.shipment_of "s-1" "u-alice") eq_refl)
    as (item & Hin & Hid & _ & _ & Hsea & _ & Hawb & _ & _ & _ & _ & _ & Hna).
  { left. }
  { reflexivity. }
  exists item. split; [exact Hin|]. split; [exact Hid|].
  assert (Htype : item_type item = sea) by (by apply Hsea).
  split; [exact Htype|]. split; [by apply Hawb | by apply Hna].
Defined.


(** X12. A shipment just created is in its creator's list: the item has the
    reference number the creation returned and the status CLIENT_DETAILS,
    and its type is sea when the shipment type is "IMS" and air for any
    other type. *)
Theorem X12_created_shipment_is_listed (env env2 : Env) (input : CreateShipmentInput)
    (s s' : Store) (out : CreateShipmentOutput) :
  createShipmentAction env input s = (Ok out, s') →
  getCurrentUser env2 = getCurrentUser env →
  ∃ item,
    item ∈ data (getShipmentsAction env2 s').1
    ∧ item_id item = Shipment.id (shipment out)
    ∧ item_referenceNumber item = referenceNumber out
    ∧ item_status item = "CLIENT_DETAILS"
    ∧ item_type item = (if decide (shipmentType input = "IMS") then sea else air).
Proof.
  intros Hrun Hsame.
  destruct (create_inv _ _ _ _ _ Hrun) as (u0 & _ & Href & Hrow & _).
  destruct (create_outcome _ _ _ _ _ Hrun) as (u & Hu & Hout & _ & _ & _ & Hrows).
  rewrite Hu in Hsame.
  exists (list_item s' (shipment out)). split.
  - apply (listed_item env2 u s' (shipment out) Hsame).
    + rewrite Hrows. apply elem_of_app. right. by apply list_elem_of_singleton.
    + by rewrite Hout.
  - unfold list_item. simpl. rewrite Href, Hrow. by rewrite Hout.
Qed.

Lemma X12_created_shipment_witness :
  ∃ out s' item,
    createShipmentAction Sample.alice_env
      {| shipmentType := "IAS"; formData := Sample.form None None None |}
      Sample.store = (Ok out, s')
    ∧ item ∈ data (getShipmentsAction Sample.alice_later s').1
    ∧ item_id item = "s-new"
    ∧ item_referenceNumber item = "CLEX-IAS26-0042"
    ∧ item_type item = air.
Proof.
  destruct (X12_created_shipment_is_listed Sample.alice_env Sample.alice_later
              {| shipmentType := "IAS"; formData := Sample.form None None None |}
              Sample.store _ _ eq_refl eq_refl)
    as (item & Hin & Hid & Href & _ & Htype).
  eexists _, _, item. split; [reflexivity|]. by repeat split.
Defined.

Lemma saved_run (env : Env) (u : User) (type : ClientType) (s : Store) :
  getCurrentUser env = Ok u →
  getSavedEntitiesAction env type s
  = (match type with
     | ConsigneeClient =>
         (λ c, {| saved_id := Consignee.id c;
                  saved_name := Consignee.name c;
                  saved_address := Consignee.businessAddress c;
                  saved_tin := Some (Consignee.tin c);
                  saved_brn := Some (Consignee.brn c);
                  saved_contactPerson := Consignee.contactPerson c;
                  saved_contactNumber := Consignee.contactNumber c;
                  saved_email := Consignee.email c |})
           <$> newest_first Consignee.createdAt
                 (findMany (λ c, Consignee.userId c = user_id u) (consignees s))
     | ExporterClient =>
         (λ e, {| saved_id := Exporter.id e;
                  saved_name := Exporter.name e;
                  saved_address := Exporter.businessAddress e;
                  saved_tin := None;
                  saved_brn := None;
                  saved_contactPerson := Exporter.contactPerson e;
                  saved_contactNumber := Exporter.contactNumber e;
                  saved_email := Exporter.email e |})
           <$> newest_first Exporter.createdAt
                 (findMany (λ e, Exporter.userId e = user_id u) (exporters s))
     end, s).
Proof. intros Hu. unfold getSavedEntitiesAction. rewrite Hu. by destruct type. Qed.

(** X13. For a caller with a session, the saved consignees are the
    consignees of the caller, each once and none of another user, from the
    newest to the oldest, each with its tin and brn; the saved exporters are
    the caller's exporters in the same order, and carry no tin and no brn.
    The store is left as it is. *)
Theorem X13_saved_entities_are_the_callers (env : Env) (u : User) (s : Store) :
  getCurrentUser env = Ok u →
  (∃ rows,
     rows ≡ₚ filter (λ c, Consignee.userId c = user_id u) (consignees s)
     ∧ StronglySorted
         (λ a b, getTime (Consignee.createdAt b) ≤ getTime (Consignee.createdAt a)) rows
     ∧ (getSavedEntitiesAction env ConsigneeClient s).2 = s
     ∧ saved_id <$> (getSavedEntitiesAction env ConsigneeClient s).1
       = Consignee.id <$> rows
     ∧ saved_name <$> (getSavedEntitiesAction env ConsigneeClient s).1
       = Consignee.name <$> rows
     ∧ saved_address <$> (getSavedEntitiesAction env ConsigneeClient s).1
       = Consignee.businessAddress <$> rows
     ∧ saved_tin <$> (getSavedEntitiesAction env ConsigneeClient s).1
       = Some ∘ Consignee.tin <$> rows
     ∧ saved_brn <$> (getSavedEntitiesAction env ConsigneeClient s).1
       = Some ∘ Consignee.brn <$> rows)
  ∧ (∃ rows,
       rows ≡ₚ filter (λ e, Exporter.userId e = user_id u) (exporters s)
       ∧ StronglySorted
           (λ a b, getTime (Exporter.createdAt b) ≤ getTime (Exporter.createdAt a)) rows
       ∧ (getSavedEntitiesAction env ExporterClient s).2 = s
       ∧ saved_id <$> (getSavedEntitiesAction env ExporterClient s).1
         = Exporter.id <$> rows
       ∧ saved_name <$> (getSavedEntitiesAction env ExporterClient s).1
         = Exporter.name <$> rows
       ∧ saved_address <$> (getSavedEntitiesAction env ExporterClient s).1
         = Exporter.businessAddress <$> rows
       ∧ (∀ entity, entity ∈ (getSavedEntitiesAction env ExporterClient s).1 →
            saved_tin entity = None ∧ saved_brn entity = None)).
Proof.
  intros Hu. split.
  - eexists. split; [apply newest_first_Permutation|].
    split; [apply newest_first_sorted|].
    rewrite (saved_run env u ConsigneeClient s Hu). simpl.
    rewrite <- !list_fmap_compose. by repeat split.
  - eexists. split; [apply newest_first_Permutation|].
    split; [apply newest_first_sorted|].
    rewrite (saved_run env u ExporterClient s Hu). simpl.
    rewrite <- !list_fmap_compose. repeat split.
    + by apply list_elem_of_fmap in H as (e & -> & _).
    + by apply list_elem_of_fmap in H as (e & -> & _).
Qed.

Lemma X13_saved_entities_witness :
  saved_id <$> (getSavedEntitiesAction Sample.alice_env ConsigneeClient Sample.store).1
  = ["c-acme"]
  ∧ saved_tin <$> (getSavedEntitiesAction Sample.alice_env ConsigneeClient Sample.store).1
    = [Some "111"].
Proof.
  destruct (X13_saved_entities_are_the_callers Sample.alice_env Sample.alice Sample.store
              eq_refl) as [(rows & Hperm & _ & _ & Hid & _ & _ & Htin & _) _].
  apply Permutation_singleton_r in Hperm. subst rows.
  split; [exact Hid | exact Htin].
Defined.

(** * Clients created on their own *)

Lemma opt_or_empty (a : option string) : opt_or a "" = default "" a.
Proof. destruct a as [x|]; [|done]. apply str_or_empty. Qed.

(** X14. With a session, creating a client always adds a row for the caller
    at the end of the table of the requested type, whatever rows the table
    holds: nothing is looked up, so a second client of the same name is a
    second row. The other tables are unchanged. Contact fields, tin, brn and
    email that are missing become empty strings, and a consignee's
    registered name is its name when none, or an empty one, is given. *)
Theorem X14_client_creation_always_appends (env : Env) (u : User) (input : ClientInput)
    (s : Store) :
  getCurrentUser env = Ok u →
  match client_type input with
  | ConsigneeClient =>
      ∃ row,
        createClientDuringShipmentAction env input s
        = (Success (inl row), set_consignees (consignees s ++ [row])%list s)
        ∧ Consignee.id row = cuid env ConsigneeTable
        ∧ Consignee.userId row = user_id u
        ∧ Consignee.name row = client_name input
        ∧ Consignee.businessAddress row = client_address input
        ∧ Consignee.registeredName row
          = match client_registeredName input with
            | Some n => if decide (n = "") then client_name input else n
            | None => client_name input
            end
        ∧ Consignee.tin row = default "" (client_tin input)
        ∧ Consignee.brn row = default "" (client_brn input)
        ∧ Consignee.contactPerson row = default "" (client_contactPerson input)
        ∧ Consignee.contactNumber row = default "" (client_contactNumber input)
        ∧ Consignee.email row = default "" (client_email input)
  | ExporterClient =>
      ∃ row,
        createClientDuringShipmentAction env input s
        = (Success (inr row), set_exporters (exporters s ++ [row])%list s)
        ∧ Exporter.id row = cuid env ExporterTable
        ∧ Exporter.userId row = user_id u
        ∧ Exporter.name row = client_name input
        ∧ Exporter.businessAddress row = client_address input
        ∧ Exporter.contactPerson row = default "" (client_contactPerson input)
        ∧ Exporter.contactNumber row = default "" (client_contactNumber input)
        ∧ Exporter.email row = default "" (client_email input)
  end.
Proof.
  intros Hu. unfold createClientDuringShipmentAction. rewrite Hu. simpl.
  destruct (client_type input); simpl.
  - eexists. split; [reflexivity|]. simpl. rewrite !opt_or_empty.
    repeat split.
  - eexists. split; [reflexivity|]. simpl. by rewrite !opt_or_empty.
Qed.

Lemma X14_client_creation_witness :
  ∃ row,
    createClientDuringShipmentAction Sample.alice_env Sample.acme_again Sample.store
    = (Success (inl row),
       set_consignees [Sample.acme; Sample.globex; row] Sample.store)
    ∧ Consignee.id row = "c-new"
    ∧ Consignee.name row = "Acme"
    ∧ Consignee.registeredName row = "Acme"
    ∧ Consignee.tin row = "".
Proof.
  destruct (X14_client_creation_always_appends Sample.alice_env Sample.alice
              Sample.acme_again Sample.store eq_refl)
    as (row & Hrun & Hid & _ & Hname & _ & Hreg & Htin & _).
  exists row. split; [exact Hrun|]. split; [exact Hid|]. split; [exact Hname|].
  split; [exact Hreg | exact Htin].
Defined.

(** X15. A client just created is among the saved entities of its type that
    its creator gets next, with the id, the name and the address it was
    created with. *)
Theorem X15_created_client_is_saved (env env2 : Env) (u : User) (input : ClientInput)
    (s : Store) :
  getCurrentUser env = Ok u → getCurrentUser env2 = Ok u →
  ∃ entity,
    entity ∈ (getSavedEntitiesAction env2 (client_type input)
                (createClientDuringShipmentAction env input s).2).1
    ∧ saved_id entity
      = cuid env match client_type input with
                 | ConsigneeClient => ConsigneeTable
                 | ExporterClient => ExporterTable
                 end
    ∧ saved_name entity = client_name input
    ∧ saved_address entity = client_address input.
Proof.
  intros Hu Hu2. rewrite (saved_run env2 u _ _ Hu2).
  unfold createClientDuringShipmentAction. rewrite Hu. simpl.
  destruct (client_type input); simpl.
  - eexists. split.
    + apply list_elem_of_fmap_2, elem_of_newest_first. unfold findMany, create.
      apply list_elem_of_filter. split; [|apply elem_of_app; right; left]. done.
    + done.
  - eexists. split.
    + apply list_elem_of_fmap_2, elem_of_newest_first. unfold findMany, create.
      apply list_elem_of_filter. split; [|apply elem_of_app; right; left]. done.
    + done.
Qed.

Lemma X15_created_client_witness :
  ∃ entity,
    entity ∈ (getSavedEntitiesAction Sample.alice_later ConsigneeClient
                (createClientDuringShipmentAction Sample.alice_env Sample.acme_again
                   Sample.store).2).1
    ∧ saved_id entity = "c-new"
    ∧ saved_name entity = "Acme".
Proof.
  destruct (X15_created_client_is_saved Sample.alice_env Sample.alice_later Sample.alice
              Sample.acme_again Sample.store eq_refl eq_refl)
    as (entity & Hin & Hid & Hname & _).
  by exists entity.
Defined.

Lemma client_created (env : Env) (u : User) (input : ClientInput) (s : Store) :
  getCurrentUser env = Ok u →
  client_type input = ConsigneeClient →
  ∃ row,
    consignees (createClientDuringShipmentAction env input s).2
    = (consignees s ++ [row])%list
    ∧ Consignee.id row = cuid env ConsigneeTable
    ∧ Consignee.userId row = user_id u
    ∧ Consignee.name row = client_name input.
Proof.
  intros Hu Htype. unfold createClientDuringShipmentAction. rewrite Hu, Htype. simpl.
  by eexists.
Qed.

(** X16. After a consignee has been created on its own, a shipment created
    by the same user with a consignee input that carries an id and has that
    consignee's name adds no consignee row: the shipment is linked to a
    consignee of the caller that has the input's tin or name, and to the
    one just created when no older consignee of the caller has either. *)
Theorem X16_created_client_is_reused (env env2 : Env) (u : User) (input : ClientInput)
    (request : CreateShipmentInput) (c : ConsigneeData.t) (s : Store) :
  getCurrentUser env = Ok u → getCurrentUser env2 = Ok u →
  client_type input = ConsigneeClient →
  ShipmentData.consignee (formData request) = Some c →
  truthy (ConsigneeData.id c) = true →
  ConsigneeData.name c = client_name input →
  let s1 := (createClientDuringShipmentAction env input s).2 in
  ∃ out s2 r,
    createShipmentAction env2 request s1 = (Ok out, s2)
    ∧ consignees s2 = consignees s1
    ∧ r ∈ consignees s1
    ∧ Consignee.userId r = user_id u
    ∧ (Consignee.tin r = ConsigneeData.tin c ∨ Consignee.name r = ConsigneeData.name c)
    ∧ Shipment.consigneeId (shipment out) = Some (Consignee.id r)
    ∧ ((∀ r0, r0 ∈ consignees s → Consignee.userId r0 = user_id u →
          Consignee.tin r0 ≠ ConsigneeData.tin c
          ∧ Consignee.name r0 ≠ ConsigneeData.name c) →
       Consignee.id r = cuid env ConsigneeTable).
Proof.
  intros Hu Hu2 Htype Hc Hid Hname s1.
  destruct (client_created env u input s Hu Htype) as (row & Hs1 & Hrow_id & Hrow_own & Hrow_name).
  fold s1 in Hs1.
  destruct (create_tables env2 u request s1 Hu2) as (out & s2 & Hrun & Hout & Hs2 & _).
  rewrite (handleConsignee_with_id env2 u _ s1 c Hc Hid) in Hout, Hs2.
  set (P := λ r, (Consignee.tin r = ConsigneeData.tin c
                  ∨ Consignee.name r = ConsigneeData.name c)
                 ∧ Consignee.userId r = user_id u) in *.
  assert (HP : P row) by (split; [right; congruence | done]).
  assert (Hin : row ∈ consignees s1).
  { rewrite Hs1. apply elem_of_app. right. by left. }
  destruct (findFirst P (consignees s1)) as [r|] eqn:Hfind;
    [|rewrite findFirst_None in Hfind; by destruct (Hfind row Hin)].
  simpl in Hout, Hs2. exists out, s2, r.
  pose proof (findFirst_Some P _ _ Hfind) as (Hr & Hmatch & Hown).
  repeat split; try done.
  intros Hfresh.
  assert (Hmiss : findFirst P (consignees s) = None).
  { apply findFirst_None. intros r0 Hr0 [Hm0 Hown0].
    destruct (Hfresh r0 Hr0 Hown0). by destruct Hm0. }
  rewrite Hs1 in Hfind.
  change (consignees s ++ [row])%list with (create row (consignees s)) in Hfind.
  rewrite (findFirst_create_miss P _ _ Hmiss), decide_True in Hfind by done.
  by injection Hfind as <-.
Qed.

Lemma X16_created_client_witness :
  ∃ out s2,
    createShipmentAction Sample.alice_later
      (Sample.request
         (Sample.form (Some (Sample.consignee_input (Some "c-new") "Acme" "111"))
            None None))
      (createClientDuringShipmentAction Sample.alice_env Sample.acme_again
         Sample.empty_store).2 = (Ok out, s2)
    ∧ Shipment.consigneeId (shipment out) = Some "c-new"
    ∧ length (consignees s2) = 1%nat.
Proof.
  destruct (X16_created_client_is_reused Sample.alice_env Sample.alice_later Sample.alice
              Sample.acme_again
              (Sample.request
                 (Sample.form (Some (Sample.consignee_input (Some "c-new") "Acme" "111"))
                    None None))
              (Sample.consignee_input (Some "c-new") "Acme" "111")
              Sample.empty_store eq_refl eq_refl eq_refl eq_refl eq_refl eq_refl)
    as (out & s2 & r & Hrun & Hs2 & _ & _ & _ & Hlink & Hnew).
  exists out, s2. split; [exact Hrun|]. split.
  - rewrite Hlink, Hnew; [reflexivity|].
    intros r0 Hr0. by apply not_elem_of_nil in Hr0.
  - by rewrite Hs2.
Defined.

(** * Reading back what was written *)

Lemma get_by_id_owned (env : Env) (u : User) (id : string) (s : Store)
    (shipment : Shipment.t) :
  getCurrentUser env = Ok u →
  owned_shipment id u s = Some shipment →
  getShipmentByIdAction env id s = (Some (shipment_view (λ d, d) s shipment), s).
Proof. intros Hu Hs. unfold getShipmentByIdAction. by rewrite Hu; simpl; rewrite Hs. Qed.

(** X17. Reading a shipment right after its creation, as its creator, gives
    what the creation stored, provided the key the store gave the new row
    was not in use: the reference number that was returned, the status
    CLIENT_DETAILS, the timeline of one entry, the details and documents of
    the form data (empty when it has none), no notes, empty computations,
    and empty lists for cargo and statement of facts, which a creation
    does not write. *)
Theorem X17_created_shipment_reads_back (env env2 : Env) (input : CreateShipmentInput)
    (s s' : Store) (out : CreateShipmentOutput) :
  createShipmentAction env input s = (Ok out, s') →
  getCurrentUser env2 = getCurrentUser env →
  (∀ r, r ∈ shipments s → Shipment.id r ≠ cuid env ShipmentTable) →
  ∃ view,
    getShipmentByIdAction env2 (Shipment.id (shipment out)) s' = (Some view, s')
    ∧ ShipmentView.id view = cuid env ShipmentTable
    ∧ ShipmentView.referenceNumber view = referenceNumber out
    ∧ ShipmentView.status view = "CLIENT_DETAILS"
    ∧ ShipmentView.timeline view = [created_event env]
    ∧ ShipmentView.shipmentDetails view
      = default ∅ (ShipmentData.shipmentDetails (formData input))
    ∧ ShipmentView.documents view
      = default [] (ShipmentData.documents (formData input))
    ∧ ShipmentView.notes view = []
    ∧ ShipmentView.computations view = Some (JObj [])
    ∧ ShipmentView.cargo view = []
    ∧ ShipmentView.statementOfFacts view = [].
Proof.
  intros Hrun Hsame Hfresh.
  destruct (create_inv _ _ _ _ _ Hrun) as (u0 & _ & Href & Hrow & _).
  destruct (create_outcome _ _ _ _ _ Hrun) as (u & Hu & Hout & _ & _ & _ & Hrows).
  rewrite Hu in Hsame.
  assert (Hown : owned_shipment (Shipment.id (shipment out)) u s' = Some (shipment out)).
  { unfold owned_shipment. rewrite Hrows.
    change (shipments s ++ [shipment out])%list with (create (shipment out) (shipments s)).
    rewrite findFirst_create_miss.
    - apply decide_True. by rewrite Hout.
    - apply findFirst_None. intros r Hr [Hid _]. apply (Hfresh r Hr).
      by rewrite Hid, Hout. }
  eexists. split; [by apply (get_by_id_owned env2 u)|].
  simpl. rewrite Href, Hrow. by rewrite Hout.
Qed.

Lemma X17_created_shipment_witness :
  ∃ out s' view,
    createShipmentAction Sample.alice_env
      (Sample.request (Sample.form None None (Some [Sample.invoice])))
      Sample.store = (Ok out, s')
    ∧ getShipmentByIdAction Sample.alice_later "s-new" s' = (Some view, s')
    ∧ ShipmentView.referenceNumber view = "CLEX-IMS26-0042"
    ∧ ShipmentView.documents view = [Sample.invoice]
    ∧ ShipmentView.cargo view = [].
Proof.
  destruct (X17_created_shipment_reads_back Sample.alice_env Sample.alice_later
              (Sample.request (Sample.form None None (Some [Sample.invoice])))
              Sample.store _ _ eq_refl eq_refl)
    as (view & Hget & _ & Href & _ & _ & _ & Hdocs & _ & _ & Hcargo & _).
  { intros r Hr. unfold Sample.store in Hr. simpl in Hr.
    apply elem_of_cons in Hr as [->|Hr]; [discriminate|].
    apply elem_of_cons in Hr as [->|Hr]; [discriminate|].
    by apply not_elem_of_nil in Hr. }
  eexists _, _, view. split; [reflexivity|]. by repeat split.
Defined.





(** * Doing an update twice *)

Lemma apply_twice (d : ShipmentUpdate.t) (r : Shipment.t) :
  ShipmentUpdate.apply d (ShipmentUpdate.apply d r) = ShipmentUpdate.apply d r.
Proof.
  destruct d as [st ci ei cd ed sd dd td nd cg sf ua]. unfold ShipmentUpdate.apply. simpl.
  f_equal; try reflexivity;
    match goal with
    | |- context [default _ ?x] => by destruct x
    | |- context [match ?x with _ => _ end] => by destruct x
    end.
Qed.

Lemma update_rows_twice (id : string) (d : ShipmentUpdate.t) (rows : list Shipment.t) :
  update_rows id d (update_rows id d rows) = update_rows id d rows.
Proof.
  unfold update_rows. rewrite <- list_fmap_compose. apply list_fmap_ext.
  intros i r _. simpl. destruct (decide (Shipment.id r = id)) as [Hid|Hid].
  - rewrite apply_id, decide_True by done. apply apply_twice.
  - by rewrite decide_False.
Qed.

Lemma findFirst_id_updated (id : string) (d : ShipmentUpdate.t) (rows : list Shipment.t) :
  findFirst (λ r, Shipment.id r = id) (update_rows id d rows)
  = ShipmentUpdate.apply d <$> findFirst (λ r, Shipment.id r = id) rows.
Proof.
  unfold findFirst, update_rows.
  induction rows as [|r rows IH]; [done|].
  rewrite fmap_cons, !filter_cons.
  destruct (decide (Shipment.id r = id)) as [Hid|Hid].
  - by rewrite decide_True by (by rewrite apply_id).
  - by rewrite decide_False.
Qed.

Lemma relink_consignee_twice (current : option string) (c : ConsigneeData.t)
    (s s1 : Store) :
  consignees s1 = consignees s →
  relink_consignee (relink_consignee current c s) c s1 = relink_consignee current c s.
Proof.
  intros Hsame. unfold relink_consignee. rewrite Hsame.
  destruct (truthy _); [|done]. by destruct (_ ≫= _).
Qed.

Lemma relink_exporter_twice (current : option string) (e : ExporterData.t)
    (s s1 : Store) :
  exporters s1 = exporters s →
  relink_exporter (relink_exporter current e s) e s1 = relink_exporter current e s.
Proof.
  intros Hsame. unfold relink_exporter. rewrite Hsame.
  destruct (truthy _); [|done]. by destruct (_ ≫= _).
Qed.


Lemma details_eval (env : Env) (u : User) (id : string) (updates : ShipmentData.t)
    (s : Store) (shipment r0 : Shipment.t) :
  getCurrentUser env = Ok u →
  owned_shipment id u s = Some shipment →
  findFirst (λ r, Shipment.id r = id) (shipments s) = Some r0 →
  let d := details_update env shipment updates s in
  let s1 := set_shipments (update_rows id d (shipments s)) s in
  updateShipmentDetailsAction env id updates s
  = (Success (shipment_view document_view s1 (ShipmentUpdate.apply d r0)), s1).
Proof.
  intros Hu Hs Hr0 d s1. unfold updateShipmentDetailsAction. rewrite Hu. simpl.
  rewrite Hs. unfold shipment_update. by rewrite Hr0.
Qed.

Lemma details_update_again (env env2 : Env) (shipment : Shipment.t)
    (updates : ShipmentData.t) (s s1 : Store) :
  now env2 = now env →
  consignees s1 = consignees s → exporters s1 = exporters s →
  details_update env2
    (ShipmentUpdate.apply (details_update env shipment updates s) shipment) updates s1
  = details_update env shipment updates s.
Proof.
  intros Hnow Hc He. unfold details_update. rewrite Hnow. simpl.
  destruct (ShipmentData.consignee updates) as [c|],
    (ShipmentData.exporter updates) as [e|]; simpl;
    by rewrite ?(relink_consignee_twice _ _ s s1 Hc), ?(relink_exporter_twice _ _ s s1 He).
Qed.

(** X20. A details update is idempotent: done a second time by the same
    user at the same clock reading, on the store the first one left, it
    returns the same view and leaves the same store. So a request that is
    sent again can only move the update time. *)
Theorem X20_details_update_is_idempotent (env env2 : Env) (u : User) (id : string)
    (updates : ShipmentData.t) (s : Store) (shipment : Shipment.t) :
  getCurrentUser env = Ok u → getCurrentUser env2 = Ok u →
  now env2 = now env →
  owned_shipment id u s = Some shipment →
  updateShipmentDetailsAction env2 id updates
    (updateShipmentDetailsAction env id updates s).2
  = updateShipmentDetailsAction env id updates s.
Proof.
  intros Hu Hu2 Hnow Hs.
  destruct (owned_shipment_Some id u s shipment Hs) as (Hin & Hid & _).
  destruct (findFirst_is_Some (λ r, Shipment.id r = id) (shipments s) shipment Hin Hid)
    as [r0 Hr0].
  rewrite (details_eval env u id updates s shipment r0 Hu Hs Hr0). simpl.
  set (d := details_update env shipment updates s).
  set (s1 := set_shipments (update_rows id d (shipments s)) s).
  assert (Hs1 : owned_shipment id u s1 = Some (ShipmentUpdate.apply d shipment))
    by (unfold s1; by rewrite owned_shipment_updated, Hs).
  assert (Hr1 : findFirst (λ r, Shipment.id r = id) (shipments s1)
                = Some (ShipmentUpdate.apply d r0))
    by (unfold s1; simpl; by rewrite findFirst_id_updated, Hr0).
  pose proof (details_eval env2 u id updates s1 _ _ Hu2 Hs1 Hr1) as E2. cbv zeta in E2.
  assert (Hd : details_update env2 (ShipmentUpdate.apply d shipment) updates s1 = d)
    by (by apply details_update_again).
  rewrite Hd, apply_twice in E2.
  assert (Hs2 : set_shipments (update_rows id d (shipments s1)) s1 = s1).
  { unfold s1, set_shipments. simpl. by rewrite update_rows_twice. }
  rewrite Hs2 in E2. exact E2.
Qed.

Lemma X20_details_update_witness :
  updateShipmentDetailsAction Sample.alice_later "s-1"
    (Sample.form (Some (Sample.consignee_input (Some "c-globex") "Globex" "222"))
       None (Some [Sample.packing_list]))
    (updateShipmentDetailsAction Sample.alice_env "s-1"
       (Sample.form (Some (Sample.consignee_input (Some "c-globex") "Globex" "222"))
          None (Some [Sample.packing_list]))
       Sample.store).2
  = updateShipmentDetailsAction Sample.alice_env "s-1"
      (Sample.form (Some (Sample.consignee_input (Some "c-globex") "Globex" "222"))
         None (Some [Sample.packing_list]))
      Sample.store.
Proof.
  exact (X20_details_update_is_idempotent Sample.alice_env Sample.alice_later
           Sample.alice "s-1"
           (Sample.form (Some (Sample.consignee_input (Some "c-globex") "Globex" "222"))
              None (Some [Sample.packing_list]))
           Sample.store (Sample.shipment_of "s-1" "u-alice")
           eq_refl eq_refl eq_refl eq_refl).
Defined.

(** * A client id in a details update *)



(** * Uploads add up *)

(** X22. Uploads accumulate. After two uploads of the same document type to
    an owned shipment, every checklist entry of that name has the status
    "draft" and, after the files it had, the reference of the first upload
    and then that of the second; every other entry is what it was, and the
    list has the length it had. *)
Theorem X22_uploads_accumulate (env1 env2 : Env) (u : User)
    (shipmentId documentType : string) (file1 file2 : File) (s : Store)
    (shipment : Shipment.t) :
  getCurrentUser env1 = Ok u → getCurrentUser env2 = Ok u →
  owned_shipment shipmentId u s = Some shipment →
  let url1 := simulatedUrl env1 shipmentId documentType file1 in
  let url2 := simulatedUrl env2 shipmentId documentType file2 in
  let s1 := (processDocumentUploadAction env1 shipmentId documentType file1 s).2 in
  let s2 := (processDocumentUploadAction env2 shipmentId documentType file2 s1).2 in
  ∃ shipment2,
    owned_shipment shipmentId u s2 = Some shipment2
    ∧ length (Shipment.documentsData shipment2)
      = length (Shipment.documentsData shipment)
    ∧ ∀ (i : nat) (doc : ChecklistItem.t),
        Shipment.documentsData shipment !! i = Some doc →
        Shipment.documentsData shipment2 !! i
        = Some (if decide (ChecklistItem.name doc = documentType)
                then {| ChecklistItem.name := ChecklistItem.name doc;
                        ChecklistItem.status := "draft";
                        ChecklistItem.files :=
                          Some (default [] (ChecklistItem.files doc)
                                ++ [url1; url2])%list;
                        ChecklistItem.rest := ChecklistItem.rest doc |}
                else doc).
Proof.
  intros Hu1 Hu2 Hs url1 url2 s1 s2.
  assert (Hs1 : owned_shipment shipmentId u s1
                = Some (ShipmentUpdate.apply
                          (documents_update
                             (record_upload documentType url1
                                <$> Shipment.documentsData shipment)) shipment)).
  { unfold s1. rewrite (upload_run env1 u _ _ file1 s shipment Hu1 Hs). simpl.
    by rewrite owned_shipment_updated, Hs. }
  eexists. split.
  { unfold s2. rewrite (upload_run env2 u _ _ file2 s1 _ Hu2 Hs1). simpl.
    by rewrite owned_shipment_updated, Hs1. }
  rewrite !apply_documents_update. fold url1 url2.
  split; [by rewrite !length_fmap|].
  intros i doc Hi. rewrite !list_lookup_fmap, Hi. simpl. f_equal.
  unfold record_upload at 2.
  destruct (decide (ChecklistItem.name doc = documentType)) as [Hname|Hname].
  - unfold record_upload. simpl. rewrite decide_True by done. simpl.
    by rewrite <- app_assoc.
  - unfold record_upload. by rewrite decide_False.
Qed.

Lemma X22_uploads_witness :
  ∃ shipment2,
    owned_shipment "s-1" Sample.alice
      (processDocumentUploadAction Sample.alice_later "s-1" "Packing List" Sample.scan
         (processDocumentUploadAction Sample.alice_env "s-1" "Packing List" Sample.scan
            Sample.store).2).2 = Some shipment2
    ∧ Shipment.documentsData shipment2 !! 0%nat = Some Sample.invoice
    ∧ (ChecklistItem.files <$> Shipment.documentsData shipment2 !! 1%nat)
      = Some (Some ["/simulated-uploads/s-1/old.pdf";
                    "/simulated-uploads/s-1/Packing List-1793577600000-invoice.pdf";
                    "/simulated-uploads/s-1/Packing List-1793577600000-invoice.pdf"]).
Proof.
  destruct (X22_uploads_accumulate Sample.alice_env Sample.alice_later Sample.alice
              "s-1" "Packing List" Sample.scan Sample.scan Sample.store
              (Sample.shipment_of "s-1" "u-alice") eq_refl eq_refl eq_refl)
    as (shipment2 & Hown & _ & Hat).
  exists shipment2. split; [exact Hown|]. split.
  - exact (Hat 0%nat Sample.invoice eq_refl).
  - rewrite (Hat 1%nat Sample.packing_list eq_refl). reflexivity.
Defined.

(** * When reference numbers collide *)

Lemma digit_inj (a b : Z) : 0 ≤ a < 10 → 0 ≤ b < 10 → digit a = digit b → a = b.
Proof.
  intros Ha Hb Heq. unfold digit in Heq.
  apply (f_equal N_of_ascii) in Heq. rewrite !N_ascii_embedding in Heq by lia. lia.
Qed.

Lemma four_digits_inj (n m : Z) :
  0 ≤ n < 10000 → 0 ≤ m < 10000 → four_digits n = four_digits m → n = m.
Proof.
  intros Hn Hm Heq. unfold four_digits, two_digits in Heq.
  injection Heq as H1 H2 H3 H4.
  apply digit_inj in H1; [|Z.div_mod_to_equations; lia ..].
  apply digit_inj in H2; [|Z.div_mod_to_equations; lia ..].
  apply digit_inj in H3; [|Z.div_mod_to_equations; lia ..].
  apply digit_inj in H4; [|Z.div_mod_to_equations; lia ..].
  Z.div_mod_to_equations. lia.
Qed.

(** X23. Two successful creations of the same shipment type in the same
    year get the same reference number exactly when the double products of
    their random draws and ten thousand have the same floor: the four
    digits are all that tells such shipments apart, and nothing else enters
    the number. *)
Theorem X23_reference_numbers_collide_on_equal_draws (env1 env2 : Env)
    (input1 input2 : CreateShipmentInput) (s1 s1' s2 s2' : Store)
    (out1 out2 : CreateShipmentOutput) :
  createShipmentAction env1 input1 s1 = (Ok out1, s1') →
  createShipmentAction env2 input2 s2 = (Ok out2, s2') →
  shipmentType input1 = shipmentType input2 →
  getFullYear (now env1) = getFullYear (now env2) →
  is_draw (random env1) = true → is_draw (random env2) = true →
  referenceNumber out1 = referenceNumber out2
  ↔ Math_floor (SFmul prec emax (random env1) ten_thousand)
    = Math_floor (SFmul prec emax (random env2) ten_thousand).
Proof.
  intros Hrun1 Hrun2 Htype Hyear Hd1 Hd2.
  destruct (create_inv _ _ _ _ _ Hrun1) as (_ & _ & -> & _).
  destruct (create_inv _ _ _ _ _ Hrun2) as (_ & _ & -> & _).
  destruct (floor_draw _ Hd1) as (n1 & Hf1 & Hn1).
  destruct (floor_draw _ Hd2) as (n2 & Hf2 & Hn2).
  unfold reference_number.
  rewrite Htype, Hyear, Hf1, Hf2, !floored_toString_small, !pad_draw by done.
  split.
  - intros Heq. repeat apply String.app_inj in Heq. f_equal.
    by apply four_digits_inj.
  - by intros [= ->].
Qed.

Lemma X23_reference_numbers_witness :
  ∃ out1 s1' out2 s2',
    createShipmentAction Sample.alice_env (Sample.request (Sample.form None None None))
      Sample.store = (Ok out1, s1')
    ∧ createShipmentAction Sample.alice_later
        (Sample.request (Sample.form None None None)) Sample.empty_store
      = (Ok out2, s2')
    ∧ random Sample.alice_env ≠ random Sample.alice_later
    ∧ referenceNumber out1 = referenceNumber out2.
Proof.
  eexists _, _, _, _. split; [reflexivity|]. split; [reflexivity|].
  split; [discriminate|].
  assert (Hd1 : is_draw (random Sample.alice_env) = true) by (vm_compute; reflexivity).
  assert (Hd2 : is_draw (random Sample.alice_later) = true) by (vm_compute; reflexivity).
  apply (X23_reference_numbers_collide_on_equal_draws Sample.alice_env Sample.alice_later
           (Sample.request (Sample.form None None None))
           (Sample.request (Sample.form None None None))
           Sample.store _ Sample.empty_store
           _ _ _ eq_refl eq_refl eq_refl eq_refl Hd1 Hd2).
  vm_compute. reflexivity.
Defined.
